(** * aoc_bootstrapper: a shallow embedding of [src/bootstrapper.py]

    The script scaffolds a workspace for an Advent of Code challenge: it
    downloads the puzzle input, instantiates a starter file from a
    registered template by replacing [[[NAME]]] tokens, and keeps a pickled
    registry from language names to template paths.

    Text is [string]; code points are restricted to those below 256, and
    a file is taken to decode to the text it holds here.  The file system
    is a finite map from locations (the names on the way from the root) to
    nodes; a path string is resolved name by name the way a POSIX kernel
    does it: an absolute path from the root, any other from the working
    directory, "." and empty names skipped, ".." going up, a regular file
    on the way being [NotADirectoryError] and a missing entry
    [FileNotFoundError].  There are no symbolic links, permissions allow
    everything, and paths hold no NUL and stay within the limits on their
    length.  Effects (file system, the module global [config], the object
    bound to [saved_templates], and what the process prints, requests and
    opens) are threaded through a state-and-exit monad. *)

From Stdlib Require Import ZArith Ascii String DecimalString.
From Stdlib Require DecimalPos DecimalZ.
From stdpp Require Import gmap strings list fin_maps.

(** ** Python string primitives *)

(** [str(n)] and [f"{n}"] for an [int]. *)
Definition str_of_int (z : Z) : string := NilZero.string_of_int (Z.to_int z).

Fixpoint str_take (n : nat) (s : string) : string :=
  match n, s with
  | S k, String c r => String c (str_take k r)
  | _, _ => ""
  end.

Fixpoint str_drop (n : nat) (s : string) : string :=
  match n, s with
  | S k, String _ r => str_drop k r
  | _, _ => s
  end.

(** [s[:-k]] for a positive literal [k]: the stop index [len(s) - k] is
    clipped at 0. *)
Definition slice_until_neg (k : nat) (s : string) : string :=
  str_take (String.length s - k) s.

(** [s.endswith(suffix)]. *)
Definition endswith (s suffix : string) : bool :=
  String.eqb (str_drop (String.length s - String.length suffix) s) suffix.

(** [s.rfind(c)] for a one-character [c]: index of the last occurrence. *)
Fixpoint rfind (c : ascii) (s : string) : option nat :=
  match s with
  | "" => None
  | String a r =>
      match rfind c r with
      | Some i => Some (S i)
      | None => if Ascii.eqb a c then Some 0 else None
      end
  end.

(** [os.path.basename(p)] (posixpath): [p[p.rfind('/') + 1:]]. *)
Definition basename (p : string) : string :=
  match rfind "/"%char p with
  | Some i => str_drop (S i) p
  | None => p
  end.

(** [c.lower()] on code points below 256: A-Z and the Latin-1 capitals
    (U+00C0-U+00DE except the multiplication sign U+00D7) move up by 32. *)
Definition lower_char (c : ascii) : ascii :=
  let n := N_of_ascii c in
  if ((65 <=? n) && (n <=? 90) || (192 <=? n) && (n <=? 222) && negb (n =? 215))%N
  then ascii_of_N (n + 32) else c.

(** [s.lower()]. *)
Fixpoint lower (s : string) : string :=
  match s with
  | "" => ""
  | String c r => String (lower_char c) (lower r)
  end.

(** [new.join(parts)]. *)
Definition join (sep : string) (parts : list string) : string :=
  String.concat sep parts.

(** [s.replace(old, new)] scans left to right and replaces every
    non-overlapping occurrence.  [replace_from k] is the scan with [k]
    characters of an already replaced occurrence still to be passed over. *)
Fixpoint replace_from (k : nat) (old new s : string) : string :=
  match s with
  | "" => ""
  | String c r =>
      match k with
      | S k' => replace_from k' old new r
      | O =>
          if String.prefix old s
          then new +:+ replace_from (String.length old - 1) old new r
          else String c (replace_from 0 old new r)
      end
  end.

(** With an empty [old], Python inserts [new] before every character and
    at the end. *)
Fixpoint interleave (new s : string) : string :=
  match s with
  | "" => new
  | String c r => new +:+ String c (interleave new r)
  end.

Definition str_replace (old new s : string) : string :=
  match old with
  | "" => interleave new s
  | _ => replace_from 0 old new s
  end.

(** Number of positions of [s] at which [pat] occurs (occurrences may
    overlap; each start position counts once). *)
Fixpoint occurrences (pat s : string) : nat :=
  match s with
  | "" => if String.prefix pat "" then 1 else 0
  | String _ r => (if String.prefix pat s then 1 else 0) + occurrences pat r
  end.

(** [c in s] for a character. *)
Fixpoint has_char (c : ascii) (s : string) : bool :=
  match s with
  | "" => false
  | String a r => Ascii.eqb a c || has_char c r
  end.

(** ** Placeholder tokens *)

(** The token [f"[[{name}]]"] of a template variable. *)
Definition token (name : string) : string := "[[" +:+ name +:+ "]]".

(** Two strings are prefix-comparable when one starts with the other. *)
Definition comparable (a b : string) : bool :=
  String.prefix a b || String.prefix b a.

(** [starts_within pat host]: some text can hold an occurrence of [host]
    and an occurrence of [pat] that begins inside it. *)
Fixpoint starts_within (pat host : string) : bool :=
  match host with
  | "" => false
  | String _ r => comparable host pat || starts_within pat r
  end.

(** Occurrences of the two strings can share characters in some text. *)
Definition overlap (a b : string) : bool :=
  starts_within a b || starts_within b a.

(** A value of a template variable: the annotation says [str], the
    orchestrator passes the [int]s parsed from the command line. *)
Inductive pyval :=
| VStr (s : string)
| VInt (z : Z).

(** [f"{v}"]. *)
Definition format_value (v : pyval) : string :=
  match v with
  | VStr s => s
  | VInt z => str_of_int z
  end.

(** A [dict[str, _]] in iteration (insertion) order; keys are distinct. *)
Definition vars := list (string * pyval).

(** One turn of the loop at lines 142-143. *)
Definition substitute_var (content : string) (kv : string * pyval) : string :=
  str_replace (token kv.1) (format_value kv.2) content.

(** The loop at lines 142-143. *)
Definition substitute (template_vars : vars) (template_content : string) : string :=
  fold_left substitute_var template_vars template_content.

(** Lines 147-150: where the starter code goes. *)
Definition starter_code_path (template_file_path target_dir : string) : string :=
  if endswith template_file_path ".tpl"
  then slice_until_neg 4 (target_dir +:+ "/" +:+ basename template_file_path)
  else target_dir +:+ "/" +:+ basename template_file_path.

(** The spec's wording of the output name: the base name, without the
    template suffix when the template path ends with it. *)
Definition derived_name_spec (template_path : string) : string :=
  if endswith template_path ".tpl"
  then str_take (String.length (basename template_path) - 4) (basename template_path)
  else basename template_path.

(** [pat in s]. *)
Definition contains (pat s : string) : bool :=
  negb (occurrences pat s =? 0).

(** The keys of a variable mapping as the renderer's contract wants them:
    distinct, free of the delimiters, and with tokens that cannot share
    characters in any text. *)
Definition well_formed_keys (vs : vars) : Prop :=
  NoDup vs.*1 ∧
  (∀ k, k ∈ vs.*1 → contains "[[" k = false ∧ contains "]]" k = false) ∧
  (∀ k1 k2, k1 ∈ vs.*1 → k2 ∈ vs.*1 → k1 ≠ k2 →
            overlap (token k1) (token k2) = false).

(** Values that cannot take part in a token: each is non-empty, holds no
    opening bracket, and begins with a character that occurs in no other
    key's token. *)
Definition plain_values (vs : vars) : Prop :=
  ∀ k v k', (k, v) ∈ vs → k' ∈ vs.*1 → k' ≠ k →
    ∃ d r, format_value v = String d r ∧
           has_char "[" (format_value v) = false ∧
           has_char d (token k') = false.

(** A name without bracket characters, such as CHALLENGE_DAY. *)
Definition plain_name (name : string) : bool :=
  negb (has_char "[" name) && negb (has_char "]" name).

(** ** Text files *)

(** What [read()] returns for a file opened in text mode: every "\r\n"
    and every other "\r" of the stored text has become "\n" (universal
    newlines).  Writing in text mode stores the text as it is on POSIX. *)
Fixpoint universal_newlines (s : string) : string :=
  match s with
  | "" => ""
  | String c r =>
      if Ascii.eqb c "013"
      then String "010"
             match r with
             | String d r' =>
                 if Ascii.eqb d "010" then universal_newlines r' else universal_newlines r
             | "" => ""
             end
      else String c (universal_newlines r)
  end.

(** ** The file system *)

Inductive node :=
| File (content : string)
| Dir.

(** Where an entry is: the names on the way from the root to it.  The
    root is the empty list; it is a directory. *)
Abbreviation location := (list string).

(** The names of a path string, cut at every slash: an absolute path
    begins with an empty name, a path with a trailing slash ends with
    one. *)
Fixpoint names (path : string) : list string :=
  match path with
  | "" => [""]
  | String c r =>
      if Ascii.eqb c "/" then "" :: names r
      else
        match names r with
        | n :: ns => String c n :: ns
        | [] => [String c ""]
        end
  end.

Definition parent (k : location) : location := take (length k - 1) k.

(** A name that leads nowhere new: the empty name between two slashes,
    and ".". *)
Definition stays (name : string) : bool :=
  String.eqb name "" || String.eqb name ".".

(** Nothing but trailing slashes is left of the path. *)
Definition only_slashes (rest : list string) : bool :=
  forallb (String.eqb "") rest.

Definition no_more (rest : list string) : bool :=
  match rest with
  | [] => true
  | _ => false
  end.

(** Where a path leads.  [slash] records that the path went on with
    slashes behind the name of a regular file or of a missing entry. *)
Inductive resolution :=
| AtDir (k : location)
| AtFile (k : location) (content : string) (slash : bool)
| Nothing (k : location) (slash : bool)
| NoEntry
| NotDir.

(** The walk from the directory [cur] along the names: every name but
    the last must be a directory that is there ([NotDir] if it is a
    regular file, [NoEntry] if it is missing); ".." goes up. *)
Fixpoint walk (f : gmap location node) (cur : location) (ns : list string) : resolution :=
  match ns with
  | [] => AtDir cur
  | n :: rest =>
      if stays n then walk f cur rest
      else if String.eqb n ".." then walk f (parent cur) rest
      else
        match f !! (cur ++ [n]) with
        | Some Dir => walk f (cur ++ [n]) rest
        | Some (File c) =>
            if only_slashes rest then AtFile (cur ++ [n]) c (negb (no_more rest)) else NotDir
        | None =>
            if only_slashes rest then Nothing (cur ++ [n]) (negb (no_more rest)) else NoEntry
        end
  end.

(** Where the walk along a path starts: at the root for an absolute
    path, at the working directory otherwise. *)
Definition start (cwd : location) (path : string) : location :=
  if String.prefix "/" path then [] else cwd.

(** The empty path leads nowhere. *)
Definition resolve (cwd : location) (f : gmap location node) (path : string) : resolution :=
  if String.eqb path "" then NoEntry else walk f (start cwd path) (names path).

(** The location a path denotes, whatever is on disk: the names applied
    one after the other. *)
Fixpoint lexical (cur : location) (ns : list string) : location :=
  match ns with
  | [] => cur
  | n :: rest =>
      if stays n then lexical cur rest
      else if String.eqb n ".." then lexical (parent cur) rest
      else lexical (cur ++ [n]) rest
  end.

Definition abspath (cwd : location) (path : string) : location :=
  lexical (start cwd path) (names path).

(** A name of an entry: not empty, not "." or "..", and without a
    slash. *)
Definition proper_name (n : string) : bool :=
  negb (stays n) && negb (String.eqb n "..") && negb (has_char "/" n).

(** What the last name of a path finds in the directory the path before
    it leads to. *)
Definition child (f : gmap location node) (k : location) (n : string) : resolution :=
  match f !! (k ++ [n]) with
  | Some Dir => AtDir (k ++ [n])
  | Some (File c) => AtFile (k ++ [n]) c false
  | None => Nothing (k ++ [n]) false
  end.

Definition below (f : gmap location node) (r : resolution) (n : string) : resolution :=
  match r with
  | AtDir k => child f k n
  | AtFile _ _ _ => NotDir
  | Nothing _ _ => NoEntry
  | NoEntry => NoEntry
  | NotDir => NotDir
  end.

(** The location a resolution is about. *)
Definition place (r : resolution) : option location :=
  match r with
  | AtDir k => Some k
  | AtFile k _ _ => Some k
  | Nothing k _ => Some k
  | NoEntry => None
  | NotDir => None
  end.

(** ** The process and its surroundings *)

Inductive stream := Stdout | Stderr.

Inductive exn :=
| FileNotFoundError (path : string)
| IsADirectoryError (path : string)
| NotADirectoryError (path : string)
| FileExistsError (path : string)
| KeyError (key : string)
| IndexError
| TypeError
| EOFError
| UnpicklingError
| TOMLDecodeError
| RequestsConnectionError (url : string)
| OtherError (class_name : string).

(** [os.path.exists(path)]: whether [os.stat] succeeds. *)
Definition has_entry (cwd : location) (f : gmap location node) (path : string) : bool :=
  match resolve cwd f path with
  | AtDir _ => true
  | AtFile _ _ slash => negb slash
  | _ => false
  end.

(** [os.path.isdir(path)]. *)
Definition is_dir (cwd : location) (f : gmap location node) (path : string) : bool :=
  match resolve cwd f path with
  | AtDir _ => true
  | _ => false
  end.

(** [open(path, "r")] and [open(path, "rb")]: the stored content, or the
    exception. *)
Definition open_read (cwd : location) (f : gmap location node) (path : string) : exn + string :=
  match resolve cwd f path with
  | AtFile _ c false => inr c
  | AtFile _ _ true => inl (NotADirectoryError path)
  | AtDir _ => inl (IsADirectoryError path)
  | Nothing _ _ => inl (FileNotFoundError path)
  | NoEntry => inl (FileNotFoundError path)
  | NotDir => inl (NotADirectoryError path)
  end.

(** [open(path, "w")] and [open(path, "wb")]: the location of the file
    that is created or truncated, or the exception. *)
Definition open_write (cwd : location) (f : gmap location node) (path : string) : exn + location :=
  match resolve cwd f path with
  | AtFile k _ false => inr k
  | Nothing k false => inr k
  | AtFile _ _ true => inl (IsADirectoryError path)
  | Nothing _ true => inl (IsADirectoryError path)
  | AtDir _ => inl (IsADirectoryError path)
  | NoEntry => inl (FileNotFoundError path)
  | NotDir => inl (NotADirectoryError path)
  end.

(** [os.mkdir(path)]: the location of the new directory, or the
    exception. *)
Definition make_dir (cwd : location) (f : gmap location node) (path : string) : exn + location :=
  match resolve cwd f path with
  | Nothing k _ => inr k
  | AtDir _ => inl (FileExistsError path)
  | AtFile _ _ _ => inl (FileExistsError path)
  | NoEntry => inl (FileNotFoundError path)
  | NotDir => inl (NotADirectoryError path)
  end.

(** What went to the outside, in order. *)
Inductive event :=
| Print (to : stream) (text : string)
| HttpGet (url session : string)
| BrowserOpen (url : string)
| Traceback (e : exn).

Inductive BoostrapperError :=
| TEMPLATE_NOT_FOUND
| BAD_AOC_REQUEST
| INVALID_TEMPLATE_PATH.

Definition value (e : BoostrapperError) : Z :=
  match e with
  | TEMPLATE_NOT_FOUND => 1
  | BAD_AOC_REQUEST => 2
  | INVALID_TEMPLATE_PATH => 3
  end.

Definition AOC_ENDPOINT : string := "https://www.adventofcode.com".
Definition SAVED_TEMPLATES_FILE_PATH : string := "data/templates.pkl".
Definition CONFIG_FILE_PATH : string := "resources/config.toml".

(** [repr(sys.stderr)], which line 181 passes to [print] as a second
    positional argument. *)
Definition stderr_repr : string :=
  "<_io.TextIOWrapper name='<stderr>' mode='w' encoding='utf-8'>".

(** What [pickle.load] can hand to [saved_templates]: a dictionary from
    strings to strings, which is all line 187 ever writes, or an object
    that is no mapping: a list, tuple or set ([items]: those of its items
    that are strings), a string, or a value without items (a number,
    [None], bytes). *)
Inductive pyobj :=
| PyDict (d : gmap string string)
| PySeq (items : list string)
| PyStr (s : string)
| PyAtom.

(** The state a run reads and writes: the file system, the module global
    [config], the object that [main] binds to [saved_templates] and hands
    to [generate_challenge] and [add_template], and the events so far
    (oldest first). *)
Record World := mkWorld {
  fs : gmap location node;
  config : gmap string string;
  saved_templates : pyobj;
  trace : list event
}.

Definition emit (e : event) (w : World) : World :=
  mkWorld (fs w) (config w) (saved_templates w) (trace w ++ [e]).

Definition set_fs (f : gmap location node) (w : World) : World :=
  mkWorld f (config w) (saved_templates w) (trace w).

Definition set_config (c : gmap string string) (w : World) : World :=
  mkWorld (fs w) c (saved_templates w) (trace w).

Definition set_saved_templates (o : pyobj) (w : World) : World :=
  mkWorld (fs w) (config w) o (trace w).

(** How a call ends: it returns, [exit(code)] unwinds the process, or an
    exception nobody catches does. *)
Inductive outcome (A : Type) :=
| Return (a : A)
| Exit (code : Z)
| Raise (e : exn).
Arguments Return {A} a.
Arguments Exit {A} code.
Arguments Raise {A} e.

Definition M (A : Type) : Type := World → outcome A * World.

Global Instance M_ret : MRet M := λ A a w, (Return a, w).

Global Instance M_bind : MBind M := λ A B f m w,
  match m w with
  | (Return a, w') => f a w'
  | (Exit c, w') => (Exit c, w')
  | (Raise e, w') => (Raise e, w')
  end.

Definition raise {A} (e : exn) : M A := λ w, (Raise e, w).

(** [exit(code)]. *)
Definition exit {A} (code : Z) : M A := λ w, (Exit code, w).

(** [print(text)] and [print(text, file=stderr)]. *)
Definition print (to : stream) (text : string) : M unit :=
  λ w, (Return tt, emit (Print to text) w).

(** [config[key]]. *)
Definition config_item (key : string) : M string := λ w,
  match config w !! key with
  | Some v => (Return v, w)
  | None => (Raise (KeyError key), w)
  end.

(** What [requests.get] comes back with. *)
Inductive response :=
| Response (status_code : Z) (text : string)
| Unreachable.

(** The attributes of the parsed command line ([argparse.Namespace]); the
    [add] parser sets [language] and [template_file], the [generate]
    parser the other four. *)
Record Namespace := mkNamespace {
  day : Z;
  language : string;
  target_dir : string;
  year : Z;
  template_file : string
}.

(** [parse_args] returns the namespace, or prints a usage or help text and
    exits. *)
Inductive parse_result :=
| Parsed (args : Namespace)
| Usage (to : stream) (text : string) (code : Z).

(** What the script relies on and does not define: the directory the
    process runs in (the script never changes it), the two serializers,
    the server, the clock and the command-line parser.  [pickle_load] is
    asked only about non-empty input. *)
Record Env := mkEnv {
  cwd : location;
  pickle_load : string → exn + pyobj;
  pickle_dump : pyobj → string;
  toml_load : string → exn + gmap string string;
  remote : string → string → response;
  year_now : Z;
  parse_generate_args : Z → list string → parse_result;
  parse_add_args : list string → parse_result
}.

(** The locations of the two files the script names itself, and of the
    directories they lie in. *)
Definition data_dir (E : Env) : location := cwd E ++ ["data"].
Definition registry_file (E : Env) : location := data_dir E ++ ["templates.pkl"].
Definition resources_dir (E : Env) : location := cwd E ++ ["resources"].
Definition config_file (E : Env) : location := resources_dir E ++ ["config.toml"].

(** ** The script *)

(** [webbrowser.open(url)]. *)
Definition webbrowser_open (url : string) : M unit :=
  λ w, (Return tt, emit (BrowserOpen url) w).

(** [saved_templates[key]]. *)
Definition saved_templates_item (key : string) : M string := λ w,
  match saved_templates w with
  | PyDict d =>
      match d !! key with
      | Some v => (Return v, w)
      | None => (Raise (KeyError key), w)
      end
  | _ => (Raise TypeError, w)
  end.

(** [key not in saved_templates]: a look-up in a dictionary, a search
    among the items of a list, tuple or set, a substring test in a
    string. *)
Definition not_in_saved_templates (key : string) : M bool := λ w,
  match saved_templates w with
  | PyDict d => (Return (bool_decide (d !! key = None)), w)
  | PySeq items => (Return (bool_decide (key ∉ items)), w)
  | PyStr s => (Return (negb (contains key s)), w)
  | PyAtom => (Raise TypeError, w)
  end.

(** [saved_templates[key] = v]. *)
Definition saved_templates_setitem (key v : string) : M unit := λ w,
  match saved_templates w with
  | PyDict d => (Return tt, set_saved_templates (PyDict (<[key := v]> d)) w)
  | _ => (Raise TypeError, w)
  end.

(** The object as it is now. *)
Definition saved_templates_now : M pyobj := λ w,
  (Return (saved_templates w), w).

(** [main] binding the object it loaded to [saved_templates]. *)
Definition bind_saved_templates (o : pyobj) : M unit := λ w,
  (Return tt, set_saved_templates o w).

(** [config = ...] on the module global. *)
Definition assign_config (c : gmap string string) : M unit := λ w,
  (Return tt, set_config c w).

(** [try: body except FileNotFoundError: handler]. *)
Definition except_FileNotFoundError {A} (body handler : M A) : M A := λ w,
  match body w with
  | (Raise (FileNotFoundError _), w') => handler w'
  | r => r
  end.

(** [parser.parse_args(...)]. *)
Definition parse_args (r : parse_result) : M Namespace :=
  match r with
  | Parsed args => mret args
  | Usage to text code => _ ← print to text; exit code
  end.

(** [argv[i]]. *)
Definition argv_item (argv : list string) (i : nat) : M string :=
  match argv !! i with
  | Some a => mret a
  | None => raise IndexError
  end.

(** The exit status of a process whose main function ends this way. *)
Definition exit_status {A} (r : outcome A) : Z :=
  match r with
  | Return _ => 0
  | Exit code => code
  | Raise _ => 1
  end.

Section Script.
Variable E : Env.

(** [os.path.exists(path)]. *)
Definition path_exists (path : string) : M bool := λ w,
  (Return (has_entry (cwd E) (fs w) path), w).

(** [os.path.isdir(path)]. *)
Definition path_isdir (path : string) : M bool := λ w,
  (Return (is_dir (cwd E) (fs w) path), w).

(** [with open(path, "rb") as h: h.read()]. *)
Definition read_file (path : string) : M string := λ w,
  match open_read (cwd E) (fs w) path with
  | inr c => (Return c, w)
  | inl e => (Raise e, w)
  end.

(** [with open(path, "r") as h: h.read()]. *)
Definition read_text (path : string) : M string :=
  content ← read_file path;
  mret (universal_newlines content).

(** [with open(path, "w") as h: h.write(content)] (also mode ["wb"]). *)
Definition write_file (path content : string) : M unit := λ w,
  match open_write (cwd E) (fs w) path with
  | inr k => (Return tt, set_fs (<[k := File content]> (fs w)) w)
  | inl e => (Raise e, w)
  end.

(** [os.mkdir(path)]. *)
Definition mkdir (path : string) : M unit := λ w,
  match make_dir (cwd E) (fs w) path with
  | inr k => (Return tt, set_fs (<[k := Dir]> (fs w)) w)
  | inl e => (Raise e, w)
  end.

(** [requests.get(url, cookies={"session": session})]. *)
Definition requests_get (url session : string) : M response :=
  λ w, (Return (remote E url session), emit (HttpGet url session) w).

(** Lines 95-122. *)
Definition get_challenge_input (day year : Z) : M string :=
  _ ← print Stdout "Downloading challenge input...";
  session_cookie ← config_item "session_cookie";
  let request_url :=
    AOC_ENDPOINT +:+ "/" +:+ str_of_int year +:+ "/day/" +:+ str_of_int day +:+ "/input" in
  got ← requests_get request_url session_cookie;
  match got with
  | Unreachable => raise (RequestsConnectionError request_url)
  | Response status_code text =>
      if negb (status_code =? 200)%Z
      then
        _ ← print Stderr
              ("Error " +:+ str_of_int status_code +:+ " while fetching " +:+ request_url +:+
               ". Maybe your day or year is invalid, or maybe your session cookie is incorrect or has expired.");
        exit (value BAD_AOC_REQUEST)
      else mret text
  end.

(** Lines 62-93.  The [try] around the download re-raises what it
    catches, so it is the call itself. *)
Definition create_input_file (day year : Z) : M unit :=
  _ ← print Stdout "Creating input file...";
  inputs_dir_path ← config_item "challenge_input_directory";
  let challenge_input_file_path :=
    inputs_dir_path +:+ "/" +:+ str_of_int year +:+ "/day" +:+ str_of_int day +:+ ".txt" in
  challenge_input ← get_challenge_input day year;
  present ← path_exists challenge_input_file_path;
  if (present : bool)
  then print Stdout (challenge_input_file_path +:+ " already exists, skipping")
  else
    let inputs_for_year_dir_path := inputs_dir_path +:+ "/" +:+ str_of_int year in
    isdir ← path_isdir inputs_for_year_dir_path;
    _ ← (if (isdir : bool) then mret tt else mkdir inputs_for_year_dir_path);
    write_file challenge_input_file_path challenge_input.

(** Lines 124-155. *)
Definition generate_starter_code
    (template_file_path target_dir : string) (template_vars : vars) : M string :=
  template_content ← read_text template_file_path;
  _ ← print Stdout "Parsing template...";
  let template_content := substitute template_vars template_content in
  _ ← print Stdout "Generating starter code...";
  let starter_code_file_path := starter_code_path template_file_path target_dir in
  _ ← write_file starter_code_file_path template_content;
  mret starter_code_file_path.

(** Lines 30-60. *)
Definition generate_challenge (args : Namespace) : M unit :=
  missing ← not_in_saved_templates (lower (language args));
  if (missing : bool)
  then
    _ ← print Stderr
          ("Error: The language " +:+ language args +:+
           " does not have a valid template. Add one with 'bootstrapper add'");
    exit (value TEMPLATE_NOT_FOUND)
  else
    _ ← print Stdout
          ("Generating " +:+ language args +:+ " starter code for " +:+ str_of_int (year args) +:+
           " day " +:+ str_of_int (day args) +:+ " challenge");
    _ ← create_input_file (day args) (year args);
    template_file_path ← saved_templates_item (lower (language args));
    starter_code_file_path ←
      generate_starter_code template_file_path (target_dir args)
        [("CHALLENGE_DAY", VInt (day args)); ("CHALLENGE_YEAR", VInt (year args))];
    _ ← print Stdout "Done!";
    _ ← webbrowser_open
          ("https://adventofcode.com/" +:+ str_of_int (year args) +:+ "/day/" +:+
           str_of_int (day args));
    print Stdout
      ("Your starter code file is located at " +:+ starter_code_file_path +:+
       ". The challenge page has been opened in your browser. Good luck!").

(** [pickle.loads(bytes)]: an empty input is an [EOFError]; otherwise
    the object, or the exception of the loader. *)
Definition unpickle (bytes : string) : exn + pyobj :=
  if String.eqb bytes "" then inl EOFError else pickle_load E bytes.

(** [pickle.load(file)] on the bytes read. *)
Definition pickle_load_bytes (bytes : string) : M pyobj :=
  match unpickle bytes with
  | inr o => mret o
  | inl e => raise e
  end.

(** Lines 157-169. *)
Definition load_saved_templates : M pyobj :=
  except_FileNotFoundError
    (bytes ← read_file SAVED_TEMPLATES_FILE_PATH; pickle_load_bytes bytes)
    (mret (PyDict ∅)).

(** Lines 171-189. *)
Definition add_template (args : Namespace) : M unit :=
  present ← path_exists (template_file args);
  if negb present
  then
    _ ← print Stdout ("Not a valid path: " +:+ template_file args +:+ " " +:+ stderr_repr);
    exit (value INVALID_TEMPLATE_PATH)
  else
    _ ← saved_templates_setitem (lower (language args)) (template_file args);
    o ← saved_templates_now;
    _ ← write_file SAVED_TEMPLATES_FILE_PATH (pickle_dump E o);
    print Stdout "Template added successfully.".

(** Lines 191-200. *)
Definition load_config : M (gmap string string) :=
  bytes ← read_file CONFIG_FILE_PATH;
  match toml_load E bytes with
  | inr c => mret c
  | inl e => raise e
  end.

(** Lines 203-229; [argv] is [sys.argv]. *)
Definition main (argv : list string) : M unit :=
  c ← load_config;
  _ ← assign_config c;
  prog_mode ← argv_item argv 1;
  o ← load_saved_templates;
  _ ← bind_saved_templates o;
  if String.eqb prog_mode "generate"
  then
    args ← parse_args (parse_generate_args E (year_now E) (drop 2 argv));
    generate_challenge args
  else if String.eqb prog_mode "add"
  then
    args ← parse_args (parse_add_args E (drop 2 argv));
    add_template args
  else mret tt.

(** The process: exit status and final state.  An uncaught exception is
    reported on stderr. *)
Definition run (argv : list string) (w : World) : Z * World :=
  let (r, w') := main argv w in
  (exit_status r,
   match r with
   | Raise e => emit (Traceback e) w'
   | _ => w'
   end).

End Script.

(** ** Observations on a trace *)

Definition is_request (e : event) : bool :=
  match e with
  | HttpGet _ _ => true
  | _ => false
  end.

(** The network requests among the events. *)
Definition requests (tr : list event) : list event :=
  List.filter is_request tr.

Definition is_error_message (e : event) : bool :=
  match e with
  | Print Stderr _ => true
  | Traceback _ => true
  | _ => false
  end.

(** What went to stderr. *)
Definition error_messages (tr : list event) : list event :=
  List.filter is_error_message tr.

(** ** Relating the world before and after a call *)

(** Whatever [m] does, it takes a world to one related to it by [R]. *)
Definition respects {A} (R : World → World → Prop) (m : M A) : Prop :=
  ∀ w, R w (m w).2.

(** The object bound to [saved_templates] is not touched. *)
Definition same_saved_templates (w w' : World) : Prop :=
  saved_templates w' = saved_templates w.

(** Events are only added. *)
Definition trace_extended (w w' : World) : Prop :=
  ∃ more, trace w' = trace w ++ more.

(** The request URL of line 112. *)
Definition request_url_of (day year : Z) : string :=
  AOC_ENDPOINT +:+ "/" +:+ str_of_int year +:+ "/day/" +:+ str_of_int day +:+ "/input".

(** The input file path of line 76. *)
Definition input_file_path_of (inputs_dir_path : string) (day year : Z) : string :=
  inputs_dir_path +:+ "/" +:+ str_of_int year +:+ "/day" +:+ str_of_int day +:+ ".txt".

(** ** Scenarios *)

(** A toy registry format, enough to run the script on examples: the
    registry with the one entry for python is the text after the prefix,
    "{}" is the empty registry, "['python']" a list, "stat /nowhere" a
    pickle that has the loader call [os.stat] on a missing path, and
    anything else does not load. *)
Definition demo_pickle_load (bytes : string) : exn + pyobj :=
  if String.prefix "python=" bytes then inr (PyDict {[ "python" := str_drop 7 bytes ]})
  else if String.eqb bytes "{}" then inr (PyDict ∅)
  else if String.eqb bytes "['python']" then inr (PySeq ["python"])
  else if String.eqb bytes "stat /nowhere" then inl (FileNotFoundError "/nowhere")
  else inl UnpicklingError.

Definition demo_pickle_dump (o : pyobj) : string :=
  match o with
  | PyDict d =>
      match d !! "python" with
      | Some p => "python=" +:+ p
      | None => "{}"
      end
  | PySeq _ => "['python']"
  | PyStr s => "'" +:+ s +:+ "'"
  | PyAtom => "N."
  end.

Definition demo_config : gmap string string :=
  <["session_cookie" := "s3cr3t"]> (<["challenge_input_directory" := "inputs"]> ∅).

Definition demo_toml_load (bytes : string) : exn + gmap string string :=
  if String.prefix "session_cookie" bytes then inr demo_config else inl TOMLDecodeError.

(** The directory the examples run in. *)
Definition demo_cwd : location := ["home"; "aoc"].

(** The server answers every request with [status_code]; the command
    lines parse to day 5 of 2023 in "Python" into /out, and to adding
    /templates/sol.py.tpl for "Python". *)
Definition demo_env (status_code : Z) : Env :=
  mkEnv demo_cwd demo_pickle_load demo_pickle_dump demo_toml_load
    (λ _ _, Response status_code "puzzle input")
    2023
    (λ y _, Parsed (mkNamespace 5 "Python" "/out" y ""))
    (λ _, Parsed (mkNamespace 0 "Python" "" 0 "/templates/sol.py.tpl")).

Definition demo_generate_args : Namespace := mkNamespace 5 "Python" "/out" 2023 "".

Definition demo_add_args : Namespace := mkNamespace 0 "Python" "" 0 "/templates/sol.py.tpl".

Definition demo_registry : gmap string string :=
  <["python" := "/templates/sol.py.tpl"]> ∅.

Definition demo_template : string :=
  "# day [[CHALLENGE_DAY]] of [[CHALLENGE_YEAR]], [[UNUSED]]".

(** A machine on which everything is in place, the input of day 5 of 2023
    included. *)
Definition demo_fs : gmap location node :=
  <[["home"] := Dir]>
  (<[["home"; "aoc"] := Dir]>
  (<[["home"; "aoc"; "resources"] := Dir]>
  (<[["home"; "aoc"; "resources"; "config.toml"] := File "session_cookie = ..."]>
  (<[["home"; "aoc"; "data"] := Dir]>
  (<[["home"; "aoc"; "data"; "templates.pkl"] := File "python=/templates/sol.py.tpl"]>
  (<[["templates"] := Dir]>
  (<[["templates"; "sol.py.tpl"] := File demo_template]>
  (<[["out"] := Dir]>
  (<[["home"; "aoc"; "inputs"] := Dir]>
  (<[["home"; "aoc"; "inputs"; "2023"] := Dir]>
  (<[["home"; "aoc"; "inputs"; "2023"; "day5.txt"] := File "cached input"]> ∅))))))))))).

(** The same machine before the input of day 5 was ever fetched. *)
Definition fresh_fs : gmap location node :=
  delete ["home"; "aoc"; "inputs"; "2023"; "day5.txt"] demo_fs.

(** A machine on which [data] is a regular file. *)
Definition data_is_a_file : gmap location node :=
  <[["home"] := Dir]> (<[["home"; "aoc"] := Dir]> (<[["home"; "aoc"; "data"] := File "notes"]> ∅)).

(** A process that has loaded its configuration and registry. *)
Definition loaded (f : gmap location node) : World :=
  mkWorld f demo_config (PyDict demo_registry) [].

(** A process at its start. *)
Definition started (f : gmap location node) : World := mkWorld f ∅ (PyDict ∅) [].

(** ** Further observations *)

(** The variables of the call at lines 47-54. *)
Definition orchestrator_vars (day year : Z) : vars :=
  [("CHALLENGE_DAY", VInt day); ("CHALLENGE_YEAR", VInt year)].

(** The page opened at line 58. *)
Definition challenge_page_of (day year : Z) : string :=
  "https://adventofcode.com/" +:+ str_of_int year +:+ "/day/" +:+ str_of_int day.

(** The year directory of line 87. *)
Definition year_dir_of (inputs_dir_path : string) (year : Z) : string :=
  inputs_dir_path +:+ "/" +:+ str_of_int year.

(** The name of the input file within the year directory. *)
Definition input_file_name_of (day : Z) : string :=
  "day" +:+ str_of_int day +:+ ".txt".

(** The first message of a generate, which quotes the language as typed
    (line 43). *)
Definition generating_message (args : Namespace) : string :=
  "Generating " +:+ language args +:+ " starter code for " +:+ str_of_int (year args) +:+
  " day " +:+ str_of_int (day args) +:+ " challenge".

(** The last message of a generate (line 60). *)
Definition located_message (starter_code_file_path : string) : string :=
  "Your starter code file is located at " +:+ starter_code_file_path +:+
  ". The challenge page has been opened in your browser. Good luck!".

(** The message of line 119. *)
Definition bad_request_message (status_code : Z) (request_url : string) : string :=
  "Error " +:+ str_of_int status_code +:+ " while fetching " +:+ request_url +:+
  ". Maybe your day or year is invalid, or maybe your session cookie is incorrect or has expired.".

(** The world after a [generate_challenge] that wrote the answer's text
    to the input file at [ky ++ [name]] and the rendering of the
    template's content to the starter code file at [k]. *)
Definition after_first_generate (args : Namespace) (w : World)
    (tpl cookie text content : string) (ky k : location) : World :=
  mkWorld
    (<[k := File (substitute (orchestrator_vars (day args) (year args))
                    (universal_newlines content))]>
       (<[ky ++ [input_file_name_of (day args)] := File text]> (fs w)))
    (config w) (saved_templates w)
    (trace w ++
     [Print Stdout (generating_message args);
      Print Stdout "Creating input file...";
      Print Stdout "Downloading challenge input...";
      HttpGet (request_url_of (day args) (year args)) cookie;
      Print Stdout "Parsing template...";
      Print Stdout "Generating starter code...";
      Print Stdout "Done!";
      BrowserOpen (challenge_page_of (day args) (year args));
      Print Stdout (located_message (starter_code_path tpl (target_dir args)))]).

Definition is_browser_open (e : event) : bool :=
  match e with
  | BrowserOpen _ => true
  | _ => false
  end.

(** The pages opened among the events. *)
Definition browser_opens (tr : list event) : list event :=
  List.filter is_browser_open tr.

Definition is_stdout_print (e : event) : bool :=
  match e with
  | Print Stdout _ => true
  | _ => false
  end.

(** From [w] to [w'] events were only added, all of them of kind [ok]. *)
Definition only_emits (ok : event → bool) (w w' : World) : Prop :=
  ∃ more, trace w' = trace w ++ more ∧ forallb ok more = true.

(** From [w] to [w'] no entry of the file system changed, except
    possibly those at the listed locations. *)
Definition fs_changed_only_at (places : list location) (w w' : World) : Prop :=
  ∀ k, k ∉ places → fs w' !! k = fs w !! k.

(** The machine of [demo_env] with the network down. *)
Definition offline_env : Env :=
  mkEnv demo_cwd demo_pickle_load demo_pickle_dump demo_toml_load (λ _ _, Unreachable) 2023
    (λ y _, Parsed (mkNamespace 5 "Python" "/out" y ""))
    (λ _, Parsed (mkNamespace 0 "Python" "" 0 "/templates/sol.py.tpl")).

(** A parser that rejects every command line with a usage message. *)
Definition strict_env : Env :=
  mkEnv demo_cwd demo_pickle_load demo_pickle_dump demo_toml_load (λ _ _, Unreachable) 2023
    (λ _ _, Usage Stderr "usage: AOC Bootstrapper [-h] [-y YEAR] day language target_dir" 2)
    (λ _, Usage Stderr "usage: AOC Bootstrapper [-h] language template_file" 2).

(** ** Letter case *)

(** A capital letter among the code points below 256: A-Z, and U+00C0 to
    U+00DE without the multiplication sign. *)
Definition is_capital (c : ascii) : bool :=
  let n := N_of_ascii c in
  ((65 <=? n) && (n <=? 90) || (192 <=? n) && (n <=? 222) && negb (n =? 215))%N.

(** The small letter of a capital sits 32 code points above it. *)
Definition small_of (a b : ascii) : bool :=
  is_capital a && (N_of_ascii b =? N_of_ascii a + 32)%N.

(** The same character, or the same letter in its two cases. *)
Definition same_letter (a b : ascii) : bool :=
  Ascii.eqb a b || small_of a b || small_of b a.

(** Two names that differ at most in the case of their letters. *)
Fixpoint differs_only_in_case (a b : string) : bool :=
  match a, b with
  | "", "" => true
  | String x a', String y b' => same_letter x y && differs_only_in_case a' b'
  | _, _ => false
  end.

(** A name without capital letters, as [add_template] stores it. *)
Fixpoint no_capitals (s : string) : bool :=
  match s with
  | "" => true
  | String c r => negb (is_capital c) && no_capitals r
  end.

(** The same command line with another spelling of the language. *)
Definition with_language (spelling : string) (args : Namespace) : Namespace :=
  mkNamespace (day args) spelling (target_dir args) (year args) (template_file args).

(** The world with another past. *)
Definition set_trace (tr : list event) (w : World) : World :=
  mkWorld (fs w) (config w) (saved_templates w) tr.

(** [m] does not look at what has been printed, requested or opened so
    far: it adds the same events and ends the same way after any past. *)
Definition trace_blind {A} (m : M A) : Prop :=
  ∀ w, ∃ added,
    trace (m w).2 = trace w ++ added ∧
    ∀ tr, m (set_trace tr w) = ((m w).1, set_trace (tr ++ added) (m w).2).

(** * Properties *)

(** ** Strings *)

Lemma str_app_cons c a b : String c a +:+ b = String c (a +:+ b).
Proof. reflexivity. Qed.

Lemma str_app_nil_l a : "" +:+ a = a.
Proof. reflexivity. Qed.

Lemma str_app_nil_r a : a +:+ "" = a.
Proof. induction a as [|c a IH]; [reflexivity|]. by rewrite str_app_cons, IH. Qed.

Lemma str_app_assoc a b c : (a +:+ b) +:+ c = a +:+ (b +:+ c).
Proof. induction a as [|x a IH]; [reflexivity|]. by rewrite !str_app_cons, IH. Qed.

Lemma str_length_app a b : String.length (a +:+ b) = String.length a + String.length b.
Proof. induction a as [|x a IH]; [reflexivity|]. rewrite str_app_cons. simpl. by rewrite IH. Qed.

Lemma prefix_empty s : String.prefix "" s = true.
Proof. by destruct s. Qed.

Lemma prefix_cons c d p s :
  String.prefix (String c p) (String d s) = bool_decide (c = d) && String.prefix p s.
Proof.
  simpl. destruct (ascii_dec c d) as [->|Hne].
  - by rewrite bool_decide_eq_true_2.
  - by rewrite bool_decide_eq_false_2.
Qed.

Lemma prefix_app p r : String.prefix p (p +:+ r) = true.
Proof.
  induction p as [|c p IH]; [apply prefix_empty|].
  rewrite str_app_cons, prefix_cons, IH. by rewrite bool_decide_eq_true_2.
Qed.

Lemma prefix_true p s : String.prefix p s = true → ∃ r, s = p +:+ r.
Proof.
  revert s. induction p as [|c p IH]; intros s H; [by exists s|].
  destruct s as [|d s]; [done|].
  rewrite prefix_cons in H. apply andb_true_iff in H as [Hc Hp].
  apply bool_decide_eq_true in Hc as <-.
  destruct (IH _ Hp) as [r ->]. by exists r.
Qed.

Lemma prefix_app_false p u r :
  String.prefix p u = false → String.prefix u p = false →
  String.prefix p (u +:+ r) = false.
Proof.
  revert u. induction p as [|c p IH]; intros u Hpu Hup.
  { by rewrite prefix_empty in Hpu. }
  destruct u as [|d u]; [done|].
  rewrite str_app_cons, prefix_cons. rewrite !prefix_cons in Hpu, Hup.
  destruct (bool_decide (c = d)) eqn:Hcd; [|done].
  apply bool_decide_eq_true in Hcd as <-.
  rewrite bool_decide_eq_true_2 in Hup by done. simpl in *. by apply IH.
Qed.

(** ** The scan of [str.replace] *)

Lemma replace_from_skip old new u s :
  replace_from (String.length u) old new (u +:+ s) = replace_from 0 old new s.
Proof.
  induction u as [|c u IH]; [by destruct s|]. rewrite str_app_cons. simpl. apply IH.
Qed.

Lemma replace_from_cons old new c r :
  replace_from 0 old new (String c r) =
  if String.prefix old (String c r)
  then new +:+ replace_from (String.length old - 1) old new r
  else String c (replace_from 0 old new r).
Proof. reflexivity. Qed.

Lemma replace_hit old new s :
  old ≠ "" →
  replace_from 0 old new (old +:+ s) = new +:+ replace_from 0 old new s.
Proof.
  destruct old as [|c old]; [done|]. intros _.
  rewrite str_app_cons, replace_from_cons, <-str_app_cons, prefix_app.
  replace (String.length (String c old) - 1) with (String.length old)
    by (simpl; lia).
  by rewrite replace_from_skip.
Qed.

Lemma replace_miss old new c s :
  String.prefix old (String c s) = false →
  replace_from 0 old new (String c s) = String c (replace_from 0 old new s).
Proof. intros H. by rewrite replace_from_cons, H. Qed.

Lemma str_replace_scan old new s :
  old ≠ "" → str_replace old new s = replace_from 0 old new s.
Proof. by destruct old. Qed.

(** Induction along the scan: at every position either the pattern is
    there and the scan jumps over it, or it is not and the scan moves on
    by one character. *)
Lemma scan_ind (c0 : ascii) (old : string) (P : string → Prop) :
  P "" →
  (∀ s, P s → P (String c0 old +:+ s)) →
  (∀ c s, String.prefix (String c0 old) (String c s) = false → P s → P (String c s)) →
  ∀ s, P s.
Proof.
  intros Hnil Hhit Hmiss s.
  remember (String.length s) as n eqn:Hn.
  revert s Hn. induction n as [n IH] using lt_wf_ind. intros s ->.
  destruct s as [|c s]; [done|].
  destruct (String.prefix (String c0 old) (String c s)) eqn:Hp.
  - apply prefix_true in Hp as [r Hr]. rewrite Hr. apply Hhit.
    apply (IH (String.length r)); [|done].
    apply (f_equal String.length) in Hr. rewrite str_length_app in Hr.
    simpl in *. lia.
  - apply Hmiss; [done|]. apply (IH (String.length s)); [simpl; lia|done].
Qed.

Lemma comparable_false a b :
  comparable a b = false → String.prefix a b = false ∧ String.prefix b a = false.
Proof. unfold comparable. by intros ?%orb_false_iff. Qed.

(** No occurrence of [old] begins inside [host], whatever follows. *)
Lemma starts_within_suffix pat u v :
  starts_within pat (u +:+ v) = false → v ≠ "" → comparable v pat = false.
Proof.
  induction u as [|c u IH]; intros H Hv.
  - destruct v as [|d v]; [done|]. rewrite str_app_nil_l in H. simpl in H.
    by apply orb_false_iff in H as [? _].
  - rewrite str_app_cons in H. simpl in H. apply orb_false_iff in H as [_ H]. auto.
Qed.

Lemma replace_passes old new host s :
  starts_within old host = false →
  replace_from 0 old new (host +:+ s) = host +:+ replace_from 0 old new s.
Proof.
  induction host as [|c host IH]; intros H; [done|].
  simpl in H. apply orb_false_iff in H as [Hc H].
  apply comparable_false in Hc as [Hc1 Hc2].
  rewrite str_app_cons, replace_miss, IH; [done..|].
  rewrite <-str_app_cons. by apply prefix_app_false.
Qed.

Lemma occurrences_empty c p : occurrences (String c p) "" = 0.
Proof. reflexivity. Qed.

Lemma occurrences_cons pat c s :
  occurrences pat (String c s) =
  (if String.prefix pat (String c s) then 1 else 0) + occurrences pat s.
Proof. reflexivity. Qed.

Lemma occurrences_passes old host s :
  starts_within old host = false →
  occurrences old (host +:+ s) = occurrences old s.
Proof.
  induction host as [|c host IH]; intros H; [done|].
  simpl in H. apply orb_false_iff in H as [Hc H].
  apply comparable_false in Hc as [Hc1 Hc2].
  rewrite str_app_cons, occurrences_cons, <-str_app_cons.
  rewrite prefix_app_false by done. by rewrite IH.
Qed.

(** A text none of whose characters is the first character of [old]
    holds no start of an occurrence. *)
Lemma prefix_head_false c0 old d u :
  has_char c0 (String d u) = false → String.prefix (String c0 old) (String d u) = false.
Proof.
  simpl has_char. intros [Hd _]%orb_false_iff. rewrite prefix_cons.
  rewrite bool_decide_eq_false_2; [done|]. intros ->. by rewrite Ascii.eqb_refl in Hd.
Qed.

Lemma replace_passes_chars c0 old new v s :
  has_char c0 v = false →
  replace_from 0 (String c0 old) new (v +:+ s) = v +:+ replace_from 0 (String c0 old) new s.
Proof.
  induction v as [|d v IH]; intros H; [done|].
  rewrite str_app_cons, replace_miss.
  - rewrite IH; [done|]. simpl in H. by apply orb_false_iff in H as [_ ?].
  - rewrite <-str_app_cons. simpl in H. apply orb_false_iff in H as [Hd _].
    rewrite str_app_cons, prefix_cons, bool_decide_eq_false_2; [done|].
    intros ->. by rewrite Ascii.eqb_refl in Hd.
Qed.

Lemma occurrences_passes_chars c0 old v s :
  has_char c0 v = false →
  occurrences (String c0 old) (v +:+ s) = occurrences (String c0 old) s.
Proof.
  induction v as [|d v IH]; intros H; [done|].
  simpl in H. apply orb_false_iff in H as [Hd H].
  rewrite str_app_cons, occurrences_cons, IH, prefix_cons by done.
  rewrite bool_decide_eq_false_2; [done|].
  intros ->. by rewrite Ascii.eqb_refl in Hd.
Qed.

(** Replacing creates no occurrence of a text that avoids the first
    character of the replacement. *)
Lemma replace_creates_no_prefix old d0 new u :
  has_char d0 u = false →
  ∀ x, String.prefix u (replace_from 0 old (String d0 new) x) = true →
       String.prefix u x = true.
Proof.
  induction u as [|a u IH]; intros Hu x H; [apply prefix_empty|].
  simpl in Hu. apply orb_false_iff in Hu as [Ha Hu].
  destruct x as [|c x]; [done|].
  rewrite replace_from_cons in H.
  destruct (String.prefix old (String c x)).
  - rewrite str_app_cons, prefix_cons in H. apply andb_true_iff in H as [Hc _].
    apply bool_decide_eq_true in Hc as ->. by rewrite Ascii.eqb_refl in Ha.
  - rewrite prefix_cons in H |- *. apply andb_true_iff in H as [-> H].
    simpl. by apply IH.
Qed.

(** After the replacement nothing of [old] is left, when neither text
    contains the first character of the other. *)
Lemma replace_removes c0 old d0 new s :
  has_char c0 (String d0 new) = false →
  has_char d0 (String c0 old) = false →
  occurrences (String c0 old) (replace_from 0 (String c0 old) (String d0 new) s) = 0.
Proof.
  intros Hnew Hold. induction s as [| s IH | c s Hmiss IH] using (scan_ind c0 old).
  - done.
  - by rewrite replace_hit, occurrences_passes_chars.
  - rewrite replace_miss, occurrences_cons, IH by done.
    destruct (String.prefix (String c0 old) (String c (replace_from 0 _ _ s))) eqn:Hp; [|done].
    rewrite <-(replace_miss _ (String d0 new)) in Hp by done.
    apply replace_creates_no_prefix in Hp; [congruence|done].
Qed.

Lemma join_cons_sep sep g h gs :
  join sep (g :: h :: gs) = g +:+ sep +:+ join sep (h :: gs).
Proof. reflexivity. Qed.

Lemma join_cons_char sep c g gs :
  join sep (String c g :: gs) = String c (join sep (g :: gs)).
Proof. by destruct gs. Qed.

Lemma occurrences_hit c0 old s :
  starts_within (String c0 old) old = false →
  occurrences (String c0 old) (String c0 old +:+ s) = S (occurrences (String c0 old) s).
Proof.
  intros H. rewrite str_app_cons, occurrences_cons, <-str_app_cons, prefix_app.
  by rewrite occurrences_passes.
Qed.

(** The scan cuts the text at the occurrences of [old] and glues the
    pieces back together with [new]. *)
Lemma replace_segments c0 old new s :
  starts_within (String c0 old) old = false →
  ∃ segs, length segs = S (occurrences (String c0 old) s) ∧
          s = join (String c0 old) segs ∧
          replace_from 0 (String c0 old) new s = join new segs.
Proof.
  intros H. induction s as [| s IH | c s Hmiss IH] using (scan_ind c0 old).
  - by exists [""].
  - destruct IH as (segs & Hlen & Hs & Hr).
    destruct segs as [|g gs]; [done|].
    exists ("" :: g :: gs). rewrite occurrences_hit, replace_hit by done.
    rewrite !join_cons_sep, <-Hs, <-Hr. split; [simpl in *; lia|done].
  - destruct IH as (segs & Hlen & Hs & Hr).
    destruct segs as [|g gs]; [done|].
    exists (String c g :: gs). rewrite replace_miss, occurrences_cons, Hmiss by done.
    rewrite !join_cons_char, <-Hs, <-Hr. done.
Qed.

Lemma occurrences_char_app c a b :
  occurrences (String c "") (a +:+ b) =
  occurrences (String c "") a + occurrences (String c "") b.
Proof.
  induction a as [|x a IH]; [done|].
  rewrite str_app_cons, !occurrences_cons, IH, !prefix_cons, !prefix_empty. lia.
Qed.

Lemma token_cons name : token name = String "[" (String "[" (name +:+ "]]")).
Proof. reflexivity. Qed.

Lemma token_nonempty name : token name ≠ "".
Proof. by rewrite token_cons. Qed.

Lemma substitute_var_scan content name v :
  substitute_var content (name, v) =
  replace_from 0 (token name) (format_value v) content.
Proof. reflexivity. Qed.

(** C2 (substitution totality).  A template with exactly [N] occurrences
    of the token [[[X]]], rendered with [{X: "5"}]: the output has no
    occurrence of [[[X]]] left; the template is [N + 1] pieces separated
    by the [N] tokens and the output is the same pieces separated by "5",
    so every occurrence (not only the first) became a "5" in its place and
    nothing else changed; hence the output has exactly [N] more "5" than
    the template. *)
Theorem substitution_totality (template_content : string) (N : nat) :
  occurrences (token "X") template_content = N →
  let rendered := substitute [("X", VStr "5")] template_content in
  occurrences (token "X") rendered = 0 ∧
  (∃ pieces, length pieces = S N ∧
             template_content = join (token "X") pieces ∧
             rendered = join "5" pieces) ∧
  occurrences "5" rendered = N + occurrences "5" template_content.
Proof.
  intros HN rendered. subst rendered. unfold substitute. simpl fold_left.
  rewrite substitute_var_scan. simpl format_value. rewrite token_cons in *.
  split; [by apply replace_removes|].
  destruct (replace_segments "[" (String "[" ("X" +:+ "]]")) "5" template_content)
    as (pieces & Hlen & Hs & Hr); [done|].
  rewrite HN in Hlen. split; [by exists pieces|].
  rewrite Hr. clear Hr HN. subst template_content. revert N Hlen.
  induction pieces as [|g gs IH]; intros N Hlen; [done|].
  destruct gs as [|h gs]; [simpl in Hlen; by simplify_eq|].
  destruct N as [|N]; [done|].
  rewrite !join_cons_sep, !occurrences_char_app, (IH N) by (simpl in *; lia).
  change (occurrences "5" "5") with 1.
  change (occurrences "5" (String "[" (String "[" ("X" +:+ "]]")))) with 0. lia.
Qed.

Lemma substitution_totality_witness :
  let rendered := substitute [("X", VStr "5")] "a[[X]]b[[X]]5" in
  occurrences (token "X") rendered = 0 ∧
  (∃ pieces, length pieces = 3 ∧
             "a[[X]]b[[X]]5" = join (token "X") pieces ∧
             rendered = join "5" pieces) ∧
  occurrences "5" rendered = 2 + occurrences "5" "a[[X]]b[[X]]5".
Proof. apply (substitution_totality "a[[X]]b[[X]]5" 2). reflexivity. Defined.

(** ** Tokens that do not overlap *)

Lemma prefix_straddle p u x :
  String.prefix p (u +:+ x) = true →
  String.prefix p u = true ∨ ∃ w, w ≠ "" ∧ p = u +:+ w ∧ String.prefix w x = true.
Proof.
  revert u. induction p as [|c p IH]; intros u H; [left; apply prefix_empty|].
  destruct u as [|d u].
  - right. by exists (String c p).
  - rewrite str_app_cons, prefix_cons in H. apply andb_true_iff in H as [Hc H].
    apply bool_decide_eq_true in Hc as <-.
    destruct (IH _ H) as [Hp | (w & Hw & -> & Hx)].
    + left. rewrite prefix_cons, Hp. by rewrite bool_decide_eq_true_2.
    + right. by exists w.
Qed.

(** A pattern that does not begin the text [u] does not begin [u] followed
    by a token either, when the token cannot begin inside the pattern. *)
Lemma prefix_before_token old tok u x :
  starts_within tok old = false →
  String.prefix old u = false →
  String.prefix old (u +:+ tok +:+ x) = false.
Proof.
  intros Hin Hu. destruct (String.prefix old (u +:+ tok +:+ x)) eqn:Hp; [|done].
  apply prefix_straddle in Hp as [Hp | (w & Hw & -> & Hx)]; [congruence|].
  apply starts_within_suffix in Hin; [|done].
  apply comparable_false in Hin as [H1 H2].
  by rewrite prefix_app_false in Hx.
Qed.

(** One replacement leaves a token it cannot overlap where it is, and
    works on the text before and after it separately. *)
Lemma replace_around c0 old new tok a b :
  starts_within (String c0 old) tok = false →
  starts_within tok (String c0 old) = false →
  replace_from 0 (String c0 old) new (a +:+ tok +:+ b) =
  replace_from 0 (String c0 old) new a +:+ tok +:+ replace_from 0 (String c0 old) new b.
Proof.
  intros H1 H2. induction a as [| a IH | c a Hmiss IH] using (scan_ind c0 old).
  - rewrite !str_app_nil_l. by apply replace_passes.
  - by rewrite str_app_assoc, !replace_hit, IH, str_app_assoc.
  - rewrite str_app_cons, !replace_miss, IH; [done..|].
    rewrite <-str_app_cons. by apply prefix_before_token.
Qed.

Lemma overlap_false a b :
  overlap a b = false → starts_within a b = false ∧ starts_within b a = false.
Proof. unfold overlap. by intros ?%orb_false_iff. Qed.

Lemma substitute_cons kv template_vars content :
  substitute (kv :: template_vars) content =
  substitute template_vars (substitute_var content kv).
Proof. reflexivity. Qed.

Lemma substitute_around (template_vars : vars) K :
  (∀ k v, (k, v) ∈ template_vars → overlap (token k) (token K) = false) →
  ∀ a b, substitute template_vars (a +:+ token K +:+ b) =
         substitute template_vars a +:+ token K +:+ substitute template_vars b.
Proof.
  induction template_vars as [|[k v] vs IH]; intros H a b; [done|].
  rewrite !substitute_cons, !substitute_var_scan.
  destruct (overlap_false _ _ (H k v ltac:(set_solver))) as [H1 H2].
  rewrite (token_cons k) in *. rewrite replace_around by done.
  apply IH. intros k' v' Hin. apply (H k' v'). set_solver.
Qed.

(** ** Replacements that commute *)

Lemma scan2_ind (c1 : ascii) (t1 : string) (c2 : ascii) (t2 : string) (P : string → Prop) :
  P "" →
  (∀ s, P s → P (String c1 t1 +:+ s)) →
  (∀ s, P s → P (String c2 t2 +:+ s)) →
  (∀ c s, String.prefix (String c1 t1) (String c s) = false →
          String.prefix (String c2 t2) (String c s) = false → P s → P (String c s)) →
  ∀ s, P s.
Proof.
  intros Hnil H1 H2 Hmiss s.
  remember (String.length s) as n eqn:Hn.
  revert s Hn. induction n as [n IH] using lt_wf_ind. intros s ->.
  destruct s as [|c s]; [done|].
  destruct (String.prefix (String c1 t1) (String c s)) eqn:Hp1.
  { apply prefix_true in Hp1 as [r Hr]. rewrite Hr. apply H1.
    apply (IH (String.length r)); [|done].
    apply (f_equal String.length) in Hr. rewrite str_length_app in Hr.
    simpl in *. lia. }
  destruct (String.prefix (String c2 t2) (String c s)) eqn:Hp2.
  { apply prefix_true in Hp2 as [r Hr]. rewrite Hr. apply H2.
    apply (IH (String.length r)); [|done].
    apply (f_equal String.length) in Hr. rewrite str_length_app in Hr.
    simpl in *. lia. }
  apply Hmiss; [done..|]. apply (IH (String.length s)); [simpl; lia|done].
Qed.

(** Two replacements can be done in either order when neither pattern can
    begin inside the other, neither replacement text holds the first
    character of the other pattern, and neither replacement text begins
    with a character of the other pattern. *)
Lemma replace_commute c1 t1 d1 v1 c2 t2 d2 v2 s :
  starts_within (String c2 t2) (String c1 t1) = false →
  starts_within (String c1 t1) (String c2 t2) = false →
  has_char c2 (String d1 v1) = false →
  has_char c1 (String d2 v2) = false →
  has_char d1 (String c2 t2) = false →
  has_char d2 (String c1 t1) = false →
  replace_from 0 (String c1 t1) (String d1 v1)
    (replace_from 0 (String c2 t2) (String d2 v2) s) =
  replace_from 0 (String c2 t2) (String d2 v2)
    (replace_from 0 (String c1 t1) (String d1 v1) s).
Proof.
  intros H21 H12 Hv1 Hv2 Hd1 Hd2.
  induction s as [| s IH | s IH | c s Hm1 Hm2 IH] using (scan2_ind c1 t1 c2 t2).
  - done.
  - rewrite (replace_passes (String c2 t2)), !replace_hit by done.
    by rewrite replace_passes_chars, IH.
  - rewrite (replace_passes (String c1 t1)), !replace_hit by done.
    by rewrite replace_passes_chars, IH.
  - rewrite (replace_miss (String c1 t1)), (replace_miss (String c2 t2)) by done.
    rewrite !replace_miss, IH; [done| |].
    + destruct (String.prefix _ _) eqn:Hp in |- *; [|done].
      rewrite <-(replace_miss _ (String d1 v1)) in Hp by done.
      apply replace_creates_no_prefix in Hp; [congruence|done].
    + destruct (String.prefix _ _) eqn:Hp in |- *; [|done].
      rewrite <-(replace_miss _ (String d2 v2)) in Hp by done.
      apply replace_creates_no_prefix in Hp; [congruence|done].
Qed.

Lemma commute_vars (vs : vars) kv1 kv2 s :
  well_formed_keys vs → plain_values vs →
  kv1 ∈ vs → kv2 ∈ vs → kv1.1 ≠ kv2.1 →
  substitute_var (substitute_var s kv1) kv2 = substitute_var (substitute_var s kv2) kv1.
Proof.
  intros (_ & _ & Hov) Hval H1 H2 Hne. destruct kv1 as [k1 v1], kv2 as [k2 v2].
  simpl in Hne. rewrite !substitute_var_scan.
  assert (k1 ∈ vs.*1) as Hk1 by (apply list_elem_of_fmap; by exists (k1, v1)).
  assert (k2 ∈ vs.*1) as Hk2 by (apply list_elem_of_fmap; by exists (k2, v2)).
  destruct (overlap_false _ _ (Hov k1 k2 Hk1 Hk2 Hne)) as [H12 H21].
  destruct (Hval k1 v1 k2 H1 Hk2 ltac:(done)) as (d1 & r1 & E1 & Hb1 & Hd1).
  destruct (Hval k2 v2 k1 H2 Hk1 Hne) as (d2 & r2 & E2 & Hb2 & Hd2).
  rewrite E1, E2 in *. rewrite !token_cons in *. symmetry. by apply replace_commute.
Qed.

Lemma substitute_permutation (l l' : vars) :
  l ≡ₚ l' →
  NoDup l.*1 →
  (∀ kv1 kv2 s, kv1 ∈ l → kv2 ∈ l → kv1.1 ≠ kv2.1 →
     substitute_var (substitute_var s kv1) kv2 = substitute_var (substitute_var s kv2) kv1) →
  ∀ content, substitute l content = substitute l' content.
Proof.
  induction 1 as [| x l l' Hp IH | x y l | l l' l'' Hp1 IH1 Hp2 IH2]; intros Hnd Hc content.
  - done.
  - rewrite !substitute_cons. rewrite fmap_cons in Hnd. apply NoDup_cons in Hnd as [_ Hnd].
    apply IH; [done|]. intros kv1 kv2 s ? ? ?. apply Hc; set_solver.
  - rewrite !substitute_cons. f_equal. apply Hc; [set_solver..|].
    rewrite !fmap_cons in Hnd. apply NoDup_cons in Hnd as [Hy _]. set_solver.
  - rewrite IH1 by done. apply IH2.
    + by rewrite <-Hp1.
    + intros kv1 kv2 s ? ? ?. apply Hc; [by rewrite Hp1..|done].
Qed.

Lemma substitute_reordered (template_vars reordered : vars) (content : string) :
  well_formed_keys template_vars →
  plain_values template_vars →
  reordered ≡ₚ template_vars →
  substitute reordered content = substitute template_vars content.
Proof.
  intros Hk Hv Hp. symmetry. apply substitute_permutation; [done|apply Hk|].
  intros kv1 kv2 s ? ? ?. by apply (commute_vars template_vars).
Qed.

(** C9, as amended.  With keys that are distinct, free of the delimiters
    and without overlapping tokens, and values that are non-empty, hold no
    opening bracket and do not begin with a character of another key's
    token, every order of the keys renders the same text. *)
Theorem replacement_order_irrelevant (template_vars reordered : vars) (content : string) :
  well_formed_keys template_vars →
  plain_values template_vars →
  reordered ≡ₚ template_vars →
  substitute reordered content = substitute template_vars content.
Proof. apply substitute_reordered. Qed.

(** Case analysis on membership in a list that is written out. *)
Ltac in_concrete_list :=
  repeat match goal with
  | H : _ ∈ [] |- _ => by apply elem_of_nil in H
  | H : _ ∈ _ :: _ |- _ => apply elem_of_cons in H as [H|H]; simplify_eq/=
  end.

Ltac concrete_keys :=
  split; [apply (bool_decide_unpack _); vm_compute; reflexivity|];
  split; [intros k Hk; simpl in Hk; in_concrete_list; split; reflexivity|];
  intros k1 k2 Hk1 Hk2 Hne; simpl in Hk1, Hk2; in_concrete_list; done.

Lemma replacement_order_irrelevant_witness :
  substitute [("B", VStr "2"); ("A", VInt 1)] "[[A]]-[[B]]-[[A]]" =
  substitute [("A", VInt 1); ("B", VStr "2")] "[[A]]-[[B]]-[[A]]".
Proof.
  apply replacement_order_irrelevant.
  - concrete_keys.
  - intros k v k' Hkv Hk' Hne. simpl in Hk'.
    in_concrete_list; try done; eexists _, _; repeat split.
  - apply perm_swap.
Defined.

(** C9, as stated, fails: the keys A and B are as required, but the value
    of A holds the token of B, which is replaced only when A comes first. *)
Lemma replacement_order_matters :
  well_formed_keys [("A", VStr "[[B]]"); ("B", VStr "x")] ∧
  [("B", VStr "x"); ("A", VStr "[[B]]")] ≡ₚ [("A", VStr "[[B]]"); ("B", VStr "x")] ∧
  substitute [("A", VStr "[[B]]"); ("B", VStr "x")] "[[A]]" = "x" ∧
  substitute [("B", VStr "x"); ("A", VStr "[[B]]")] "[[A]]" = "[[B]]".
Proof.
  split; [concrete_keys|]. split; [apply perm_swap|]. split; reflexivity.
Qed.

(** ** Paths *)

Lemma str_take_drop n s : str_take n s +:+ str_drop n s = s.
Proof.
  revert s. induction n as [|n IH]; intros [|c s]; try done.
  simpl. by rewrite str_app_cons, IH.
Qed.

Lemma str_take_app_length a b : str_take (String.length a) (a +:+ b) = a.
Proof.
  induction a as [|c a IH]; [by destruct b|]. rewrite str_app_cons. simpl. by rewrite IH.
Qed.

Lemma str_drop_app_le n a b :
  n ≤ String.length a → str_drop n (a +:+ b) = str_drop n a +:+ b.
Proof.
  revert a. induction n as [|n IH]; intros [|c a] Hn; try done.
  - simpl in Hn. lia.
  - rewrite str_app_cons. simpl. apply IH. simpl in Hn. lia.
Qed.

Lemma endswith_true s suffix : endswith s suffix = true → ∃ q, s = q +:+ suffix.
Proof.
  unfold endswith. intros H%String.eqb_eq.
  exists (str_take (String.length s - String.length suffix) s).
  etrans; [symmetry; apply (str_take_drop (String.length s - String.length suffix))|].
  by rewrite H.
Qed.

Lemma rfind_app_none c q t : rfind c t = None → rfind c (q +:+ t) = rfind c q.
Proof.
  intros Ht. induction q as [|a q IH]; [done|]. rewrite str_app_cons. simpl. by rewrite IH.
Qed.

Lemma rfind_lt c q i : rfind c q = Some i → i < String.length q.
Proof.
  revert i. induction q as [|a q IH]; intros i; [done|]. simpl.
  destruct (rfind c q) as [j|].
  - intros [= <-]. specialize (IH j eq_refl). lia.
  - destruct (Ascii.eqb a c); [|done]. intros [= <-]. lia.
Qed.

Lemma basename_app q t : rfind "/" t = None → basename (q +:+ t) = basename q +:+ t.
Proof.
  intros Ht. unfold basename. rewrite rfind_app_none by done.
  destruct (rfind "/" q) as [i|] eqn:Hq; [|done].
  apply rfind_lt in Hq. by rewrite str_drop_app_le by lia.
Qed.

Lemma slice_until_neg_app x t :
  slice_until_neg (String.length t) (x +:+ t) = x.
Proof.
  unfold slice_until_neg. rewrite str_length_app.
  replace (String.length x + String.length t - String.length t) with (String.length x) by lia.
  apply str_take_app_length.
Qed.

(** Lines 147-150 compute the path the spec describes: the target
    directory, a slash, and the base name without its template suffix. *)
Lemma starter_code_path_spec template_file_path target_dir :
  starter_code_path template_file_path target_dir =
  target_dir +:+ "/" +:+ derived_name_spec template_file_path.
Proof.
  unfold starter_code_path, derived_name_spec.
  destruct (endswith template_file_path ".tpl") eqn:Hend; [|done].
  apply endswith_true in Hend as [q ->].
  rewrite basename_app by done.
  rewrite str_length_app. change (String.length ".tpl") with 4.
  replace (String.length (basename q) + 4 - 4) with (String.length (basename q)) by lia.
  rewrite str_take_app_length.
  rewrite <-!str_app_assoc. apply (slice_until_neg_app _ ".tpl").
Qed.

(** ** Names without brackets *)

Lemma has_char_cons c a r : has_char c (String a r) = Ascii.eqb a c || has_char c r.
Proof. reflexivity. Qed.

Lemma has_char_app c a b : has_char c (a +:+ b) = has_char c a || has_char c b.
Proof.
  induction a as [|x a IH]; [done|]. rewrite str_app_cons. simpl.
  by rewrite IH, orb_assoc.
Qed.

Lemma starts_within_no_head c0 p host :
  has_char c0 host = false → starts_within (String c0 p) host = false.
Proof.
  induction host as [|d host IH]; [done|]. simpl has_char.
  intros [Hd Hh]%orb_false_iff. simpl starts_within. rewrite IH by done.
  unfold comparable. rewrite !prefix_cons.
  assert (d ≠ c0) as Hne by (intros ->; by rewrite Ascii.eqb_refl in Hd).
  by rewrite !bool_decide_eq_false_2 by congruence.
Qed.

Lemma comparable_closed a b :
  has_char "]" a = false → has_char "]" b = false → a ≠ b →
  comparable (a +:+ "]]") (b +:+ "]]") = false.
Proof.
  revert b. induction a as [|c a IH]; intros [|d b] Ha Hb Hne; try done.
  - simpl in Hb. apply orb_false_iff in Hb as [Hd _].
    unfold comparable. rewrite str_app_nil_l, str_app_cons.
    change "]]" with (String "]" "]"). rewrite !prefix_cons.
    assert (d ≠ "]"%char) by (intros ->; by rewrite Ascii.eqb_refl in Hd).
    by rewrite !bool_decide_eq_false_2 by congruence.
  - simpl in Ha. apply orb_false_iff in Ha as [Hc _].
    unfold comparable. rewrite str_app_nil_l, str_app_cons.
    change "]]" with (String "]" "]"). rewrite !prefix_cons.
    assert (c ≠ "]"%char) by (intros ->; by rewrite Ascii.eqb_refl in Hc).
    by rewrite !bool_decide_eq_false_2 by congruence.
  - simpl in Ha, Hb. apply orb_false_iff in Ha as [_ Ha], Hb as [_ Hb].
    unfold comparable. rewrite !str_app_cons, !prefix_cons.
    destruct (decide (c = d)) as [->|Hcd].
    + rewrite !bool_decide_eq_true_2 by done. simpl.
      apply (IH b); [done..|congruence].
    + by rewrite !bool_decide_eq_false_2 by congruence.
Qed.

Lemma starts_within_plain k K :
  plain_name k = true → plain_name K = true → k ≠ K →
  starts_within (token K) (token k) = false.
Proof.
  unfold plain_name. intros [Hk1 Hk2]%andb_true_iff [HK1 HK2]%andb_true_iff Hne.
  apply negb_true_iff in Hk1, Hk2, HK1, HK2.
  assert (has_char "[" (k +:+ "]]") = false) as Hopen.
  { by rewrite has_char_app, Hk1. }
  rewrite !token_cons. simpl starts_within.
  rewrite (starts_within_no_head "[" _ (k +:+ "]]")) by done.
  rewrite !orb_false_r. apply orb_false_iff. split.
  - unfold comparable. rewrite !prefix_cons, !bool_decide_eq_true_2 by done. simpl.
    by apply comparable_closed.
  - unfold comparable. rewrite !prefix_cons, !bool_decide_eq_true_2 by done. cbn [andb].
    destruct (k +:+ "]]") as [|c r] eqn:Hkr; [by destruct k|].
    simpl in Hopen. apply orb_false_iff in Hopen as [Hc _].
    assert (c ≠ "["%char) by (intros ->; by rewrite Ascii.eqb_refl in Hc).
    rewrite !prefix_cons. by rewrite !bool_decide_eq_false_2 by congruence.
Qed.

(** The tokens of two different names without brackets never overlap. *)
Lemma plain_names_do_not_overlap k K :
  plain_name k = true → plain_name K = true → k ≠ K →
  overlap (token k) (token K) = false.
Proof.
  intros Hk HK Hne. unfold overlap.
  rewrite (starts_within_plain K k), (starts_within_plain k K) by done. done.
Qed.

(** For names without brackets the condition on the unknown token is
    simply that it is not a key. *)
Lemma unknown_plain_token_left_verbatim (template_vars : vars) K before after :
  plain_name K = true →
  (∀ k, k ∈ template_vars.*1 → plain_name k = true) →
  K ∉ template_vars.*1 →
  substitute template_vars (before +:+ token K +:+ after) =
  substitute template_vars before +:+ token K +:+ substitute template_vars after.
Proof.
  intros HK Hkeys Hnot. apply substitute_around. intros k v Hin.
  assert (k ∈ template_vars.*1) as Hk by (apply list_elem_of_fmap; by exists (k, v)).
  apply plain_names_do_not_overlap; [by apply Hkeys|done|]. by intros ->.
Qed.

(** Each condition on the values is needed: an empty value, a value with
    an opening bracket and a value that begins with a character of another
    key's token each make the order matter. *)
Lemma value_conditions_needed :
  substitute [("A", VStr ""); ("B", VStr "x")] "[[[[A]]B]]" ≠
  substitute [("B", VStr "x"); ("A", VStr "")] "[[[[A]]B]]" ∧
  substitute [("A", VStr "5[[B]]"); ("B", VStr "x")] "[[A]]" ≠
  substitute [("B", VStr "x"); ("A", VStr "5[[B]]")] "[[A]]" ∧
  substitute [("X", VStr "5"); ("a5b", VStr "y")] "[[a[[X]]b]]" ≠
  substitute [("a5b", VStr "y"); ("X", VStr "5")] "[[a[[X]]b]]".
Proof. by repeat split. Qed.

(** ** The variables the orchestrator passes *)

Lemma uint_digits d c :
  has_char c (NilEmpty.string_of_uint d) = true → has_char c "0123456789" = true.
Proof.
  induction d as [|d IH|d IH|d IH|d IH|d IH|d IH|d IH|d IH|d IH|d IH]; [done|..];
    simpl NilEmpty.string_of_uint; intros [Hc|Hc]%orb_true_iff; auto;
    apply Ascii.eqb_eq in Hc as <-; reflexivity.
Qed.

Lemma str_of_int_chars z c :
  has_char c (str_of_int z) = true → has_char c "-0123456789" = true.
Proof.
  unfold str_of_int, NilZero.string_of_int.
  assert (∀ d, has_char c (NilZero.string_of_uint d) = true →
               has_char c "-0123456789" = true) as Huint.
  { intros d Hd. change "-0123456789" with (String "-" "0123456789").
    simpl has_char. apply orb_true_iff. right.
    destruct d; [|apply (uint_digits _ _ Hd)..].
    change (Ascii.eqb "0" c || false = true) in Hd.
    apply orb_true_iff in Hd as [Hd|Hd]; [|done].
    apply Ascii.eqb_eq in Hd as <-. reflexivity. }
  destruct (Z.to_int z) as [d|d]; [exact (Huint d)|].
  intros Hc. change (Ascii.eqb "-" c || has_char c (NilZero.string_of_uint d) = true) in Hc.
  apply orb_true_iff in Hc as [Hc|Hc]; [|exact (Huint d Hc)].
  apply Ascii.eqb_eq in Hc as <-. reflexivity.
Qed.

Lemma str_of_int_nonempty z : ∃ d r, str_of_int z = String d r.
Proof.
  unfold str_of_int, NilZero.string_of_int.
  destruct (Z.to_int z) as [[]|[]]; simpl; eauto.
Qed.

Lemma int_value_plain z k :
  k = "CHALLENGE_DAY" ∨ k = "CHALLENGE_YEAR" →
  ∃ d r, format_value (VInt z) = String d r ∧
         has_char "[" (format_value (VInt z)) = false ∧
         has_char d (token k) = false.
Proof.
  intros Hk. cbn [format_value]. destruct (str_of_int_nonempty z) as (d & r & Hz).
  exists d, r. split; [done|]. split.
  - destruct (has_char "[" (str_of_int z)) eqn:Hb; [|done].
    by apply str_of_int_chars in Hb.
  - assert (has_char d (str_of_int z) = true) as Hd.
    { by rewrite Hz, has_char_cons, Ascii.eqb_refl. }
    apply str_of_int_chars in Hd. rewrite !has_char_cons in Hd.
    repeat (apply orb_true_iff in Hd as [Hd|Hd];
            [apply Ascii.eqb_eq in Hd as <-; by destruct Hk as [-> | ->]|]).
    done.
Qed.

(** C9 for the call at lines 47-54: the day and the year can be
    substituted in either order. *)
Lemma orchestrator_order_irrelevant (day year : Z) (content : string) :
  substitute [("CHALLENGE_YEAR", VInt year); ("CHALLENGE_DAY", VInt day)] content =
  substitute [("CHALLENGE_DAY", VInt day); ("CHALLENGE_YEAR", VInt year)] content.
Proof.
  apply substitute_reordered; [concrete_keys| |apply perm_swap].
  intros k v k' Hkv Hk' Hne.
  assert (∃ z, v = VInt z) as [z ->] by (in_concrete_list; eauto).
  assert (k' = "CHALLENGE_DAY" ∨ k' = "CHALLENGE_YEAR")
    by (simpl in Hk'; in_concrete_list; auto).
  by apply int_value_plain.
Qed.

(** ** Rendering *)

Lemma replace_absent c0 old new s :
  occurrences (String c0 old) s = 0 →
  replace_from 0 (String c0 old) new s = s.
Proof.
  induction s as [|c s IH]; [done|]. rewrite occurrences_cons.
  destruct (String.prefix (String c0 old) (String c s)) eqn:Hp; [done|].
  intros H. rewrite replace_miss by done. by rewrite IH.
Qed.

Lemma contains_false pat s : contains pat s = false → occurrences pat s = 0.
Proof. unfold contains. intros H%negb_false_iff. by apply Nat.eqb_eq. Qed.

(** X1 (nothing to substitute).  A template in which the token of no
    variable occurs is rendered to itself, whatever the values are. *)
Theorem template_without_tokens_unchanged (template_vars : vars) (content : string) :
  (∀ k v, (k, v) ∈ template_vars → contains (token k) content = false) →
  substitute template_vars content = content.
Proof.
  induction template_vars as [|[k v] vs IH]; intros H; [done|].
  rewrite substitute_cons, substitute_var_scan, token_cons, replace_absent.
  - apply IH. intros k' v' Hin. apply (H k' v'). by right.
  - rewrite <-token_cons. apply contains_false, (H k v). by left.
Qed.

Lemma template_without_tokens_unchanged_witness :
  substitute [("CHALLENGE_DAY", VInt 5); ("CHALLENGE_YEAR", VStr "[[CHALLENGE_DAY]]")]
    "print([[1, 2], [3]]) # [[UNUSED]]" =
  "print([[1, 2], [3]]) # [[UNUSED]]".
Proof.
  apply template_without_tokens_unchanged.
  intros k v Hin. in_concrete_list; reflexivity.
Defined.

Lemma rfind_none c s : rfind c s = None ↔ has_char c s = false.
Proof.
  induction s as [|a s IH]; [done|]. simpl rfind. rewrite has_char_cons.
  destruct (rfind c s) as [i|].
  - split; [done|]. intros [_ H]%orb_false_iff. by apply IH in H.
  - destruct (Ascii.eqb a c); [done|]. simpl. by rewrite <-IH.
Qed.

Lemma rfind_app_sep c a b :
  rfind c b = None → rfind c (a +:+ String c b) = Some (String.length a).
Proof.
  intros Hb. induction a as [|x a IH].
  - rewrite str_app_nil_l. simpl. by rewrite Hb, Ascii.eqb_refl.
  - rewrite str_app_cons. simpl. by rewrite IH.
Qed.

Lemma str_drop_app_length a b : str_drop (String.length a) (a +:+ b) = b.
Proof. induction a as [|x a IH]; [by destruct b|]. by rewrite str_app_cons. Qed.

Lemma basename_join dir name :
  has_char "/" name = false → basename (dir +:+ "/" +:+ name) = name.
Proof.
  intros H%rfind_none. unfold basename.
  change ("/" +:+ name) with (String "/" name).
  rewrite rfind_app_sep by done.
  induction dir as [|x dir IH]; [done|]. by rewrite str_app_cons.
Qed.

Lemma has_char_drop c n s : has_char c s = false → has_char c (str_drop n s) = false.
Proof.
  revert s. induction n as [|n IH]; intros [|a s] H; try done.
  simpl. apply IH. rewrite has_char_cons in H. by apply orb_false_iff in H as [_ ?].
Qed.

Lemma has_char_take c n s : has_char c s = false → has_char c (str_take n s) = false.
Proof.
  revert s. induction n as [|n IH]; intros [|a s] H; try done.
  simpl str_take. rewrite has_char_cons in *. apply orb_false_iff in H as [Ha H].
  by rewrite Ha, IH.
Qed.

Lemma rfind_drop c s i : rfind c s = Some i → has_char c (str_drop (S i) s) = false.
Proof.
  revert i. induction s as [|a s IH]; intros i; [done|]. simpl rfind.
  destruct (rfind c s) as [j|] eqn:Hj.
  - intros [= <-]. by apply IH.
  - destruct (Ascii.eqb a c); [|done]. intros [= <-]. simpl. by apply rfind_none.
Qed.

Lemma basename_no_sep p : has_char "/" (basename p) = false.
Proof.
  unfold basename. destruct (rfind "/" p) as [i|] eqn:Hp.
  - by apply rfind_drop.
  - by apply rfind_none.
Qed.

Lemma endswith_app q suffix : endswith (q +:+ suffix) suffix = true.
Proof.
  unfold endswith. rewrite str_length_app.
  replace (String.length q + String.length suffix - String.length suffix)
    with (String.length q) by lia.
  rewrite str_drop_app_length. apply String.eqb_refl.
Qed.

(** Whether a path ends with the template suffix is decided by its last
    name. *)
Lemma endswith_join dir name :
  has_char "/" name = false →
  endswith (dir +:+ "/" +:+ name) ".tpl" = endswith name ".tpl".
Proof.
  intros Hname. destruct (endswith name ".tpl") eqn:Hend.
  - apply endswith_true in Hend as [q ->].
    rewrite <-!str_app_assoc. apply endswith_app.
  - destruct (endswith (dir +:+ "/" +:+ name) ".tpl") eqn:Hfull; [|done].
    apply endswith_true in Hfull as [q Hq].
    apply (f_equal basename) in Hq. rewrite basename_join, basename_app in Hq by done.
    by rewrite Hq, endswith_app in Hend.
Qed.

(** X2 (where the starter code goes).  The starter code path is the
    target directory, a slash and a name without a slash, which is its own
    base name; and that name is made from the last name of the template
    path alone: a template found through any directories gets the starter
    code path of the bare name. *)
Theorem starter_code_directly_in_target_dir (template_file_path target_dir : string) :
  (∃ name,
     starter_code_path template_file_path target_dir = target_dir +:+ "/" +:+ name ∧
     has_char "/" name = false ∧
     basename (starter_code_path template_file_path target_dir) = name) ∧
  (∀ dir name,
     has_char "/" name = false →
     template_file_path = dir +:+ "/" +:+ name →
     starter_code_path template_file_path target_dir = starter_code_path name target_dir).
Proof.
  split.
  - exists (derived_name_spec template_file_path).
    assert (has_char "/" (derived_name_spec template_file_path) = false) as Hname.
    { unfold derived_name_spec. destruct (endswith _ _).
      - apply has_char_take, basename_no_sep.
      - apply basename_no_sep. }
    rewrite starter_code_path_spec. split; [done|]. split; [done|].
    by apply basename_join.
  - intros dir name Hname ->. unfold starter_code_path.
    rewrite endswith_join, basename_join by done.
    assert (basename name = name) as ->; [|done].
    unfold basename. by apply rfind_none in Hname as ->.
Qed.

Lemma starter_code_directly_in_target_dir_witness :
  starter_code_path "/home/me/templates/sol.py.tpl" "/out" =
  starter_code_path "sol.py.tpl" "/out".
Proof.
  apply (starter_code_directly_in_target_dir "/home/me/templates/sol.py.tpl" "/out")
    with (dir := "/home/me/templates"); reflexivity.
Defined.

(** A pattern that cannot overlap itself is replaced where it stands, and
    the text before and after it is scanned separately. *)
Lemma replace_at c0 old new a b :
  starts_within (String c0 old) old = false →
  replace_from 0 (String c0 old) new (a +:+ String c0 old +:+ b) =
  replace_from 0 (String c0 old) new a +:+ new +:+ replace_from 0 (String c0 old) new b.
Proof.
  intros Hself. induction a as [| a IH | c a Hmiss IH] using (scan_ind c0 old).
  - by rewrite !str_app_nil_l, replace_hit.
  - by rewrite str_app_assoc, !replace_hit, IH, str_app_assoc.
  - rewrite str_app_cons, !replace_miss, IH; [done..|].
    rewrite <-str_app_cons.
    destruct (String.prefix _ (String c a +:+ _)) eqn:Hp; [|done].
    apply prefix_straddle in Hp as [Hp | (w & Hw & Heq & Hx)]; [congruence|].
    rewrite str_app_cons in Heq. injection Heq as _ ->.
    apply starts_within_suffix in Hself; [|done].
    apply comparable_false in Hself as [H1 H2].
    by rewrite prefix_app_false in Hx.
Qed.

(** A text that begins with a character foreign to the pattern, and holds
    no first character of it, stays where it is. *)
Lemma replace_around_text c0 old new d r a b :
  has_char d (String c0 old) = false →
  has_char c0 (String d r) = false →
  replace_from 0 (String c0 old) new (a +:+ String d r +:+ b) =
  replace_from 0 (String c0 old) new a +:+ String d r +:+
  replace_from 0 (String c0 old) new b.
Proof.
  intros Hd Hc. induction a as [| a IH | c a Hmiss IH] using (scan_ind c0 old).
  - rewrite !str_app_nil_l. by apply replace_passes_chars.
  - by rewrite str_app_assoc, !replace_hit, IH, str_app_assoc.
  - rewrite str_app_cons, !replace_miss, IH; [done..|].
    rewrite <-str_app_cons.
    destruct (String.prefix _ (String c a +:+ _)) eqn:Hp; [|done].
    apply prefix_straddle in Hp as [Hp | (w & Hw & Heq & Hx)]; [congruence|].
    destruct w as [|e w]; [done|].
    rewrite str_app_cons, prefix_cons in Hx. apply andb_true_iff in Hx as [He _].
    apply bool_decide_eq_true in He as ->.
    rewrite Heq, has_char_app in Hd. apply orb_false_iff in Hd as [_ Hd].
    by rewrite has_char_cons, Ascii.eqb_refl in Hd.
Qed.

(** X3 (known tokens).  With the variables the orchestrator passes, a
    [[[CHALLENGE_DAY]]] anywhere in the template becomes the decimal day
    and a [[[CHALLENGE_YEAR]]] the decimal year, and the text on either
    side is rendered as if it stood alone. *)
Theorem known_tokens_replaced_in_place (day year : Z) (before after : string) :
  substitute (orchestrator_vars day year) (before +:+ token "CHALLENGE_DAY" +:+ after) =
    substitute (orchestrator_vars day year) before +:+ str_of_int day +:+
    substitute (orchestrator_vars day year) after ∧
  substitute (orchestrator_vars day year) (before +:+ token "CHALLENGE_YEAR" +:+ after) =
    substitute (orchestrator_vars day year) before +:+ str_of_int year +:+
    substitute (orchestrator_vars day year) after.
Proof.
  unfold orchestrator_vars. rewrite !substitute_cons, !substitute_var_scan.
  unfold substitute. cbn [fold_left format_value]. split.
  - rewrite (token_cons "CHALLENGE_DAY"), replace_at by done.
    destruct (int_value_plain day "CHALLENGE_YEAR") as (d & r & Hv & Hopen & Hd); [by right|].
    cbn [format_value] in Hv, Hopen. rewrite Hv in *.
    rewrite (token_cons "CHALLENGE_YEAR") in *. by rewrite replace_around_text.
  - rewrite (token_cons "CHALLENGE_DAY"), replace_around by done.
    by rewrite (token_cons "CHALLENGE_YEAR"), replace_at.
Qed.

(** ** Paths and addresses *)

Lemma str_of_int_inj z z' : str_of_int z = str_of_int z' → z = z'.
Proof.
  unfold str_of_int. intros H.
  assert (∀ x, NilZero.int_of_string (NilZero.string_of_int (Z.to_int x)) = Some (Z.to_int x))
    as Hparse.
  { intros x. apply NilZero.isi; destruct x; simpl; try done;
      intros [= Hnil]; by apply DecimalPos.Unsigned.to_uint_nonnil in Hnil. }
  apply (f_equal NilZero.int_of_string) in H. rewrite !Hparse in H.
  injection H as H. apply (f_equal Z.of_int) in H. by rewrite !DecimalZ.of_to in H.
Qed.

Lemma split_at_sep c a a' b b' :
  has_char c a = false → has_char c a' = false →
  a +:+ String c b = a' +:+ String c b' → a = a' ∧ b = b'.
Proof.
  revert a'. induction a as [|x a IH]; intros [|x' a'] Ha Ha' H.
  - rewrite !str_app_nil_l in H. by injection H as ->.
  - rewrite str_app_nil_l, str_app_cons in H. injection H as <- _.
    by rewrite has_char_cons, Ascii.eqb_refl in Ha'.
  - rewrite str_app_nil_l, str_app_cons in H. injection H as -> _.
    by rewrite has_char_cons, Ascii.eqb_refl in Ha.
  - rewrite !str_app_cons in H. injection H as -> H.
    rewrite has_char_cons in Ha, Ha'.
    apply orb_false_iff in Ha as [_ Ha], Ha' as [_ Ha'].
    destruct (IH a' Ha Ha' H) as [-> ->]. done.
Qed.

Lemma str_of_int_no_char c z :
  has_char c "-0123456789" = false → has_char c (str_of_int z) = false.
Proof.
  intros Hc. destruct (has_char c (str_of_int z)) eqn:H; [|done].
  apply str_of_int_chars in H. congruence.
Qed.

(** X4 (one file and one address per challenge).  For a given inputs
    directory, two challenges have the same input file path only if they
    are the same day of the same year, and likewise for the request URL:
    the existence test of line 83 never takes another challenge's input
    for this one's. *)
Theorem challenge_paths_injective (inputs_dir_path : string) (day year day' year' : Z) :
  (input_file_path_of inputs_dir_path day year = input_file_path_of inputs_dir_path day' year' →
     day = day' ∧ year = year') ∧
  (request_url_of day year = request_url_of day' year' → day = day' ∧ year = year').
Proof.
  unfold input_file_path_of, request_url_of. split; intros H.
  - apply (inj (String.app inputs_dir_path)) in H.
    apply (inj (String.app "/")) in H.
    change ("/day" +:+ ?x) with (String "/" ("day" +:+ x)) in H.
    apply split_at_sep in H as [Hy H]; [|by apply str_of_int_no_char..].
    apply (inj (String.app "day")) in H.
    change (".txt") with (String "." "txt") in H.
    apply split_at_sep in H as [Hd _]; [|by apply str_of_int_no_char..].
    split; by apply str_of_int_inj.
  - apply (inj (String.app AOC_ENDPOINT)) in H.
    apply (inj (String.app "/")) in H.
    change ("/day/" +:+ ?x) with (String "/" ("day/" +:+ x)) in H.
    apply split_at_sep in H as [Hy H]; [|by apply str_of_int_no_char..].
    apply (inj (String.app "day/")) in H.
    change ("/input") with (String "/" "input") in H.
    apply split_at_sep in H as [Hd _]; [|by apply str_of_int_no_char..].
    split; by apply str_of_int_inj.
Qed.

Lemma challenge_paths_injective_witness :
  5%Z = 5%Z ∧ 2023%Z = 2023%Z.
Proof.
  apply (challenge_paths_injective "inputs" 5 2023 5 2023). reflexivity.
Defined.

(** X24 (day and year in either order).  For the two variables the
    orchestrator passes, whatever the day, the year and the template,
    substituting the year first gives the same text as substituting the day
    first. *)
Theorem day_and_year_commute (day year : Z) (content : string) :
  substitute [("CHALLENGE_YEAR", VInt year); ("CHALLENGE_DAY", VInt day)] content =
  substitute (orchestrator_vars day year) content.
Proof. apply orchestrator_order_irrelevant. Qed.

(** X25 (unknown names without brackets).  When the keys of the mapping
    and the name [K] hold no bracket, and [K] is not a key, a token
    [[[K]]] in the template stays where it is and the text around it is
    rendered as if it stood alone. *)
Theorem unknown_plain_name_kept (template_vars : vars) (K before after : string) :
  plain_name K = true →
  (∀ k, k ∈ template_vars.*1 → plain_name k = true) →
  K ∉ template_vars.*1 →
  substitute template_vars (before +:+ token K +:+ after) =
  substitute template_vars before +:+ token K +:+ substitute template_vars after.
Proof. apply unknown_plain_token_left_verbatim. Qed.

Lemma unknown_plain_name_kept_witness :
  substitute (orchestrator_vars 5 2023) ("# [[CHALLENGE_DAY]] " +:+ token "AUTHOR" +:+ " [[CHALLENGE_YEAR]]") =
  substitute (orchestrator_vars 5 2023) "# [[CHALLENGE_DAY]] " +:+ token "AUTHOR" +:+
  substitute (orchestrator_vars 5 2023) " [[CHALLENGE_YEAR]]".
Proof.
  apply unknown_plain_name_kept.
  - reflexivity.
  - intros k Hk. simpl in Hk. in_concrete_list; reflexivity.
  - simpl. intros Hk. in_concrete_list.
Defined.

(** ** Path strings and locations *)

Lemma names_nonempty path : names path ≠ [].
Proof.
  induction path as [|c r IH]; [done|]. simpl.
  destruct (Ascii.eqb c "/"); [done|]. by destruct (names r).
Qed.

Lemma names_cons c r :
  names (String c r) =
  if Ascii.eqb c "/" then "" :: names r
  else match names r with
       | n :: ns => String c n :: ns
       | [] => [String c ""]
       end.
Proof. reflexivity. Qed.

(** A path made of a directory path, a slash and more has the names of
    both. *)
Lemma names_app_sep a b : names (a +:+ "/" +:+ b) = names a ++ names b.
Proof.
  induction a as [|c a IH].
  - by rewrite str_app_nil_l.
  - rewrite str_app_cons, !names_cons, IH.
    destruct (Ascii.eqb c "/"); [done|].
    pose proof (names_nonempty a). by destruct (names a).
Qed.

Lemma names_plain s : has_char "/" s = false → names s = [s].
Proof.
  induction s as [|c s IH]; [done|]. rewrite has_char_cons, names_cons.
  intros [Hc Hs]%orb_false_iff. by rewrite Hc, IH.
Qed.

Lemma parent_snoc (k : location) n : parent (k ++ [n]) = k.
Proof.
  unfold parent. rewrite length_app. simpl.
  replace (length k + 1 - 1) with (length k) by lia. by rewrite take_app_length.
Qed.

Lemma proper_name_step f cur n rest :
  proper_name n = true →
  walk f cur (n :: rest) =
  match f !! (cur ++ [n]) with
  | Some Dir => walk f (cur ++ [n]) rest
  | Some (File c) =>
      if only_slashes rest then AtFile (cur ++ [n]) c (negb (no_more rest)) else NotDir
  | None =>
      if only_slashes rest then Nothing (cur ++ [n]) (negb (no_more rest)) else NoEntry
  end.
Proof.
  unfold proper_name. intros [[H1 H2]%andb_true_iff _]%andb_true_iff.
  apply negb_true_iff in H1, H2. cbn [walk]. by rewrite H1, H2.
Qed.

Lemma proper_name_not_slash n : proper_name n = true → String.eqb "" n = false.
Proof. by destruct n. Qed.

Lemma only_slashes_snoc rest n :
  proper_name n = true → only_slashes (rest ++ [n]) = false.
Proof.
  intros Hn. unfold only_slashes. rewrite forallb_app. cbn [forallb].
  by rewrite (proper_name_not_slash n Hn), andb_false_r.
Qed.

Lemma walk_snoc f cur ns n :
  proper_name n = true → walk f cur (ns ++ [n]) = below f (walk f cur ns) n.
Proof.
  intros Hn. revert cur. induction ns as [|n0 ns IH]; intros cur.
  - simpl app. rewrite proper_name_step by done. unfold below, child. simpl.
    by destruct (f !! (cur ++ [n])) as [[]|].
  - simpl app. cbn [walk]. destruct (stays n0); [apply IH|].
    destruct (String.eqb n0 ".."); [apply IH|].
    destruct (f !! (cur ++ [n0])) as [[c|]|]; [| apply IH |].
    + rewrite only_slashes_snoc by done. by destruct (only_slashes ns).
    + rewrite only_slashes_snoc by done. by destruct (only_slashes ns).
Qed.

Lemma start_app cwd c d rest : start cwd (String c d +:+ rest) = start cwd (String c d).
Proof. unfold start. by rewrite str_app_cons, !prefix_cons, !prefix_empty. Qed.

(** The path of an entry [n] in the directory [d]. *)
Lemma resolve_child cwd f d n :
  d ≠ "" → proper_name n = true →
  resolve cwd f (d +:+ "/" +:+ n) = below f (resolve cwd f d) n.
Proof.
  intros Hd Hn. destruct d as [|c d]; [done|]. unfold resolve.
  rewrite str_app_cons. cbn [String.eqb]. rewrite <-str_app_cons.
  rewrite start_app, names_app_sep, (names_plain n).
  - by apply walk_snoc.
  - unfold proper_name in Hn. apply andb_true_iff in Hn as [_ Hn]. by apply negb_true_iff.
Qed.

Lemma only_slashes_cons n rest :
  only_slashes (n :: rest) = true → n = "" ∧ only_slashes rest = true.
Proof.
  unfold only_slashes. cbn [forallb]. intros [Hn Hrest]%andb_true_iff.
  by apply String.eqb_eq in Hn as <-.
Qed.

Lemma walk_only_slashes f cur rest : only_slashes rest = true → walk f cur rest = AtDir cur.
Proof.
  induction rest as [|n rest IH]; [done|].
  intros [-> Hrest]%only_slashes_cons. by apply IH.
Qed.

Lemma lexical_only_slashes cur rest : only_slashes rest = true → lexical cur rest = cur.
Proof.
  induction rest as [|n rest IH]; [done|].
  intros [-> Hrest]%only_slashes_cons. by apply IH.
Qed.

(** Where a walk ends is decided by the names alone. *)
Lemma walk_place f cur ns k : place (walk f cur ns) = Some k → k = lexical cur ns.
Proof.
  revert cur. induction ns as [|n ns IH]; intros cur; cbn [walk lexical].
  - by intros [= <-].
  - destruct (stays n); [apply IH|]. destruct (String.eqb n ".."); [apply IH|].
    destruct (f !! (cur ++ [n])) as [[c|]|]; [| apply IH |].
    + destruct (only_slashes ns) eqn:Hs; [|done]. intros [= <-].
      by rewrite lexical_only_slashes.
    + destruct (only_slashes ns) eqn:Hs; [|done]. intros [= <-].
      by rewrite lexical_only_slashes.
Qed.

Lemma resolve_place cwd f path k : place (resolve cwd f path) = Some k → k = abspath cwd path.
Proof.
  unfold resolve, abspath. destruct (String.eqb path ""); [done|]. apply walk_place.
Qed.

Lemma walk_file_lookup f cur ns k c slash :
  walk f cur ns = AtFile k c slash → f !! k = Some (File c).
Proof.
  revert cur. induction ns as [|n ns IH]; intros cur; cbn [walk]; [done|].
  destruct (stays n); [apply IH|]. destruct (String.eqb n ".."); [apply IH|].
  destruct (f !! (cur ++ [n])) as [[c'|]|] eqn:Hk; [| apply IH |].
  - destruct (only_slashes ns); [|done]. by intros [= <- <- _].
  - by destruct (only_slashes ns).
Qed.

Lemma walk_nothing_lookup f cur ns k slash :
  walk f cur ns = Nothing k slash → f !! k = None.
Proof.
  revert cur. induction ns as [|n ns IH]; intros cur; cbn [walk]; [done|].
  destruct (stays n); [apply IH|]. destruct (String.eqb n ".."); [apply IH|].
  destruct (f !! (cur ++ [n])) as [[c'|]|] eqn:Hk; [| apply IH |].
  - by destruct (only_slashes ns).
  - destruct (only_slashes ns); [|done]. by intros [= <- _].
Qed.

(** A walk that did not stop at [k] does not see what is put there, as
    long as [k] was no directory. *)
Lemma walk_insert_other f k n cur ns k' :
  f !! k ≠ Some Dir →
  place (walk f cur ns) = Some k' →
  k' ≠ k ∨ walk f cur ns = AtDir k' →
  walk (<[k := n]> f) cur ns = walk f cur ns.
Proof.
  intros Hk. revert cur. induction ns as [|n0 ns IH]; intros cur; cbn [walk]; [done|].
  destruct (stays n0); [apply IH|]. destruct (String.eqb n0 ".."); [apply IH|].
  destruct (f !! (cur ++ [n0])) as [[c|]|] eqn:Hfk.
  - destruct (only_slashes ns) eqn:Hs; [|done]. intros [= <-] [Hne|?]; [|done].
    by rewrite lookup_insert_ne, Hfk.
  - intros Hplace Hor. assert (cur ++ [n0] ≠ k) as Hne by (intros <-; congruence).
    rewrite lookup_insert_ne by done. rewrite Hfk. by apply IH.
  - destruct (only_slashes ns) eqn:Hs; [|done]. intros [= <-] [Hne|?]; [|done].
    by rewrite lookup_insert_ne, Hfk.
Qed.

(** A walk that stopped at [k] finds the file that is put there. *)
Lemma walk_insert_file f k content cur ns :
  place (walk f cur ns) = Some k →
  (∀ k0, walk f cur ns ≠ AtDir k0) →
  ∃ slash, walk (<[k := File content]> f) cur ns = AtFile k content slash ∧
           (walk f cur ns = Nothing k slash ∨ ∃ c, walk f cur ns = AtFile k c slash).
Proof.
  revert cur. induction ns as [|n0 ns IH]; intros cur; cbn [walk].
  { intros _ H. by destruct (H cur). }
  destruct (stays n0); [apply IH|]. destruct (String.eqb n0 ".."); [apply IH|].
  destruct (f !! (cur ++ [n0])) as [[c|]|] eqn:Hfk.
  - destruct (only_slashes ns) eqn:Hs; [|done]. intros [= <-] _.
    rewrite lookup_insert_eq. eauto.
  - intros Hplace Hnodir.
    assert (cur ++ [n0] ≠ k) as Hne.
    { intros <-. destruct (walk f (cur ++ [n0]) ns) as [k0|k0 c0 s0|k0 s0| |] eqn:Hw; try done.
      - by destruct (Hnodir k0).
      - injection Hplace as ->. apply walk_file_lookup in Hw. congruence.
      - injection Hplace as ->. apply walk_nothing_lookup in Hw. congruence. }
    rewrite lookup_insert_ne by done. rewrite Hfk. by apply IH.
  - destruct (only_slashes ns) eqn:Hs; [|done]. intros [= <-] _.
    rewrite lookup_insert_eq. eauto.
Qed.

(** A walk that found nothing at [k] finds the directory that is made
    there. *)
Lemma walk_insert_dir f k cur ns slash :
  walk f cur ns = Nothing k slash → walk (<[k := Dir]> f) cur ns = AtDir k.
Proof.
  revert cur. induction ns as [|n0 ns IH]; intros cur; cbn [walk]; [done|].
  destruct (stays n0); [apply IH|]. destruct (String.eqb n0 ".."); [apply IH|].
  destruct (f !! (cur ++ [n0])) as [[c|]|] eqn:Hfk.
  - by destruct (only_slashes ns).
  - intros Hw. assert (cur ++ [n0] ≠ k) as Hne.
    { intros <-. apply walk_nothing_lookup in Hw. congruence. }
    rewrite lookup_insert_ne by done. rewrite Hfk. by apply IH.
  - destruct (only_slashes ns) eqn:Hs; [|done]. intros [= <- _].
    rewrite lookup_insert_eq. by apply walk_only_slashes.
Qed.

Lemma resolve_insert_other cwd f k n path k' :
  f !! k ≠ Some Dir →
  place (resolve cwd f path) = Some k' →
  k' ≠ k ∨ resolve cwd f path = AtDir k' →
  resolve cwd (<[k := n]> f) path = resolve cwd f path.
Proof.
  unfold resolve. destruct (String.eqb path ""); [done|]. apply walk_insert_other.
Qed.

(** ** What the calls on paths answer *)

Lemma open_read_inv cwd f path content :
  open_read cwd f path = inr content → ∃ k, resolve cwd f path = AtFile k content false.
Proof.
  unfold open_read. destruct (resolve cwd f path) as [k|k c [|]|k s| |]; try done.
  intros [= ->]. by exists k.
Qed.

Lemma open_write_inv cwd f path k :
  open_write cwd f path = inr k →
  resolve cwd f path = Nothing k false ∨ ∃ c, resolve cwd f path = AtFile k c false.
Proof.
  unfold open_write. destruct (resolve cwd f path) as [k0|k0 c [|]|k0 [|]| |]; try done.
  - intros [= ->]. eauto.
  - intros [= ->]. eauto.
Qed.

Lemma make_dir_inv cwd f path k :
  make_dir cwd f path = inr k → ∃ slash, resolve cwd f path = Nothing k slash.
Proof.
  unfold make_dir. destruct (resolve cwd f path) as [k0|k0 c s|k0 s| |]; try done.
  intros [= ->]. eauto.
Qed.

(** A file is written, and a directory made, at the location the path
    denotes. *)
Lemma open_write_place cwd f path k : open_write cwd f path = inr k → k = abspath cwd path.
Proof.
  intros [H | [c H]]%open_write_inv; apply (resolve_place cwd f); by rewrite H.
Qed.

Lemma make_dir_place cwd f path k : make_dir cwd f path = inr k → k = abspath cwd path.
Proof.
  intros [slash H]%make_dir_inv. apply (resolve_place cwd f). by rewrite H.
Qed.

Lemma open_write_not_dir cwd f path k : open_write cwd f path = inr k → f !! k ≠ Some Dir.
Proof.
  unfold resolve. intros [H | [c H]]%open_write_inv; unfold resolve in H;
    destruct (String.eqb path ""); try done.
  - apply walk_nothing_lookup in H. congruence.
  - apply walk_file_lookup in H. congruence.
Qed.

(** What was written can be read back, and written again. *)
Lemma open_read_written cwd f path k content :
  open_write cwd f path = inr k →
  open_read cwd (<[k := File content]> f) path = inr content.
Proof.
  intros Hw. unfold open_read, resolve.
  pose proof (open_write_inv _ _ _ _ Hw) as Hr. unfold resolve in Hr.
  destruct (String.eqb path ""); [by destruct Hr as [?|[? ?]]|].
  destruct (walk_insert_file f k content (start cwd path) (names path))
    as (slash & -> & Hwas).
  - by destruct Hr as [-> | [c ->]].
  - intros k0 H0. rewrite H0 in Hr. by destruct Hr as [?|[? ?]].
  - destruct Hr as [Hr | [c Hr]]; rewrite Hr in Hwas;
      destruct Hwas as [Hwas | [c' Hwas]]; by simplify_eq.
Qed.

Lemma open_write_written cwd f path k content :
  open_write cwd f path = inr k →
  open_write cwd (<[k := File content]> f) path = inr k.
Proof.
  intros Hw. unfold open_write, resolve.
  pose proof (open_write_inv _ _ _ _ Hw) as Hr. unfold resolve in Hr.
  destruct (String.eqb path ""); [by destruct Hr as [?|[? ?]]|].
  destruct (walk_insert_file f k content (start cwd path) (names path))
    as (slash & -> & Hwas).
  - by destruct Hr as [-> | [c ->]].
  - intros k0 H0. rewrite H0 in Hr. by destruct Hr as [?|[? ?]].
  - destruct Hr as [Hr | [c Hr]]; rewrite Hr in Hwas;
      destruct Hwas as [Hwas | [c' Hwas]]; by simplify_eq.
Qed.

(** A file put at a location that held no directory takes no entry away
    and leaves every other file readable and writable. *)
Lemma has_entry_after_file cwd f k content path :
  f !! k ≠ Some Dir →
  has_entry cwd f path = true → has_entry cwd (<[k := File content]> f) path = true.
Proof.
  intros Hk. unfold has_entry, resolve. destruct (String.eqb path ""); [done|].
  destruct (walk f (start cwd path) (names path)) as [k'|k' c [|]|k' s| |] eqn:Hw; try done.
  - intros _. erewrite walk_insert_other; [by rewrite Hw|done|by rewrite Hw|]. right. by rewrite Hw.
  - intros _. destruct (decide (k' = k)) as [->|Hne].
    + destruct (walk_insert_file f k content (start cwd path) (names path))
        as (slash & -> & Hwas); [by rewrite Hw|by rewrite Hw|].
      rewrite Hw in Hwas. destruct Hwas as [Hwas | [c' Hwas]]; by simplify_eq.
    + erewrite walk_insert_other; [by rewrite Hw|done|by rewrite Hw|by left].
Qed.

Lemma open_read_after_file cwd f k content path c :
  f !! k ≠ Some Dir →
  open_read cwd f path = inr c → abspath cwd path ≠ k →
  open_read cwd (<[k := File content]> f) path = inr c.
Proof.
  intros Hk Hr Hne. apply open_read_inv in Hr as [k' Hr].
  assert (k' ≠ k) as Hk'.
  { intros ->. apply Hne. symmetry. apply (resolve_place cwd f). by rewrite Hr. }
  unfold open_read. rewrite (resolve_insert_other _ _ _ _ _ k'); [by rewrite Hr|done| |by left].
  by rewrite Hr.
Qed.

Lemma open_write_after_file cwd f k content path k' :
  f !! k ≠ Some Dir →
  open_write cwd f path = inr k' →
  open_write cwd (<[k := File content]> f) path = inr k'.
Proof.
  intros Hk Hw. destruct (decide (k' = k)) as [->|Hne].
  - by apply open_write_written.
  - pose proof (open_write_inv _ _ _ _ Hw) as Hr.
    unfold open_write in *. rewrite (resolve_insert_other _ _ _ _ _ k'); [done|done| |by left].
    by destruct Hr as [-> | [c ->]].
Qed.

(** ** Running the script *)

Lemma bind_run {A B} (m : M A) (f : A → M B) w :
  (m ≫= f) w =
  match m w with
  | (Return a, w') => f a w'
  | (Exit c, w') => (Exit c, w')
  | (Raise e, w') => (Raise e, w')
  end.
Proof. reflexivity. Qed.

Lemma bind_assoc_run {A B C} (m : M A) (f : A → M B) (g : B → M C) w :
  ((m ≫= f) ≫= g) w = (m ≫= λ a, f a ≫= g) w.
Proof. rewrite !bind_run. by destruct (m w) as [[a|c|e] w']. Qed.

Lemma print_run to text w : print to text w = (Return tt, emit (Print to text) w).
Proof. reflexivity. Qed.

Lemma ret_run {A} (a : A) w : (mret a : M A) w = (Return a, w).
Proof. reflexivity. Qed.

Lemma exit_run {A} code w : (exit code : M A) w = (Exit code, w).
Proof. reflexivity. Qed.

Lemma raise_run {A} e w : (raise e : M A) w = (Raise e, w).
Proof. reflexivity. Qed.

Lemma path_exists_run E path w :
  path_exists E path w = (Return (has_entry (cwd E) (fs w) path), w).
Proof. reflexivity. Qed.

Lemma path_isdir_run E path w :
  path_isdir E path w = (Return (is_dir (cwd E) (fs w) path), w).
Proof. reflexivity. Qed.

Lemma read_file_run E path content w :
  open_read (cwd E) (fs w) path = inr content → read_file E path w = (Return content, w).
Proof. intros H. unfold read_file. by rewrite H. Qed.

Lemma read_file_fails E path e w :
  open_read (cwd E) (fs w) path = inl e → read_file E path w = (Raise e, w).
Proof. intros H. unfold read_file. by rewrite H. Qed.

Lemma read_text_run E path content w :
  open_read (cwd E) (fs w) path = inr content →
  read_text E path w = (Return (universal_newlines content), w).
Proof. intros H. unfold read_text. by rewrite bind_run, (read_file_run _ _ content). Qed.

Lemma read_text_fails E path e w :
  open_read (cwd E) (fs w) path = inl e → read_text E path w = (Raise e, w).
Proof. intros H. unfold read_text. by rewrite bind_run, (read_file_fails _ _ e). Qed.

Lemma write_file_run E path content w k :
  open_write (cwd E) (fs w) path = inr k →
  write_file E path content w = (Return tt, set_fs (<[k := File content]> (fs w)) w).
Proof. intros H. unfold write_file. by rewrite H. Qed.

Lemma write_file_fails E path content w e :
  open_write (cwd E) (fs w) path = inl e → write_file E path content w = (Raise e, w).
Proof. intros H. unfold write_file. by rewrite H. Qed.

Lemma mkdir_run E path w k :
  make_dir (cwd E) (fs w) path = inr k →
  mkdir E path w = (Return tt, set_fs (<[k := Dir]> (fs w)) w).
Proof. intros H. unfold mkdir. by rewrite H. Qed.

Lemma config_item_run key v w :
  config w !! key = Some v → config_item key w = (Return v, w).
Proof. intros H. unfold config_item. by rewrite H. Qed.

Lemma saved_templates_item_run key v w d :
  saved_templates w = PyDict d → d !! key = Some v →
  saved_templates_item key w = (Return v, w).
Proof. intros Hd H. unfold saved_templates_item. by rewrite Hd, H. Qed.

Lemma not_in_saved_templates_run key w d :
  saved_templates w = PyDict d →
  not_in_saved_templates key w = (Return (bool_decide (d !! key = None)), w).
Proof. intros Hd. unfold not_in_saved_templates. by rewrite Hd. Qed.

Lemma saved_templates_setitem_run key v w d :
  saved_templates w = PyDict d →
  saved_templates_setitem key v w =
  (Return tt, set_saved_templates (PyDict (<[key := v]> d)) w).
Proof. intros Hd. unfold saved_templates_setitem. by rewrite Hd. Qed.

Lemma saved_templates_now_run w : saved_templates_now w = (Return (saved_templates w), w).
Proof. reflexivity. Qed.

Lemma requests_get_run E url session w :
  requests_get E url session w = (Return (remote E url session), emit (HttpGet url session) w).
Proof. reflexivity. Qed.

Lemma webbrowser_open_run url w :
  webbrowser_open url w = (Return tt, emit (BrowserOpen url) w).
Proof. reflexivity. Qed.

Lemma bind_cases {A B} (m : M A) (f : A → M B) w (Q : outcome B * World → Prop) :
  (∀ a w1, m w = (Return a, w1) → Q (f a w1)) →
  (∀ c w1, m w = (Exit c, w1) → Q (Exit c, w1)) →
  (∀ e w1, m w = (Raise e, w1) → Q (Raise e, w1)) →
  Q ((m ≫= f) w).
Proof.
  intros Hret Hexit Hraise. rewrite bind_run.
  destruct (m w) as [[a|c|e] w1]; auto.
Qed.

(** One step of the script: unfold a bind, also of a nested block, and
    run the primitive in front. *)
Ltac walk :=
  first
    [ rewrite bind_assoc_run
    | rewrite bind_run;
      first [ rewrite print_run | rewrite ret_run | rewrite exit_run | rewrite raise_run
            | rewrite path_exists_run | rewrite path_isdir_run
            | rewrite requests_get_run | rewrite webbrowser_open_run
            | rewrite saved_templates_now_run
            | erewrite not_in_saved_templates_run by (simpl; eassumption)
            | erewrite saved_templates_setitem_run by (simpl; eassumption)
            | erewrite read_file_run by (simpl; eassumption)
            | erewrite read_text_run by (simpl; eassumption)
            | erewrite config_item_run by (simpl; eassumption)
            | erewrite saved_templates_item_run by (simpl; eassumption)
            | erewrite write_file_run by (simpl; eassumption) ] ];
  cbv beta iota.

Lemma generate_starter_code_returns E template_file_path target_dir template_vars w content k :
  open_read (cwd E) (fs w) template_file_path = inr content →
  open_write (cwd E) (fs w) (starter_code_path template_file_path target_dir) = inr k →
  generate_starter_code E template_file_path target_dir template_vars w =
  (Return (starter_code_path template_file_path target_dir),
   mkWorld (<[k := File (substitute template_vars (universal_newlines content))]> (fs w))
           (config w) (saved_templates w)
           (trace w ++ [Print Stdout "Parsing template...";
                        Print Stdout "Generating starter code..."])).
Proof.
  intros Hread Hwrite. unfold generate_starter_code. do 4 walk.
  rewrite ret_run. unfold set_fs, emit. simpl. by rewrite <-app_assoc.
Qed.

(** C4 (output name and location).  The path computed at lines 147-150 is
    the target directory, a slash and the base name of the template path,
    without the suffix ".tpl" when the template path ends with it and
    unchanged otherwise; [foo.py.tpl] and [foo.py] both give [foo.py].
    When the template can be read and that path can be opened for
    writing, the substituted content is written to the file the path
    leads to, from where it can be read back, and the path is returned. *)
Theorem render_output_name (template_path target_dir : string) (template_vars : vars) :
  starter_code_path template_path target_dir =
    target_dir +:+ "/" +:+ derived_name_spec template_path ∧
  (endswith template_path ".tpl" = true →
     basename template_path = derived_name_spec template_path +:+ ".tpl") ∧
  (endswith template_path ".tpl" = false →
     derived_name_spec template_path = basename template_path) ∧
  derived_name_spec "foo.py.tpl" = "foo.py" ∧
  derived_name_spec "foo.py" = "foo.py" ∧
  (∀ E w content k,
     open_read (cwd E) (fs w) template_path = inr content →
     open_write (cwd E) (fs w) (target_dir +:+ "/" +:+ derived_name_spec template_path) =
       inr k →
     ∃ w', generate_starter_code E template_path target_dir template_vars w =
             (Return (target_dir +:+ "/" +:+ derived_name_spec template_path), w') ∧
           fs w' = <[k := File (substitute template_vars (universal_newlines content))]> (fs w) ∧
           open_read (cwd E) (fs w') (target_dir +:+ "/" +:+ derived_name_spec template_path) =
             inr (substitute template_vars (universal_newlines content))).
Proof.
  split; [apply starter_code_path_spec|].
  split.
  { intros Hend. unfold derived_name_spec. rewrite Hend.
    apply endswith_true in Hend as [q ->]. rewrite basename_app by done.
    rewrite str_length_app. change (String.length ".tpl") with 4.
    replace (String.length (basename q) + 4 - 4) with (String.length (basename q)) by lia.
    by rewrite str_take_app_length. }
  split; [intros Hend; unfold derived_name_spec; by rewrite Hend|].
  split; [reflexivity|]. split; [reflexivity|].
  intros E w content k Hread Hwrite. rewrite <-starter_code_path_spec in *.
  eexists. split; [by apply generate_starter_code_returns|]. split; [done|].
  simpl. by apply open_read_written.
Qed.

Lemma render_output_name_witness :
  basename "/templates/sol.py.tpl" = derived_name_spec "/templates/sol.py.tpl" +:+ ".tpl" ∧
  derived_name_spec "/templates/notes.txt" = basename "/templates/notes.txt" ∧
  ∃ w', generate_starter_code (demo_env 200) "/templates/sol.py.tpl" "/out"
          [("CHALLENGE_DAY", VInt 1)] (loaded demo_fs) =
          (Return ("/out" +:+ "/" +:+ derived_name_spec "/templates/sol.py.tpl"), w') ∧
        fs w' = <[["out"; "sol.py"] :=
                    File (substitute [("CHALLENGE_DAY", VInt 1)]
                            (universal_newlines demo_template))]>
                  (fs (loaded demo_fs)) ∧
        open_read (cwd (demo_env 200)) (fs w')
          ("/out" +:+ "/" +:+ derived_name_spec "/templates/sol.py.tpl") =
          inr (substitute [("CHALLENGE_DAY", VInt 1)] (universal_newlines demo_template)).
Proof.
  split; [|split].
  - apply (render_output_name "/templates/sol.py.tpl" "/out" []). reflexivity.
  - apply (render_output_name "/templates/notes.txt" "/out" []). reflexivity.
  - apply (render_output_name "/templates/sol.py.tpl" "/out" [("CHALLENGE_DAY", VInt 1)]);
      reflexivity.
Defined.

Lemma prefix_refl s : String.prefix s s = true.
Proof. rewrite <-(str_app_nil_r s) at 2. apply prefix_app. Qed.

Lemma overlap_self name : overlap (token name) (token name) = true.
Proof.
  unfold overlap. rewrite token_cons. simpl starts_within.
  unfold comparable at 1. by rewrite prefix_refl.
Qed.

(** C3, as amended.  Rendering raises no error whatever the placeholders
    of the template and the keys of the mapping are: it returns as soon as
    the template can be read and the output written.  A token [[[K]]] that
    cannot overlap the token of any key of the mapping (so [K] is not one
    of the keys) is left where it is, and the text before and after it is
    rendered as if it stood alone. *)
Theorem unknown_token_left_verbatim (template_vars : vars) :
  (∀ E template_path target_dir w content k,
     open_read (cwd E) (fs w) template_path = inr content →
     open_write (cwd E) (fs w) (starter_code_path template_path target_dir) = inr k →
     ∃ w', generate_starter_code E template_path target_dir template_vars w =
             (Return (starter_code_path template_path target_dir), w') ∧
           open_read (cwd E) (fs w') (starter_code_path template_path target_dir) =
             inr (substitute template_vars (universal_newlines content))) ∧
  (∀ K,
     (∀ k v, (k, v) ∈ template_vars → overlap (token k) (token K) = false) →
     (K ∉ template_vars.*1) ∧
     ∀ before after,
       substitute template_vars (before +:+ token K +:+ after) =
       substitute template_vars before +:+ token K +:+ substitute template_vars after).
Proof.
  split.
  - intros E template_path target_dir w content k Hread Hwrite. eexists. split.
    + by apply generate_starter_code_returns.
    + simpl. by apply open_read_written.
  - intros K HK. split; [|by apply substitute_around].
    intros ([k v] & -> & Hin)%list_elem_of_fmap. simpl in HK.
    specialize (HK _ _ Hin). by rewrite overlap_self in HK.
Qed.

Lemma unknown_token_left_verbatim_witness :
  (∃ w', generate_starter_code (demo_env 200) "/templates/sol.py.tpl" "/out"
           [("CHALLENGE_DAY", VInt 1)] (loaded demo_fs) =
           (Return (starter_code_path "/templates/sol.py.tpl" "/out"), w') ∧
         open_read (cwd (demo_env 200)) (fs w') (starter_code_path "/templates/sol.py.tpl" "/out") =
           inr (substitute [("CHALLENGE_DAY", VInt 1)] (universal_newlines demo_template))) ∧
  substitute [("CHALLENGE_DAY", VInt 1)] ("day [[CHALLENGE_DAY]], " +:+ token "UNUSED" +:+ "!") =
  substitute [("CHALLENGE_DAY", VInt 1)] "day [[CHALLENGE_DAY]], " +:+ token "UNUSED" +:+
  substitute [("CHALLENGE_DAY", VInt 1)] "!".
Proof.
  pose proof (unknown_token_left_verbatim [("CHALLENGE_DAY", VInt 1)]) as [Hrun Hkeep].
  split.
  - eapply Hrun; reflexivity.
  - apply Hkeep. intros k v Hin. in_concrete_list. reflexivity.
Defined.

(** C3, as stated, fails: X is not a key of the mapping, the template
    holds the token of X, and the rendered text does not. *)
Lemma unknown_token_rewritten :
  ("X" ∉ [("X]", VStr "5")].*1) ∧
  "[[X]]]" = "" +:+ token "X" +:+ "]" ∧
  substitute [("X]", VStr "5")] "[[X]]]" = "5" ∧
  contains (token "X") (substitute [("X]", VStr "5")] "[[X]]]") = false.
Proof.
  split; [|by repeat split].
  simpl. intros H. in_concrete_list.
Qed.

(** ** The registry *)

(** Where the registry path leads: into the directory [data] of the
    working directory, if that is one. *)
Lemma resolve_registry E f :
  resolve (cwd E) f SAVED_TEMPLATES_FILE_PATH =
  match f !! data_dir E with
  | Some Dir => child f (data_dir E) "templates.pkl"
  | Some (File _) => NotDir
  | None => NoEntry
  end.
Proof. reflexivity. Qed.

Lemma resolve_config E f :
  resolve (cwd E) f CONFIG_FILE_PATH =
  match f !! resources_dir E with
  | Some Dir => child f (resources_dir E) "config.toml"
  | Some (File _) => NotDir
  | None => NoEntry
  end.
Proof. reflexivity. Qed.

Lemma open_registry_missing E f :
  f !! data_dir E = None ∨ f !! data_dir E = Some Dir ∧ f !! registry_file E = None →
  open_read (cwd E) f SAVED_TEMPLATES_FILE_PATH =
    inl (FileNotFoundError SAVED_TEMPLATES_FILE_PATH).
Proof.
  unfold open_read. rewrite resolve_registry. unfold child, registry_file.
  by intros [-> | [-> ->]].
Qed.

Lemma open_registry_file E f bytes :
  f !! data_dir E = Some Dir → f !! registry_file E = Some (File bytes) →
  open_read (cwd E) f SAVED_TEMPLATES_FILE_PATH = inr bytes.
Proof.
  unfold open_read. rewrite resolve_registry. unfold child, registry_file.
  by intros -> ->.
Qed.

Lemma load_saved_templates_cases (E : Env) (w : World) :
  (open_read (cwd E) (fs w) SAVED_TEMPLATES_FILE_PATH =
     inl (FileNotFoundError SAVED_TEMPLATES_FILE_PATH) →
   load_saved_templates E w = (Return (PyDict ∅), w)) ∧
  (∀ e, open_read (cwd E) (fs w) SAVED_TEMPLATES_FILE_PATH = inl e →
     (∀ path, e ≠ FileNotFoundError path) →
     load_saved_templates E w = (Raise e, w)) ∧
  (∀ bytes e, open_read (cwd E) (fs w) SAVED_TEMPLATES_FILE_PATH = inr bytes →
     unpickle E bytes = inl e → (∀ path, e ≠ FileNotFoundError path) →
     load_saved_templates E w = (Raise e, w)) ∧
  (∀ bytes o, open_read (cwd E) (fs w) SAVED_TEMPLATES_FILE_PATH = inr bytes →
     unpickle E bytes = inr o →
     load_saved_templates E w = (Return o, w)).
Proof.
  unfold load_saved_templates, except_FileNotFoundError.
  split; [|split; [|split]].
  - intros H. by rewrite bind_run, (read_file_fails _ _ _ _ H).
  - intros e H He. rewrite bind_run, (read_file_fails _ _ _ _ H).
    destruct e; try done. by destruct (He path).
  - intros bytes e H Hp He. walk. unfold pickle_load_bytes. rewrite Hp, raise_run.
    destruct e; try done. by destruct (He path).
  - intros bytes o H Hp. walk. unfold pickle_load_bytes. by rewrite Hp.
Qed.

(** C5, as amended.  With nothing at the registry's location, the
    directory [data] being there or missing as well, the load returns the
    empty mapping.  With a file there that does not deserialize the load
    fails with the exception of [pickle] (what the spec calls
    [RegistryCorrupt]), which for an empty file is an [EOFError]; only a
    [FileNotFoundError] raised while loading is taken for a missing file.
    With a file that deserializes, the load returns what was stored. *)
Theorem registry_load (E : Env) (w : World) :
  (fs w !! data_dir E = None ∨
   fs w !! data_dir E = Some Dir ∧ fs w !! registry_file E = None →
     load_saved_templates E w = (Return (PyDict ∅), w)) ∧
  (∀ bytes e,
     fs w !! data_dir E = Some Dir → fs w !! registry_file E = Some (File bytes) →
     unpickle E bytes = inl e →
     load_saved_templates E w =
       match e with
       | FileNotFoundError _ => (Return (PyDict ∅), w)
       | _ => (Raise e, w)
       end) ∧
  unpickle E "" = inl EOFError ∧
  (∀ bytes o,
     fs w !! data_dir E = Some Dir → fs w !! registry_file E = Some (File bytes) →
     unpickle E bytes = inr o →
     load_saved_templates E w = (Return o, w)).
Proof.
  destruct (load_saved_templates_cases E w) as (Hmissing & _ & Hcorrupt & Hloads).
  split; [|split; [|split; [done|]]].
  - intros H. by apply Hmissing, open_registry_missing.
  - intros bytes e Hdir Hfile Hp.
    pose proof (open_registry_file E (fs w) bytes Hdir Hfile) as Hread.
    destruct e; try (by apply (Hcorrupt bytes)).
    unfold load_saved_templates, except_FileNotFoundError.
    walk. unfold pickle_load_bytes. by rewrite Hp.
  - intros bytes o Hdir Hfile. apply Hloads. by apply open_registry_file.
Qed.

Lemma registry_load_witness :
  load_saved_templates (demo_env 200) (started ∅) = (Return (PyDict ∅), started ∅) ∧
  load_saved_templates (demo_env 200)
    (started (<[registry_file (demo_env 200) := File "not a pickle"]> demo_fs)) =
    (Raise UnpicklingError,
     started (<[registry_file (demo_env 200) := File "not a pickle"]> demo_fs)) ∧
  load_saved_templates (demo_env 200) (started demo_fs) =
    (Return (PyDict demo_registry), started demo_fs).
Proof.
  split; [|split].
  - apply (registry_load (demo_env 200) (started ∅)). by left.
  - pose proof (registry_load (demo_env 200)
                  (started (<[registry_file (demo_env 200) := File "not a pickle"]> demo_fs)))
      as (_ & H & _).
    apply (H "not a pickle" UnpicklingError); done.
  - pose proof (registry_load (demo_env 200) (started demo_fs)) as (_ & _ & _ & H).
    apply (H "python=/templates/sol.py.tpl"); reflexivity.
Defined.

(** C5, as stated, fails both ways.  There is no registry file, but a
    regular file named [data] is in the way: the load fails, with an error
    that the handler does not catch.  And there is a registry file that
    does not deserialize, the loader raising [FileNotFoundError]: the load
    returns the empty mapping. *)
Lemma registry_load_not_a_directory :
  (has_entry (cwd (demo_env 200)) data_is_a_file SAVED_TEMPLATES_FILE_PATH = false ∧
   data_is_a_file !! registry_file (demo_env 200) = None ∧
   load_saved_templates (demo_env 200) (started data_is_a_file) =
     (Raise (NotADirectoryError SAVED_TEMPLATES_FILE_PATH), started data_is_a_file)) ∧
  (open_read (cwd (demo_env 200))
     (<[registry_file (demo_env 200) := File "stat /nowhere"]> demo_fs)
     SAVED_TEMPLATES_FILE_PATH = inr "stat /nowhere" ∧
   unpickle (demo_env 200) "stat /nowhere" = inl (FileNotFoundError "/nowhere") ∧
   load_saved_templates (demo_env 200)
     (started (<[registry_file (demo_env 200) := File "stat /nowhere"]> demo_fs)) =
     (Return (PyDict ∅),
      started (<[registry_file (demo_env 200) := File "stat /nowhere"]> demo_fs))).
Proof. by repeat split. Qed.




(** ** The download *)

(** C7 (bad response).  When the template is registered, the
    configuration has its two keys and the server answers the request with
    a status other than 200, [generate_challenge] prints the status and
    the request URL on stderr and exits with the code of
    [BAD_AOC_REQUEST], which is 2 and differs from 0 and from the other two
    codes; the file system is what it was, so no input file, not even an
    empty one, has appeared. *)
Theorem bad_response_aborts (E : Env) (args : Namespace) (w : World)
    (d : gmap string string) (tpl cookie dir : string) (status : Z) (text : string) :
  saved_templates w = PyDict d →
  d !! lower (language args) = Some tpl →
  config w !! "session_cookie" = Some cookie →
  config w !! "challenge_input_directory" = Some dir →
  remote E (request_url_of (day args) (year args)) cookie = Response status text →
  status ≠ 200%Z →
  generate_challenge E args w =
    (Exit (value BAD_AOC_REQUEST),
     mkWorld (fs w) (config w) (saved_templates w)
       (trace w ++
        [Print Stdout ("Generating " +:+ language args +:+ " starter code for " +:+
                       str_of_int (year args) +:+ " day " +:+ str_of_int (day args) +:+
                       " challenge");
         Print Stdout "Creating input file...";
         Print Stdout "Downloading challenge input...";
         HttpGet (request_url_of (day args) (year args)) cookie;
         Print Stderr ("Error " +:+ str_of_int status +:+ " while fetching " +:+
                       request_url_of (day args) (year args) +:+
                       ". Maybe your day or year is invalid, or maybe your session cookie is incorrect or has expired.")])) ∧
  exit_status (generate_challenge E args w).1 = 2%Z ∧
  value BAD_AOC_REQUEST ≠ 0%Z ∧
  value BAD_AOC_REQUEST ≠ value TEMPLATE_NOT_FOUND ∧
  value BAD_AOC_REQUEST ≠ value INVALID_TEMPLATE_PATH ∧
  fs (generate_challenge E args w).2 = fs w ∧
  has_entry (cwd E) (fs (generate_challenge E args w).2)
    (input_file_path_of dir (day args) (year args)) =
  has_entry (cwd E) (fs w) (input_file_path_of dir (day args) (year args)).
Proof.
  intros Hdict Htpl Hcookie Hdir Hresp Hstatus.
  match goal with |- ?run = ?res ∧ _ => assert (run = res) as Hrun end.
  { unfold generate_challenge. walk.
    rewrite bool_decide_eq_false_2 by (by rewrite Htpl). cbv iota.
    walk. unfold create_input_file. repeat walk.
    unfold get_challenge_input. repeat walk.
    unfold request_url_of in Hresp. rewrite Hresp.
    apply Z.eqb_neq in Hstatus. rewrite Hstatus. cbn [negb]. cbv iota.
    repeat walk. unfold emit. simpl.
    by rewrite <-!app_assoc. }
  rewrite Hrun. by repeat split.
Qed.

Lemma bad_response_aborts_witness :
  fs (generate_challenge (demo_env 404) demo_generate_args (loaded fresh_fs)).2 =
    fs (loaded fresh_fs) ∧
  exit_status (generate_challenge (demo_env 404) demo_generate_args (loaded fresh_fs)).1 = 2%Z.
Proof.
  pose proof (bad_response_aborts (demo_env 404) demo_generate_args (loaded fresh_fs)
                demo_registry "/templates/sol.py.tpl" "s3cr3t" "inputs" 404 "puzzle input"
                eq_refl eq_refl eq_refl eq_refl eq_refl ltac:(done)) as H.
  split; apply H.
Defined.

(** ** What a call leaves alone *)

Section Respects.
Variable R : World → World → Prop.
Hypothesis R_refl : ∀ w, R w w.
Hypothesis R_trans : ∀ w1 w2 w3, R w1 w2 → R w2 w3 → R w1 w3.

Lemma respects_bind {A B} (m : M A) (f : A → M B) :
  respects R m → (∀ a, respects R (f a)) → respects R (m ≫= f).
Proof.
  intros Hm Hf w. rewrite bind_run. specialize (Hm w).
  destruct (m w) as [[a|c|e] w']; simpl in *; [|done..].
  eapply R_trans; [exact Hm|apply Hf].
Qed.

Lemma respects_ret {A} (a : A) : respects R (mret a).
Proof. intros w. apply R_refl. Qed.

Lemma respects_exit {A} code : respects R (exit code : M A).
Proof. intros w. apply R_refl. Qed.

Lemma respects_raise {A} e : respects R (raise e : M A).
Proof. intros w. apply R_refl. Qed.

Lemma respects_config_item key : respects R (config_item key).
Proof. intros w. unfold config_item. destruct (config w !! key); apply R_refl. Qed.

Lemma respects_path_exists E path : respects R (path_exists E path).
Proof. intros w. apply R_refl. Qed.

Lemma respects_path_isdir E path : respects R (path_isdir E path).
Proof. intros w. apply R_refl. Qed.

Lemma respects_read_file E path : respects R (read_file E path).
Proof. intros w. unfold read_file. destruct (open_read _ _ _); apply R_refl. Qed.

Lemma respects_read_text E path : respects R (read_text E path).
Proof.
  unfold read_text. apply respects_bind; [apply respects_read_file|].
  intros content. apply respects_ret.
Qed.

Lemma respects_saved_templates_item key : respects R (saved_templates_item key).
Proof.
  intros w. unfold saved_templates_item.
  destruct (saved_templates w) as [d| | |]; try apply R_refl.
  destruct (d !! key); apply R_refl.
Qed.

Lemma respects_not_in_saved_templates key : respects R (not_in_saved_templates key).
Proof.
  intros w. unfold not_in_saved_templates.
  destruct (saved_templates w); apply R_refl.
Qed.

Lemma respects_saved_templates_now : respects R saved_templates_now.
Proof. intros w. apply R_refl. Qed.

Lemma respects_parse_ok args : respects R (parse_args (Parsed args)).
Proof. apply respects_ret. Qed.

(** What is left to show for a block is what it may print, request, open,
    write and assign. *)
Variable allowed : location → Prop.
Hypothesis R_stdout : ∀ text w, R w (emit (Print Stdout text) w).
Hypothesis R_stderr : ∀ text w, R w (emit (Print Stderr text) w).
Hypothesis R_request : ∀ url session w, R w (emit (HttpGet url session) w).
Hypothesis R_browser : ∀ url w, R w (emit (BrowserOpen url) w).
Hypothesis R_write : ∀ k n w, allowed k → R w (set_fs (<[k := n]> (fs w)) w).
Hypothesis R_setitem : ∀ o w, R w (set_saved_templates o w).

Lemma frame_print_stdout text : respects R (print Stdout text).
Proof. intros w. apply R_stdout. Qed.

Lemma frame_print_stderr text : respects R (print Stderr text).
Proof. intros w. apply R_stderr. Qed.

Lemma frame_requests_get E url session : respects R (requests_get E url session).
Proof. intros w. apply R_request. Qed.

Lemma frame_webbrowser_open url : respects R (webbrowser_open url).
Proof. intros w. apply R_browser. Qed.

Lemma frame_write_file E path content :
  allowed (abspath (cwd E) path) → respects R (write_file E path content).
Proof.
  intros Hp w. unfold write_file.
  destruct (open_write _ _ _) as [e|k] eqn:Hw; [apply R_refl|].
  apply open_write_place in Hw as ->. by apply R_write.
Qed.

Lemma frame_mkdir E path : allowed (abspath (cwd E) path) → respects R (mkdir E path).
Proof.
  intros Hp w. unfold mkdir.
  destruct (make_dir _ _ _) as [e|k] eqn:Hw; [apply R_refl|].
  apply make_dir_place in Hw as ->. by apply R_write.
Qed.

Lemma frame_saved_templates_setitem key v : respects R (saved_templates_setitem key v).
Proof.
  intros w. unfold saved_templates_setitem.
  destruct (saved_templates w); try apply R_refl. apply R_setitem.
Qed.

End Respects.

(** Goes through a block primitive by primitive; what is left are the
    paths it writes to, to be shown allowed. *)
Ltac frames ok :=
  repeat (intros;
    match goal with
    | |- respects _ (_ ≫= _) => apply respects_bind; [assumption| |]
    | |- respects _ (if ?b then _ else _) => destruct b
    | |- respects _ (match ?x with Response _ _ => _ | Unreachable => _ end) => destruct x
    | |- respects _ (generate_starter_code _ _ _ _) => unfold generate_starter_code
    | |- respects _ (create_input_file _ _ _) => unfold create_input_file
    | |- respects _ (get_challenge_input _ _ _) => unfold get_challenge_input
    | |- respects _ (mret _) => apply respects_ret; assumption
    | |- respects _ (exit _) => apply respects_exit; assumption
    | |- respects _ (raise _) => apply respects_raise; assumption
    | |- respects _ (print Stdout _) => apply frame_print_stdout; assumption
    | |- respects _ (print Stderr _) => apply frame_print_stderr; assumption
    | |- respects _ (config_item _) => apply respects_config_item; assumption
    | |- respects _ (path_exists _ _) => apply respects_path_exists; assumption
    | |- respects _ (path_isdir _ _) => apply respects_path_isdir; assumption
    | |- respects _ (read_file _ _) => apply respects_read_file; assumption
    | |- respects _ (read_text _ _) => apply respects_read_text; assumption
    | |- respects _ (requests_get _ _ _) => apply frame_requests_get; assumption
    | |- respects _ (webbrowser_open _) => apply frame_webbrowser_open; assumption
    | |- respects _ (saved_templates_item _) => apply respects_saved_templates_item; assumption
    | |- respects _ (not_in_saved_templates _) =>
        apply respects_not_in_saved_templates; assumption
    | |- respects _ saved_templates_now => apply respects_saved_templates_now; assumption
    | |- respects _ (saved_templates_setitem _ _) =>
        apply frame_saved_templates_setitem; assumption
    | |- respects _ (write_file _ _ _) =>
        apply frame_write_file with (allowed := ok); [assumption..|]
    | |- respects _ (mkdir _ _) => apply frame_mkdir with (allowed := ok); [assumption..|]
    end).

Lemma bind_respects_cases {A B} (R : World → World → Prop) (m : M A) (f : A → M B) w
    (Q : outcome B * World → Prop) :
  respects R m →
  (∀ a w1, R w w1 → Q (f a w1)) →
  (∀ c w1, R w w1 → Q (Exit c, w1)) →
  (∀ e w1, R w w1 → Q (Raise e, w1)) →
  Q ((m ≫= f) w).
Proof.
  intros Hm Hret Hexit Hraise. specialize (Hm w). rewrite bind_run.
  destruct (m w) as [[a|c|e] w1]; simpl in Hm; auto.
Qed.

Lemma only_emits_refl ok w : only_emits ok w w.
Proof. exists []. by rewrite app_nil_r. Qed.

Lemma only_emits_same_trace ok w w' : trace w' = trace w → only_emits ok w w'.
Proof. intros H. exists []. by rewrite app_nil_r. Qed.

Lemma only_emits_trans ok w1 w2 w3 :
  only_emits ok w1 w2 → only_emits ok w2 w3 → only_emits ok w1 w3.
Proof.
  intros (m1 & H1 & Hok1) (m2 & H2 & Hok2). exists (m1 ++ m2).
  split; [by rewrite H2, H1, app_assoc|]. rewrite forallb_app. by rewrite Hok1, Hok2.
Qed.

Lemma only_emits_emit (ok : event → bool) e w : ok e = true → only_emits ok w (emit e w).
Proof. intros He. exists [e]. split; [done|]. simpl. by rewrite He. Qed.

Lemma only_emits_filter (ok keep : event → bool) w w' :
  (∀ e, ok e = true → keep e = false) →
  only_emits ok w w' → List.filter keep (trace w') = List.filter keep (trace w).
Proof.
  intros Hok (more & -> & Hall). rewrite List.filter_app.
  assert (List.filter keep more = []) as ->; [|by rewrite app_nil_r].
  induction more as [|e more IH]; [done|]. simpl in Hall.
  apply andb_true_iff in Hall as [He Hall]. simpl. by rewrite (Hok e He), IH.
Qed.

Lemma fs_changed_only_at_refl places w : fs_changed_only_at places w w.
Proof. by intros p _. Qed.

Lemma fs_changed_only_at_trans places w1 w2 w3 :
  fs_changed_only_at places w1 w2 → fs_changed_only_at places w2 w3 →
  fs_changed_only_at places w1 w3.
Proof. intros H1 H2 p Hp. by rewrite H2, H1. Qed.

Lemma fs_changed_only_at_write places k n w :
  k ∈ places → fs_changed_only_at places w (set_fs (<[k := n]> (fs w)) w).
Proof. intros Hin p Hp. simpl. apply lookup_insert_ne. by intros ->. Qed.

Lemma requests_emit_request url session w :
  requests (trace (emit (HttpGet url session) w)) = requests (trace w) ++ [HttpGet url session].
Proof. unfold requests, emit. simpl. by rewrite List.filter_app. Qed.

Lemma requests_emit_print to text w :
  requests (trace (emit (Print to text) w)) = requests (trace w).
Proof. unfold requests, emit. simpl. by rewrite List.filter_app, app_nil_r. Qed.

Lemma only_emits_no_request w w' :
  only_emits (λ e, negb (is_request e)) w w' → requests (trace w') = requests (trace w).
Proof. apply only_emits_filter. intros e. apply negb_true_iff. Qed.

Lemma only_emits_no_browser w w' :
  only_emits (λ e, negb (is_browser_open e)) w w' →
  browser_opens (trace w') = browser_opens (trace w).
Proof. apply only_emits_filter. intros e. apply negb_true_iff. Qed.

(** ** Runs that do not look back *)

Lemma trace_blind_pure {A} (m : M A) :
  (∀ w, trace (m w).2 = trace w) →
  (∀ w tr, m (set_trace tr w) = ((m w).1, set_trace tr (m w).2)) →
  trace_blind m.
Proof.
  intros Hsame Hblind w. exists []. split; [by rewrite app_nil_r, Hsame|].
  intros tr. by rewrite app_nil_r.
Qed.

Lemma trace_blind_emit {A} (a : A) e : trace_blind (λ w, (Return a, emit e w)).
Proof. intros w. by exists [e]. Qed.

Lemma trace_blind_bind {A B} (m : M A) (f : A → M B) :
  trace_blind m → (∀ a, trace_blind (f a)) → trace_blind (m ≫= f).
Proof.
  intros Hm Hf w. destruct (Hm w) as (added1 & Ht1 & Hb1).
  destruct (m w) as [[a|c|e] w1] eqn:Hmw; simpl in Ht1, Hb1.
  - destruct (Hf a w1) as (added2 & Ht2 & Hb2). exists (added1 ++ added2).
    rewrite bind_run, Hmw. split; [by rewrite Ht2, Ht1, app_assoc|].
    intros tr. by rewrite bind_run, Hb1, Hb2, app_assoc.
  - exists added1. rewrite bind_run, Hmw. split; [done|].
    intros tr. by rewrite bind_run, Hb1.
  - exists added1. rewrite bind_run, Hmw. split; [done|].
    intros tr. by rewrite bind_run, Hb1.
Qed.

Lemma trace_blind_ret {A} (a : A) : trace_blind (mret a).
Proof. by apply trace_blind_pure. Qed.

Lemma trace_blind_exit {A} code : trace_blind (exit code : M A).
Proof. by apply trace_blind_pure. Qed.

Lemma trace_blind_raise {A} e : trace_blind (raise e : M A).
Proof. by apply trace_blind_pure. Qed.

Lemma trace_blind_print to text : trace_blind (print to text).
Proof. apply trace_blind_emit. Qed.

Lemma trace_blind_requests_get E url session : trace_blind (requests_get E url session).
Proof. apply trace_blind_emit. Qed.

Lemma trace_blind_webbrowser_open url : trace_blind (webbrowser_open url).
Proof. apply trace_blind_emit. Qed.

Lemma trace_blind_config_item key : trace_blind (config_item key).
Proof.
  apply trace_blind_pure; intros w; [|intros tr]; unfold config_item; simpl;
    by destruct (config w !! key).
Qed.

Lemma trace_blind_path_exists E path : trace_blind (path_exists E path).
Proof. by apply trace_blind_pure. Qed.

Lemma trace_blind_path_isdir E path : trace_blind (path_isdir E path).
Proof. by apply trace_blind_pure. Qed.

Lemma trace_blind_read_file E path : trace_blind (read_file E path).
Proof.
  apply trace_blind_pure; intros w; [|intros tr]; unfold read_file; simpl;
    by destruct (open_read _ _ _).
Qed.

Lemma trace_blind_read_text E path : trace_blind (read_text E path).
Proof.
  unfold read_text. apply trace_blind_bind; [apply trace_blind_read_file|].
  intros content. apply trace_blind_ret.
Qed.

Lemma trace_blind_write_file E path content : trace_blind (write_file E path content).
Proof.
  apply trace_blind_pure; intros w; [|intros tr]; unfold write_file; simpl;
    by destruct (open_write _ _ _).
Qed.

Lemma trace_blind_mkdir E path : trace_blind (mkdir E path).
Proof.
  apply trace_blind_pure; intros w; [|intros tr]; unfold mkdir; simpl;
    by destruct (make_dir _ _ _).
Qed.

Lemma trace_blind_saved_templates_item key : trace_blind (saved_templates_item key).
Proof.
  apply trace_blind_pure; intros w; [|intros tr]; unfold saved_templates_item; simpl;
    destruct (saved_templates w) as [d| | |]; try done; by destruct (d !! key).
Qed.

(** Like [frames], for [trace_blind]. *)
Ltac blind :=
  repeat (intros;
    match goal with
    | |- trace_blind (_ ≫= _) => apply trace_blind_bind
    | |- trace_blind (if ?b then _ else _) => destruct b
    | |- trace_blind (match ?x with Response _ _ => _ | Unreachable => _ end) => destruct x
    | |- trace_blind (generate_starter_code _ _ _ _) => unfold generate_starter_code
    | |- trace_blind (create_input_file _ _ _) => unfold create_input_file
    | |- trace_blind (get_challenge_input _ _ _) => unfold get_challenge_input
    | |- trace_blind (mret _) => apply trace_blind_ret
    | |- trace_blind (exit _) => apply trace_blind_exit
    | |- trace_blind (raise _) => apply trace_blind_raise
    | |- trace_blind (print _ _) => apply trace_blind_print
    | |- trace_blind (config_item _) => apply trace_blind_config_item
    | |- trace_blind (path_exists _ _) => apply trace_blind_path_exists
    | |- trace_blind (path_isdir _ _) => apply trace_blind_path_isdir
    | |- trace_blind (read_text _ _) => apply trace_blind_read_text
    | |- trace_blind (requests_get _ _ _) => apply trace_blind_requests_get
    | |- trace_blind (webbrowser_open _) => apply trace_blind_webbrowser_open
    | |- trace_blind (saved_templates_item _) => apply trace_blind_saved_templates_item
    | |- trace_blind (write_file _ _ _) => apply trace_blind_write_file
    | |- trace_blind (mkdir _ _) => apply trace_blind_mkdir
    end).

(** ** The input file *)

Lemma has_char_proper n :
  n ≠ "" → has_char "/" n = false → has_char "." n = false → proper_name n = true.
Proof.
  intros Hne Hslash Hdot. unfold proper_name, stays. rewrite Hslash.
  destruct n as [|c n]; [done|]. rewrite has_char_cons in Hdot.
  apply orb_false_iff in Hdot as [Hc Hdot].
  assert (String.eqb (String c n) "." = false) as ->.
  { apply String.eqb_neq. intros [= -> ->]. by rewrite Ascii.eqb_refl in Hc. }
  assert (String.eqb (String c n) ".." = false) as ->; [|done].
  apply String.eqb_neq. intros [= -> ->]. by rewrite Ascii.eqb_refl in Hc.
Qed.

(** The decimal year is the name of an entry. *)
Lemma year_proper year : proper_name (str_of_int year) = true.
Proof.
  apply has_char_proper.
  - destruct (str_of_int_nonempty year) as (d & r & ->). done.
  - by apply str_of_int_no_char.
  - by apply str_of_int_no_char.
Qed.

Lemma input_file_name_proper day : proper_name (input_file_name_of day) = true.
Proof.
  unfold proper_name, stays, input_file_name_of.
  assert (has_char "/" ("day" +:+ str_of_int day +:+ ".txt") = false) as ->
    by (by rewrite !has_char_app, str_of_int_no_char).
  by destruct (str_of_int day) as [|c [|c' r]].
Qed.

Lemma input_file_path_split dir day year :
  input_file_path_of dir day year =
  year_dir_of dir year +:+ "/" +:+ input_file_name_of day.
Proof. unfold input_file_path_of, year_dir_of, input_file_name_of. by rewrite !str_app_assoc. Qed.

Lemma year_dir_nonempty dir year : year_dir_of dir year ≠ "".
Proof. unfold year_dir_of. by destruct dir. Qed.

(** The input file is the entry of its name in the year directory. *)
Lemma resolve_input_file cwd f dir day year :
  resolve cwd f (input_file_path_of dir day year) =
  below f (resolve cwd f (year_dir_of dir year)) (input_file_name_of day).
Proof.
  rewrite input_file_path_split.
  apply resolve_child; [apply year_dir_nonempty|apply input_file_name_proper].
Qed.

(** X6 (missing configuration keys).  Without the key
    [challenge_input_directory] in [config], [create_input_file] raises
    [KeyError] for it right after its first message; with it but without
    [session_cookie], the [KeyError] is for the cookie.  Either way no
    request has been sent and no file has changed. *)
Theorem missing_config_key_raises (E : Env) (day year : Z) (w : World) :
  (config w !! "challenge_input_directory" = None →
     create_input_file E day year w =
       (Raise (KeyError "challenge_input_directory"),
        mkWorld (fs w) (config w) (saved_templates w)
          (trace w ++ [Print Stdout "Creating input file..."]))) ∧
  (∀ dir, config w !! "challenge_input_directory" = Some dir →
     config w !! "session_cookie" = None →
     create_input_file E day year w =
       (Raise (KeyError "session_cookie"),
        mkWorld (fs w) (config w) (saved_templates w)
          (trace w ++ [Print Stdout "Creating input file...";
                       Print Stdout "Downloading challenge input..."]))).
Proof.
  split.
  - intros Hdir. unfold create_input_file. walk. rewrite bind_run.
    unfold config_item. cbn [config emit]. by rewrite Hdir.
  - intros dir Hdir Hcookie. unfold create_input_file. do 2 walk.
    unfold get_challenge_input. do 2 walk. rewrite bind_run, bind_run.
    unfold config_item. cbn [config emit]. rewrite Hcookie.
    unfold emit. simpl. by rewrite <-app_assoc.
Qed.

Lemma missing_config_key_raises_witness :
  create_input_file (demo_env 200) 5 2023 (started demo_fs) =
    (Raise (KeyError "challenge_input_directory"),
     mkWorld demo_fs ∅ (PyDict ∅) [Print Stdout "Creating input file..."]) ∧
  create_input_file (demo_env 200) 5 2023
    (mkWorld demo_fs (<["challenge_input_directory" := "inputs"]> ∅) (PyDict ∅) []) =
    (Raise (KeyError "session_cookie"),
     mkWorld demo_fs (<["challenge_input_directory" := "inputs"]> ∅) (PyDict ∅)
       [Print Stdout "Creating input file..."; Print Stdout "Downloading challenge input..."]).
Proof.
  split.
  - apply (missing_config_key_raises (demo_env 200) 5 2023 (started demo_fs)). reflexivity.
  - pose proof (missing_config_key_raises (demo_env 200) 5 2023
                  (mkWorld demo_fs (<["challenge_input_directory" := "inputs"]> ∅) (PyDict ∅) []))
      as [_ H].
    apply (H "inputs"); reflexivity.
Defined.

(** Where [create_input_file] stands once the download has come back
    with status 200. *)
Lemma create_input_file_downloaded E day year w cookie dir text :
  config w !! "session_cookie" = Some cookie →
  config w !! "challenge_input_directory" = Some dir →
  remote E (request_url_of day year) cookie = Response 200 text →
  create_input_file E day year w =
  (present ← path_exists E (input_file_path_of dir day year);
   if (present : bool)
   then print Stdout (input_file_path_of dir day year +:+ " already exists, skipping")
   else
     isdir ← path_isdir E (year_dir_of dir year);
     _ ← (if (isdir : bool) then mret tt else mkdir E (year_dir_of dir year));
     write_file E (input_file_path_of dir day year) text)
    (mkWorld (fs w) (config w) (saved_templates w)
       (trace w ++ [Print Stdout "Creating input file...";
                    Print Stdout "Downloading challenge input...";
                    HttpGet (request_url_of day year) cookie])).
Proof.
  intros Hcookie Hdir Hresp. unfold create_input_file. do 2 walk.
  unfold get_challenge_input. repeat walk.
  unfold request_url_of in Hresp. rewrite Hresp. cbn [Z.eqb Pos.eqb negb]. cbv iota.
  walk. unfold emit. simpl. by rewrite <-!app_assoc.
Qed.

(** With the year directory in place and no entry of the input file's
    name in it, the input file is written there. *)
Lemma create_input_file_in_year_dir (E : Env) (day year : Z) (w : World)
    (cookie dir text : string) (ky : location) :
  config w !! "session_cookie" = Some cookie →
  config w !! "challenge_input_directory" = Some dir →
  remote E (request_url_of day year) cookie = Response 200 text →
  resolve (cwd E) (fs w) (year_dir_of dir year) = AtDir ky →
  fs w !! (ky ++ [input_file_name_of day]) = None →
  create_input_file E day year w =
    (Return tt,
     mkWorld (<[ky ++ [input_file_name_of day] := File text]> (fs w))
       (config w) (saved_templates w)
       (trace w ++ [Print Stdout "Creating input file...";
                    Print Stdout "Downloading challenge input...";
                    HttpGet (request_url_of day year) cookie])).
Proof.
  intros Hcookie Hdir Hresp Hyear Hfree.
  rewrite (create_input_file_downloaded E day year w cookie dir text) by done.
  assert (resolve (cwd E) (fs w) (input_file_path_of dir day year) =
          Nothing (ky ++ [input_file_name_of day]) false) as Hinput.
  { rewrite resolve_input_file, Hyear. unfold below, child. by rewrite Hfree. }
  walk. unfold has_entry. cbn [fs]. rewrite Hinput. cbv iota.
  walk. unfold is_dir. cbn [fs]. rewrite Hyear. cbv iota. walk.
  unfold write_file, open_write. cbn [fs]. by rewrite Hinput.
Qed.

(** Without the year directory, its parent being there, the directory is
    made first. *)
Lemma create_input_file_new_year (E : Env) (day year : Z) (w : World)
    (cookie dir text : string) (ky : location) (slash : bool) :
  config w !! "session_cookie" = Some cookie →
  config w !! "challenge_input_directory" = Some dir →
  remote E (request_url_of day year) cookie = Response 200 text →
  resolve (cwd E) (fs w) (year_dir_of dir year) = Nothing ky slash →
  fs w !! (ky ++ [input_file_name_of day]) = None →
  create_input_file E day year w =
    (Return tt,
     mkWorld (<[ky ++ [input_file_name_of day] := File text]> (<[ky := Dir]> (fs w)))
       (config w) (saved_templates w)
       (trace w ++ [Print Stdout "Creating input file...";
                    Print Stdout "Downloading challenge input...";
                    HttpGet (request_url_of day year) cookie])).
Proof.
  intros Hcookie Hdir Hresp Hyear Hfree.
  rewrite (create_input_file_downloaded E day year w cookie dir text) by done.
  walk. unfold has_entry. cbn [fs]. rewrite resolve_input_file, Hyear. cbn [below]. cbv iota.
  walk. unfold is_dir. cbn [fs]. rewrite Hyear. cbv iota.
  rewrite bind_run. unfold mkdir, make_dir. cbn [fs]. rewrite Hyear. cbv beta iota.
  unfold write_file, open_write. cbn [fs set_fs].
  assert (resolve (cwd E) (<[ky := Dir]> (fs w)) (year_dir_of dir year) = AtDir ky) as Hmade.
  { unfold resolve in *. destruct (String.eqb (year_dir_of dir year) ""); [done|].
    by eapply walk_insert_dir. }
  rewrite resolve_input_file, Hmade. unfold below, child.
  rewrite lookup_insert_ne; [by rewrite Hfree|].
  intros Heq. apply (f_equal length) in Heq. rewrite length_app in Heq. simpl in Heq. lia.
Qed.

(** X7 (first fetch).  With the configuration in place and a 200 answer:
    when the year directory is there and holds no entry of the input
    file's name, [create_input_file] writes the answer's text to
    [{inputs}/{year}/day{day}.txt]; when the year directory is missing in
    a directory that is there, it is made first.  Nothing else changes. *)
Theorem first_fetch_writes_input (E : Env) (day year : Z) (w : World)
    (cookie dir text : string) (ky : location) :
  config w !! "session_cookie" = Some cookie →
  config w !! "challenge_input_directory" = Some dir →
  remote E (request_url_of day year) cookie = Response 200 text →
  fs w !! (ky ++ [input_file_name_of day]) = None →
  (resolve (cwd E) (fs w) (year_dir_of dir year) = AtDir ky →
     create_input_file E day year w =
       (Return tt,
        mkWorld (<[ky ++ [input_file_name_of day] := File text]> (fs w))
          (config w) (saved_templates w)
          (trace w ++ [Print Stdout "Creating input file...";
                       Print Stdout "Downloading challenge input...";
                       HttpGet (request_url_of day year) cookie]))) ∧
  (∀ slash, resolve (cwd E) (fs w) (year_dir_of dir year) = Nothing ky slash →
     create_input_file E day year w =
       (Return tt,
        mkWorld (<[ky ++ [input_file_name_of day] := File text]> (<[ky := Dir]> (fs w)))
          (config w) (saved_templates w)
          (trace w ++ [Print Stdout "Creating input file...";
                       Print Stdout "Downloading challenge input...";
                       HttpGet (request_url_of day year) cookie]))).
Proof.
  intros Hcookie Hdir Hresp Hfree. split.
  - intros Hyear. eapply create_input_file_in_year_dir; eassumption.
  - intros slash Hyear. eapply create_input_file_new_year; eassumption.
Qed.

Lemma first_fetch_writes_input_witness :
  open_read demo_cwd (fs (create_input_file (demo_env 200) 5 2023 (loaded fresh_fs)).2)
    "inputs/2023/day5.txt" = inr "puzzle input" ∧
  is_dir demo_cwd (fs (create_input_file (demo_env 200) 5 2024 (loaded fresh_fs)).2)
    "inputs/2024" = true ∧
  open_read demo_cwd (fs (create_input_file (demo_env 200) 5 2024 (loaded fresh_fs)).2)
    "inputs/2024/day5.txt" = inr "puzzle input".
Proof.
  pose proof (first_fetch_writes_input (demo_env 200) 5 2023 (loaded fresh_fs)
                "s3cr3t" "inputs" "puzzle input" ["home"; "aoc"; "inputs"; "2023"]
                eq_refl eq_refl eq_refl eq_refl) as [H2023 _].
  pose proof (first_fetch_writes_input (demo_env 200) 5 2024 (loaded fresh_fs)
                "s3cr3t" "inputs" "puzzle input" ["home"; "aoc"; "inputs"; "2024"]
                eq_refl eq_refl eq_refl eq_refl) as [_ H2024].
  rewrite (H2023 eq_refl), (H2024 false eq_refl). by repeat split.
Defined.

(** X8 (year path taken by a file).  If the year directory's path leads
    to a regular file, the download is made and then [os.mkdir] raises
    [FileExistsError]: nothing is written. *)
Theorem year_path_is_a_file (E : Env) (day year : Z) (w : World)
    (cookie dir text content : string) (ky : location) :
  config w !! "session_cookie" = Some cookie →
  config w !! "challenge_input_directory" = Some dir →
  remote E (request_url_of day year) cookie = Response 200 text →
  resolve (cwd E) (fs w) (year_dir_of dir year) = AtFile ky content false →
  create_input_file E day year w =
    (Raise (FileExistsError (year_dir_of dir year)),
     mkWorld (fs w) (config w) (saved_templates w)
       (trace w ++ [Print Stdout "Creating input file...";
                    Print Stdout "Downloading challenge input...";
                    HttpGet (request_url_of day year) cookie])).
Proof.
  intros Hcookie Hdir Hresp Hfile.
  rewrite (create_input_file_downloaded E day year w cookie dir text) by done.
  walk. unfold has_entry. cbn [fs]. rewrite resolve_input_file, Hfile. cbn [below]. cbv iota.
  walk. unfold is_dir. cbn [fs]. rewrite Hfile. cbv iota.
  rewrite bind_run. unfold mkdir, make_dir. cbn [fs]. by rewrite Hfile.
Qed.

Lemma year_path_is_a_file_witness :
  create_input_file (demo_env 200) 5 2023
    (loaded (<[["home"; "aoc"; "inputs"; "2023"] := File "oops"]> fresh_fs)) =
    (Raise (FileExistsError "inputs/2023"),
     mkWorld (<[["home"; "aoc"; "inputs"; "2023"] := File "oops"]> fresh_fs)
       demo_config (PyDict demo_registry)
       [Print Stdout "Creating input file...";
        Print Stdout "Downloading challenge input...";
        HttpGet "https://www.adventofcode.com/2023/day/5/input" "s3cr3t"]).
Proof.
  etrans.
  - apply (year_path_is_a_file (demo_env 200) 5 2023
             (loaded (<[["home"; "aoc"; "inputs"; "2023"] := File "oops"]> fresh_fs))
             "s3cr3t" "inputs" "puzzle input" "oops" ["home"; "aoc"; "inputs"; "2023"]);
      reflexivity.
  - reflexivity.
Defined.

(** With the input file in place and a 200 answer, [create_input_file]
    throws the download away and leaves the file system as it is. *)
Lemma create_input_file_keeps_existing E day year w cookie dir text :
  config w !! "session_cookie" = Some cookie →
  config w !! "challenge_input_directory" = Some dir →
  has_entry (cwd E) (fs w) (input_file_path_of dir day year) = true →
  remote E (request_url_of day year) cookie = Response 200 text →
  create_input_file E day year w =
  (Return tt,
   mkWorld (fs w) (config w) (saved_templates w)
     (trace w ++
      [Print Stdout "Creating input file...";
       Print Stdout "Downloading challenge input...";
       HttpGet (request_url_of day year) cookie;
       Print Stdout (input_file_path_of dir day year +:+ " already exists, skipping")])).
Proof.
  intros Hcookie Hdir Hthere Hresp.
  rewrite (create_input_file_downloaded E day year w cookie dir text) by done.
  walk. cbn [fs]. rewrite Hthere. cbv iota.
  rewrite print_run. unfold emit. simpl. by rewrite <-!app_assoc.
Qed.

(** X23 (input already there).  With the configuration in place, the
    input file present and a 200 answer, [create_input_file] sends the
    request all the same, then prints that it skips and returns: the
    downloaded text goes nowhere and the file system, the input file with
    it, is as it was. *)
Theorem existing_input_kept (E : Env) (day year : Z) (w : World)
    (cookie dir text : string) :
  config w !! "session_cookie" = Some cookie →
  config w !! "challenge_input_directory" = Some dir →
  has_entry (cwd E) (fs w) (input_file_path_of dir day year) = true →
  remote E (request_url_of day year) cookie = Response 200 text →
  create_input_file E day year w =
    (Return tt,
     mkWorld (fs w) (config w) (saved_templates w)
       (trace w ++
        [Print Stdout "Creating input file...";
         Print Stdout "Downloading challenge input...";
         HttpGet (request_url_of day year) cookie;
         Print Stdout (input_file_path_of dir day year +:+ " already exists, skipping")])) ∧
  requests (trace (create_input_file E day year w).2) =
    requests (trace w) ++ [HttpGet (request_url_of day year) cookie] ∧
  fs (create_input_file E day year w).2 = fs w.
Proof.
  intros Hcookie Hdir Hthere Hresp.
  rewrite (create_input_file_keeps_existing E day year w cookie dir text) by done.
  repeat split. unfold requests. simpl. by rewrite List.filter_app.
Qed.

Lemma existing_input_kept_witness :
  requests (trace (create_input_file (demo_env 200) 5 2023 (loaded demo_fs)).2) =
    requests (trace (loaded demo_fs)) ++ [HttpGet (request_url_of 5 2023) "s3cr3t"] ∧
  fs (create_input_file (demo_env 200) 5 2023 (loaded demo_fs)).2 = fs (loaded demo_fs).
Proof.
  apply (existing_input_kept (demo_env 200) 5 2023 (loaded demo_fs)
           "s3cr3t" "inputs" "puzzle input"); reflexivity.
Defined.

(** ** Runs of generate *)

(** A first generate: registered language, configuration and year
    directory in place, no input file yet, a 200 answer, a readable
    template and a starter code path that can be written. *)
Lemma generate_challenge_first_run (E : Env) (args : Namespace) (w : World)
    (d : gmap string string) (tpl cookie dir text content : string) (ky k : location) :
  saved_templates w = PyDict d →
  d !! lower (language args) = Some tpl →
  config w !! "session_cookie" = Some cookie →
  config w !! "challenge_input_directory" = Some dir →
  remote E (request_url_of (day args) (year args)) cookie = Response 200 text →
  resolve (cwd E) (fs w) (year_dir_of dir (year args)) = AtDir ky →
  fs w !! (ky ++ [input_file_name_of (day args)]) = None →
  open_read (cwd E) (fs w) tpl = inr content →
  open_write (cwd E) (fs w) (starter_code_path tpl (target_dir args)) = inr k →
  generate_challenge E args w =
    (Return tt, after_first_generate args w tpl cookie text content ky k).
Proof.
  intros Hdict Htpl Hcookie Hdir Hresp Hyear Hfree Hread Hwrite.
  unfold generate_challenge. walk.
  rewrite bool_decide_eq_false_2 by (by rewrite Htpl). cbv iota.
  walk. rewrite bind_run.
  rewrite (create_input_file_in_year_dir E (day args) (year args) _ cookie dir text ky);
    try done.
  cbv beta iota. walk.
  assert (fs w !! (ky ++ [input_file_name_of (day args)]) ≠ Some Dir) as Hnodir
    by (by rewrite Hfree).
  rewrite bind_run.
  rewrite (generate_starter_code_returns E tpl (target_dir args) _ _ content k).
  - cbv beta iota. repeat walk. rewrite print_run.
    unfold after_first_generate, emit. simpl. by rewrite <-!app_assoc.
  - simpl. apply open_read_after_file; [done..|].
    apply open_read_inv in Hread as [kt Hkt].
    assert (kt = abspath (cwd E) tpl) as <- by (apply (resolve_place _ (fs w)); by rewrite Hkt).
    unfold resolve in Hkt. destruct (String.eqb tpl ""); [done|].
    apply walk_file_lookup in Hkt. intros ->. congruence.
  - simpl. by apply open_write_after_file.
Qed.

(** ** Letter case *)

Lemma lower_char_capital c :
  lower_char c = if is_capital c then ascii_of_N (N_of_ascii c + 32) else c.
Proof. reflexivity. Qed.

(** The small letter of a capital is no capital. *)
Lemma small_of_spec a b :
  small_of a b = true → is_capital b = false ∧ b = ascii_of_N (N_of_ascii a + 32).
Proof.
  unfold small_of. intros [Ha Hb%N.eqb_eq]%andb_true_iff. split.
  - unfold is_capital in *. rewrite Hb.
    destruct (N.leb_spec 65 (N_of_ascii a)), (N.leb_spec (N_of_ascii a) 90),
      (N.leb_spec 192 (N_of_ascii a)), (N.leb_spec (N_of_ascii a) 222); simpl in Ha;
      try done;
      repeat match goal with
      | |- context [(?x <=? ?y)%N] => destruct (N.leb_spec x y)
      | |- context [(?x =? ?y)%N] => destruct (N.eqb_spec x y)
      end; simpl; try done; lia.
  - by rewrite <-Hb, ascii_N_embedding.
Qed.

Lemma same_letter_lower a b : same_letter a b = true → lower_char a = lower_char b.
Proof.
  unfold same_letter. intros [[Heq|Hab]%orb_true_iff|Hba]%orb_true_iff.
  - by apply Ascii.eqb_eq in Heq as ->.
  - pose proof Hab as [Ha _]%andb_true_iff.
    apply small_of_spec in Hab as [Hb ->]. rewrite !lower_char_capital, Ha.
    by rewrite Hb.
  - pose proof Hba as [Hb _]%andb_true_iff.
    apply small_of_spec in Hba as [Ha ->]. rewrite !lower_char_capital, Hb.
    by rewrite Ha.
Qed.

(** Names that differ only in case have the same lower-cased form. *)
Lemma differs_only_in_case_lower a b :
  differs_only_in_case a b = true → lower a = lower b.
Proof.
  revert b. induction a as [|x a IH]; intros [|y b]; try done.
  cbn [differs_only_in_case lower]. intros [Hxy Hab]%andb_true_iff.
  by rewrite (same_letter_lower x y Hxy), (IH b Hab).
Qed.

Lemma no_capitals_lower s : no_capitals s = true → lower s = s.
Proof.
  induction s as [|c s IH]; [done|]. cbn [no_capitals lower].
  intros [Hc Hs]%andb_true_iff. apply negb_true_iff in Hc.
  by rewrite lower_char_capital, Hc, IH.
Qed.

Lemma lower_char_same_letter c : same_letter c (lower_char c) = true.
Proof. destruct c as [[] [] [] [] [] [] [] []]; reflexivity. Qed.

Lemma lower_char_no_capital c : is_capital (lower_char c) = false.
Proof. destruct c as [[] [] [] [] [] [] [] []]; reflexivity. Qed.

(** The lower-cased form of a name differs from it only in case and has
    no capitals. *)
Lemma lower_spec name :
  differs_only_in_case name (lower name) = true ∧ no_capitals (lower name) = true.
Proof.
  induction name as [|c s [IH1 IH2]]; [done|]. cbn [differs_only_in_case no_capitals lower].
  by rewrite lower_char_same_letter, lower_char_no_capital, IH1, IH2.
Qed.

(** ** Language names *)

Lemma add_template_accepts E args w d :
  saved_templates w = PyDict d →
  has_entry (cwd E) (fs w) (template_file args) = true →
  add_template E args w =
  (_ ← write_file E SAVED_TEMPLATES_FILE_PATH
         (pickle_dump E (PyDict (<[lower (language args) := template_file args]> d)));
   print Stdout "Template added successfully.")
    (set_saved_templates (PyDict (<[lower (language args) := template_file args]> d)) w).
Proof.
  intros Hdict H. unfold add_template. walk. rewrite H. cbn [negb]. cbv iota.
  do 2 walk. by rewrite bind_run.
Qed.

Lemma add_template_mapping E args w d :
  saved_templates w = PyDict d →
  has_entry (cwd E) (fs w) (template_file args) = true →
  saved_templates (add_template E args w).2 =
    PyDict (<[lower (language args) := template_file args]> d).
Proof.
  intros Hdict H. rewrite (add_template_accepts E args w d) by done. rewrite bind_run.
  unfold write_file. cbn [fs set_saved_templates].
  destruct (open_write _ _ _); [done|]. by rewrite print_run.
Qed.

(** What a generate for a registered language does after its first
    message does not depend on how the language was spelled. *)
Lemma generate_challenge_spelling E args spelling w d tpl :
  saved_templates w = PyDict d →
  d !! lower (language args) = Some tpl →
  lower spelling = lower (language args) →
  ∃ added,
    (generate_challenge E (with_language spelling args) w).1 = (generate_challenge E args w).1 ∧
    fs (generate_challenge E (with_language spelling args) w).2 =
      fs (generate_challenge E args w).2 ∧
    trace (generate_challenge E args w).2 =
      trace w ++ Print Stdout (generating_message args) :: added ∧
    trace (generate_challenge E (with_language spelling args) w).2 =
      trace w ++ Print Stdout (generating_message (with_language spelling args)) :: added.
Proof.
  intros Hdict Htpl Hsp.
  unfold generate_challenge, generating_message.
  cbn [with_language language day year target_dir]. rewrite Hsp.
  rewrite !bind_run, !(not_in_saved_templates_run _ _ d Hdict). cbv beta iota.
  rewrite bool_decide_eq_false_2 by (by rewrite Htpl). cbv iota.
  rewrite !bind_run, !print_run. cbv beta iota.
  match goal with |- context [(?m ≫= ?f) (emit _ w)] => set (rest := m ≫= f) end.
  assert (trace_blind rest) as Hblind by (unfold rest; blind).
  destruct (Hblind w) as (added & Htrace & Hrun). exists added.
  change (emit ?e w) with (set_trace (trace w ++ [e]) w).
  rewrite !Hrun. simpl. by rewrite <-!app_assoc.
Qed.

(** C8 (language names).  [add_template] stores the entry under the
    lower-cased language, in memory whatever happens to the file and on
    disk when the registry file can be written; the lower-cased name
    differs from the name only in the case of its letters and has no
    capitals.  A [generate_challenge] whose language differs only in case
    from a key without capitals passes the check of line 39 and, whatever
    happens next, ends as the run with the key itself as language does:
    same outcome, same file system, same events after the first message,
    which quotes the language as typed.  And when the conditions of a
    first run are met, it renders that key's template into the starter
    code file. *)
Theorem language_case_insensitive (E : Env) :
  (∀ args w d,
     saved_templates w = PyDict d →
     has_entry (cwd E) (fs w) (template_file args) = true →
     saved_templates (add_template E args w).2 =
       PyDict (<[lower (language args) := template_file args]> d)) ∧
  (∀ args w d k,
     saved_templates w = PyDict d →
     has_entry (cwd E) (fs w) (template_file args) = true →
     open_write (cwd E) (fs w) SAVED_TEMPLATES_FILE_PATH = inr k →
     (add_template E args w).1 = Return tt ∧
     fs (add_template E args w).2 =
       <[k := File (pickle_dump E
                      (PyDict (<[lower (language args) := template_file args]> d)))]> (fs w)) ∧
  (∀ name, differs_only_in_case name (lower name) = true ∧ no_capitals (lower name) = true) ∧
  (∀ args w d key tpl,
     saved_templates w = PyDict d →
     d !! key = Some tpl →
     no_capitals key = true →
     differs_only_in_case (language args) key = true →
     ∃ added,
       (generate_challenge E args w).1 = (generate_challenge E (with_language key args) w).1 ∧
       fs (generate_challenge E args w).2 =
         fs (generate_challenge E (with_language key args) w).2 ∧
       trace (generate_challenge E args w).2 =
         trace w ++ Print Stdout (generating_message args) :: added ∧
       trace (generate_challenge E (with_language key args) w).2 =
         trace w ++ Print Stdout (generating_message (with_language key args)) :: added) ∧
  (∀ args w d key tpl cookie dir text content ky k,
     saved_templates w = PyDict d →
     d !! key = Some tpl →
     no_capitals key = true →
     differs_only_in_case (language args) key = true →
     config w !! "session_cookie" = Some cookie →
     config w !! "challenge_input_directory" = Some dir →
     remote E (request_url_of (day args) (year args)) cookie = Response 200 text →
     resolve (cwd E) (fs w) (year_dir_of dir (year args)) = AtDir ky →
     fs w !! (ky ++ [input_file_name_of (day args)]) = None →
     open_read (cwd E) (fs w) tpl = inr content →
     open_write (cwd E) (fs w) (starter_code_path tpl (target_dir args)) = inr k →
     generate_challenge E args w =
       (Return tt, after_first_generate args w tpl cookie text content ky k) ∧
     fs (generate_challenge E args w).2 !! k =
       Some (File (substitute (orchestrator_vars (day args) (year args))
                     (universal_newlines content)))).
Proof.
  split; [apply add_template_mapping|]. split.
  { intros args w d k Hdict Hthere Hwrite.
    rewrite (add_template_accepts E args w d) by done.
    walk. by rewrite print_run. }
  split; [apply lower_spec|]. split.
  - intros args w d key tpl Hdict Hkey Hnocap Hcase.
    assert (lower (language args) = key) as Hlow.
    { rewrite (differs_only_in_case_lower _ _ Hcase). by apply no_capitals_lower. }
    destruct (generate_challenge_spelling E args key w d tpl) as (added & H1 & H2 & H3 & H4);
      [done|by rewrite Hlow|by rewrite Hlow, no_capitals_lower|].
    by exists added.
  - intros args w d key tpl cookie dir text content ky k Hdict Hkey Hnocap Hcase
      Hcookie Hdir Hresp Hyear Hfree Hread Hwrite.
    assert (lower (language args) = key) as Hlow.
    { rewrite (differs_only_in_case_lower _ _ Hcase). by apply no_capitals_lower. }
    rewrite (generate_challenge_first_run E args w d tpl cookie dir text content ky k);
      try done; [|by rewrite Hlow].
    split; [done|]. simpl. apply lookup_insert_eq.
Qed.

Lemma language_case_insensitive_witness :
  saved_templates (add_template (demo_env 200) demo_add_args (started demo_fs)).2 =
    PyDict (<["python" := "/templates/sol.py.tpl"]> ∅) ∧
  (differs_only_in_case "PyThOn" (lower "PyThOn") = true ∧ lower "PyThOn" = "python") ∧
  generate_challenge (demo_env 200) (mkNamespace 1 "PYTHON" "/out" 2023 "") (loaded fresh_fs) =
    (Return tt,
     after_first_generate (mkNamespace 1 "PYTHON" "/out" 2023 "") (loaded fresh_fs)
       "/templates/sol.py.tpl" "s3cr3t" "puzzle input" demo_template
       ["home"; "aoc"; "inputs"; "2023"] ["out"; "sol.py"]) ∧
  fs (generate_challenge (demo_env 200) (mkNamespace 1 "PYTHON" "/out" 2023 "")
        (loaded fresh_fs)).2 !! ["out"; "sol.py"] =
    Some (File "# day 1 of 2023, [[UNUSED]]").
Proof.
  pose proof (language_case_insensitive (demo_env 200)) as (Hadd & _ & Hlower & _ & Hgen).
  split; [|split; [|]].
  - apply (Hadd demo_add_args (started demo_fs) ∅); reflexivity.
  - split; [apply Hlower|reflexivity].
  - destruct (Hgen (mkNamespace 1 "PYTHON" "/out" 2023 "") (loaded fresh_fs) demo_registry
                "python" "/templates/sol.py.tpl" "s3cr3t" "inputs" "puzzle input" demo_template
                ["home"; "aoc"; "inputs"; "2023"] ["out"; "sol.py"]) as [Hrun Hfile];
      try reflexivity.
    split; [exact Hrun|]. etrans; [exact Hfile|reflexivity].
Defined.

(** ** The download comes first *)

(** With the configuration in place, [create_input_file] always sends the
    request, whether or not the input file is already there. *)
Lemma create_input_file_always_requests E day year w cookie dir :
  config w !! "session_cookie" = Some cookie →
  config w !! "challenge_input_directory" = Some dir →
  HttpGet (request_url_of day year) cookie ∈ trace (create_input_file E day year w).2.
Proof.
  intros Hcookie Hdir. unfold create_input_file. do 2 walk.
  unfold get_challenge_input. repeat walk.
  match goal with |- context [emit (HttpGet ?u ?c) ?w0] =>
    set (w1 := emit (HttpGet u c) w0) end.
  assert (HttpGet (request_url_of day year) cookie ∈ trace w1) as Hin.
  { unfold w1, emit. simpl. apply elem_of_app. right. by apply list_elem_of_singleton. }
  match goal with |- _ ∈ trace (?m w1).2 =>
    assert (respects trace_extended m) as Hm;
      [|destruct (Hm w1) as [more ->]; apply elem_of_app; by left] end.
  assert (∀ w, trace_extended w w) as Hrefl.
  { intros w0. exists []. by rewrite app_nil_r. }
  assert (∀ w1 w2 w3, trace_extended w1 w2 → trace_extended w2 w3 → trace_extended w1 w3)
    as Htrans.
  { intros w2 w3 w4 [m1 H1] [m2 H2]. exists (m1 ++ m2). by rewrite H2, H1, app_assoc. }
  assert (∀ text w, trace_extended w (emit (Print Stdout text) w)) as Hout
    by (intros; by eexists).
  assert (∀ text w, trace_extended w (emit (Print Stderr text) w)) as Herr
    by (intros; by eexists).
  assert (∀ k n w, True → trace_extended w (set_fs (<[k := n]> (fs w)) w)) as Hwrite.
  { intros. exists []. by rewrite app_nil_r. }
  frames (λ _ : location, True); done.
Qed.

(** C1 (fetch skip): the script does not do this.  On a machine where
    the input of day 5 of 2023 is already in its place, [generate_challenge]
    still sends the request for it; the file keeps its content.  If the
    server answers 404 the run even ends with the code of
    [BAD_AOC_REQUEST], although the input is there. *)
Theorem fetch_not_skipped_for_existing_input :
  open_read demo_cwd (fs (loaded demo_fs)) (input_file_path_of "inputs" 5 2023) =
    inr "cached input" ∧
  (generate_challenge (demo_env 200) demo_generate_args (loaded demo_fs)).1 = Return tt ∧
  requests (trace (generate_challenge (demo_env 200) demo_generate_args (loaded demo_fs)).2) =
    [HttpGet "https://www.adventofcode.com/2023/day/5/input" "s3cr3t"] ∧
  open_read demo_cwd (fs (generate_challenge (demo_env 200) demo_generate_args (loaded demo_fs)).2)
    (input_file_path_of "inputs" 5 2023) = inr "cached input" ∧
  (generate_challenge (demo_env 404) demo_generate_args (loaded demo_fs)).1 =
    Exit (value BAD_AOC_REQUEST).
Proof. repeat split; vm_compute; reflexivity. Qed.

(** ** The dispatch *)

Lemma load_config_run E w bytes c :
  open_read (cwd E) (fs w) CONFIG_FILE_PATH = inr bytes → toml_load E bytes = inr c →
  load_config E w = (Return c, w).
Proof. intros Hread Hparse. unfold load_config. walk. by rewrite Hparse. Qed.




(** * Further properties of the script *)

(** ** Runs of generate *)

(** X5 (unknown language).  When the lower-cased language is not a key of
    the registry, [generate_challenge] writes one line to stderr that
    quotes the language as typed and exits with the code of
    [TEMPLATE_NOT_FOUND]; it has sent no request and changed no file. *)
Theorem unknown_language_exits (E : Env) (args : Namespace) (w : World)
    (d : gmap string string) :
  saved_templates w = PyDict d →
  d !! lower (language args) = None →
  generate_challenge E args w =
    (Exit (value TEMPLATE_NOT_FOUND),
     emit (Print Stderr ("Error: The language " +:+ language args +:+
                         " does not have a valid template. Add one with 'bootstrapper add'")) w) ∧
  value TEMPLATE_NOT_FOUND = 1%Z ∧
  requests (trace (generate_challenge E args w).2) = requests (trace w) ∧
  fs (generate_challenge E args w).2 = fs w.
Proof.
  intros Hdict Hnone.
  match goal with |- ?run = ?res ∧ _ => assert (run = res) as Hrun end.
  { unfold generate_challenge. walk. rewrite bool_decide_eq_true_2 by done.
    cbv iota. by walk. }
  rewrite Hrun. repeat split. unfold requests, emit. simpl.
  by rewrite List.filter_app, app_nil_r.
Qed.

Lemma unknown_language_exits_witness :
  (generate_challenge (demo_env 200) (mkNamespace 5 "Rust" "/out" 2023 "") (loaded fresh_fs)).1 =
    Exit 1%Z ∧
  fs (generate_challenge (demo_env 200) (mkNamespace 5 "Rust" "/out" 2023 "") (loaded fresh_fs)).2 =
    fresh_fs.
Proof.
  pose proof (unknown_language_exits (demo_env 200) (mkNamespace 5 "Rust" "/out" 2023 "")
                (loaded fresh_fs) demo_registry eq_refl eq_refl) as (Hrun & _ & _ & Hfs).
  split; [by rewrite Hrun|exact Hfs].
Defined.

(** X9 (one request, no retry).  When the language is registered and the
    configuration has its two keys, a [generate_challenge] sends exactly
    one request, to the input URL of the day with the session cookie,
    whatever the server answers and whatever is on disk. *)
Theorem generate_sends_exactly_one_request (E : Env) (args : Namespace) (w : World)
    (d : gmap string string) (tpl cookie dir : string) :
  saved_templates w = PyDict d →
  d !! lower (language args) = Some tpl →
  config w !! "session_cookie" = Some cookie →
  config w !! "challenge_input_directory" = Some dir →
  requests (trace (generate_challenge E args w).2) =
    requests (trace w) ++ [HttpGet (request_url_of (day args) (year args)) cookie].
Proof.
  intros Hdict Htpl Hcookie Hdir. unfold generate_challenge. walk.
  rewrite bool_decide_eq_false_2 by (by rewrite Htpl). cbv iota.
  walk. unfold create_input_file. do 3 walk.
  unfold get_challenge_input. repeat walk.
  match goal with |- requests (trace (?m ?w1).2) = _ =>
    assert (respects (only_emits (λ e, negb (is_request e))) m) as Hm;
      [|rewrite (only_emits_no_request _ _ (Hm w1))]
  end.
  - pose proof (only_emits_refl (λ e, negb (is_request e))) as Hrefl.
    pose proof (only_emits_trans (λ e, negb (is_request e))) as Htrans.
    assert (∀ text w, only_emits (λ e, negb (is_request e)) w (emit (Print Stdout text) w))
      as Hout by (intros; by apply only_emits_emit).
    assert (∀ text w, only_emits (λ e, negb (is_request e)) w (emit (Print Stderr text) w))
      as Herr by (intros; by apply only_emits_emit).
    assert (∀ url w, only_emits (λ e, negb (is_request e)) w (emit (BrowserOpen url) w))
      as Hbrowser by (intros; by apply only_emits_emit).
    assert (∀ k n w, True →
              only_emits (λ e, negb (is_request e)) w (set_fs (<[k := n]> (fs w)) w))
      as Hwrite by (intros; by apply only_emits_same_trace).
    frames (λ _ : location, True); done.
  - by rewrite requests_emit_request, !requests_emit_print.
Qed.

Lemma generate_sends_exactly_one_request_witness :
  requests (trace (generate_challenge (demo_env 500) demo_generate_args (loaded demo_fs)).2) =
    requests (trace (loaded demo_fs)) ++
    [HttpGet (request_url_of (day demo_generate_args) (year demo_generate_args)) "s3cr3t"].
Proof.
  apply (generate_sends_exactly_one_request (demo_env 500) demo_generate_args (loaded demo_fs)
           demo_registry "/templates/sol.py.tpl" "s3cr3t" "inputs"); reflexivity.
Defined.

(** X10 (the browser).  [generate_challenge] opens the challenge page
    exactly when it returns, and then once: a run that exits or raises
    has opened nothing. *)
Theorem browser_opened_only_on_success (E : Env) (args : Namespace) (w : World) :
  browser_opens (trace (generate_challenge E args w).2) =
    browser_opens (trace w) ++
    match (generate_challenge E args w).1 with
    | Return _ => [BrowserOpen (challenge_page_of (day args) (year args))]
    | _ => []
    end.
Proof.
  set (NB := only_emits (λ e, negb (is_browser_open e))).
  assert (∀ w, NB w w) as Hrefl by apply only_emits_refl.
  assert (∀ w1 w2 w3, NB w1 w2 → NB w2 w3 → NB w1 w3) as Htrans by apply only_emits_trans.
  assert (∀ text w, NB w (emit (Print Stdout text) w)) as Hout
    by (intros; by apply only_emits_emit).
  assert (∀ text w, NB w (emit (Print Stderr text) w)) as Herr
    by (intros; by apply only_emits_emit).
  assert (∀ url session w, NB w (emit (HttpGet url session) w)) as Hget
    by (intros; by apply only_emits_emit).
  assert (∀ k n w, True → NB w (set_fs (<[k := n]> (fs w)) w)) as Hwrite
    by (intros; by apply only_emits_same_trace).
  unfold generate_challenge.
  apply (bind_respects_cases NB); [by frames (λ _ : location, True)| |intros..].
  2,3: simpl; rewrite app_nil_r; by apply only_emits_no_browser.
  intros [|] w0 H0.
  { rewrite bind_run, print_run, exit_run. cbv beta iota. simpl fst. simpl snd.
    rewrite app_nil_r. apply only_emits_no_browser. unfold NB in *.
    eapply only_emits_trans; [done|]. by apply only_emits_emit. }
  apply (bind_respects_cases NB); [by frames (λ _ : location, True)| |intros..].
  2,3: simpl; rewrite app_nil_r; apply only_emits_no_browser; fold NB; by eauto 12.
  intros _ w1 H1.
  apply (bind_respects_cases NB); [by frames (λ _ : location, True)| |intros..].
  2,3: simpl; rewrite app_nil_r; apply only_emits_no_browser; fold NB; by eauto 12.
  intros _ w2 H2.
  apply (bind_respects_cases NB); [by frames (λ _ : location, True)| |intros..].
  2,3: simpl; rewrite app_nil_r; apply only_emits_no_browser; fold NB; by eauto 12.
  intros template_file_path w3 H3.
  apply (bind_respects_cases NB); [by frames (λ _ : location, True)| |intros..].
  2,3: simpl; rewrite app_nil_r; apply only_emits_no_browser; fold NB; by eauto 12.
  intros starter_code_file_path w4 H4.
  repeat walk. rewrite print_run. simpl fst. simpl snd.
  assert (NB w w4) as H by eauto 12.
  unfold browser_opens, emit. simpl. rewrite !List.filter_app. simpl.
  rewrite !app_nil_r. f_equal. by apply only_emits_no_browser.
Qed.

(** X11 (what generate can touch).  With the language registered and the
    inputs directory configured, a [generate_challenge] changes no entry
    of the file system other than those at the locations of the year
    directory, of the input file and of the starter code file, however it
    ends; the registry mapping and the configuration in memory are as
    before. *)
Theorem generate_touches_three_paths (E : Env) (args : Namespace) (w : World)
    (d : gmap string string) (tpl dir : string) :
  saved_templates w = PyDict d →
  d !! lower (language args) = Some tpl →
  config w !! "challenge_input_directory" = Some dir →
  fs_changed_only_at
    [abspath (cwd E) (year_dir_of dir (year args));
     abspath (cwd E) (input_file_path_of dir (day args) (year args));
     abspath (cwd E) (starter_code_path tpl (target_dir args))]
    w (generate_challenge E args w).2 ∧
  saved_templates (generate_challenge E args w).2 = saved_templates w ∧
  config (generate_challenge E args w).2 = config w.
Proof.
  intros Hdict Htpl Hdir.
  set (places := [abspath (cwd E) (year_dir_of dir (year args));
                  abspath (cwd E) (input_file_path_of dir (day args) (year args));
                  abspath (cwd E) (starter_code_path tpl (target_dir args))]).
  set (R := λ w w', fs_changed_only_at places w w' ∧
                    saved_templates w' = saved_templates w ∧ config w' = config w).
  change (R w (generate_challenge E args w).2).
  assert (∀ w, R w w) as Hrefl by (intros; split; [apply fs_changed_only_at_refl|done]).
  assert (∀ w1 w2 w3, R w1 w2 → R w2 w3 → R w1 w3) as Htrans.
  { intros w1 w2 w3 (F1 & S1 & C1) (F2 & S2 & C2). split; [|split; congruence].
    by eapply fs_changed_only_at_trans. }
  assert (∀ e w, R w (emit e w)) as Hemit by (intros; split; [by intros p _|done]).
  assert (∀ text w, R w (emit (Print Stdout text) w)) as Hout by (intros; apply Hemit).
  assert (∀ text w, R w (emit (Print Stderr text) w)) as Herr by (intros; apply Hemit).
  assert (∀ url session w, R w (emit (HttpGet url session) w)) as Hget
    by (intros; apply Hemit).
  assert (∀ url w, R w (emit (BrowserOpen url) w)) as Hbrowser by (intros; apply Hemit).
  assert (∀ k n w, k ∈ places → R w (set_fs (<[k := n]> (fs w)) w)) as Hwrite.
  { intros k n w0 Hin. split; [by apply fs_changed_only_at_write|done]. }
  unfold generate_challenge. walk.
  rewrite bool_decide_eq_false_2 by (by rewrite Htpl). cbv iota.
  walk. unfold create_input_file. repeat walk.
  rewrite <-bind_assoc_run.
  match goal with |- R w (_ ?w0).2 => assert (R w w0) as H0 by eauto 8 end.
  apply (bind_respects_cases R).
  { frames (λ k, k ∈ places).
    - unfold places. apply list_elem_of_here.
    - unfold places. apply list_elem_of_further, list_elem_of_here. }
  2,3: intros; simpl; by eauto.
  intros _ w1 H1.
  assert (R w w1) as Hw1 by eauto. destruct (Hw1) as (_ & Hsame & _).
  rewrite bind_run, (saved_templates_item_run _ tpl _ d) by (by rewrite ?Hsame).
  cbv beta iota.
  match goal with |- R w (?m w1).2 =>
    assert (respects R m) as Hm; [|by eapply Htrans; [exact Hw1|apply Hm]] end.
  frames (λ k, k ∈ places).
  unfold places. do 2 apply list_elem_of_further. apply list_elem_of_here.
Qed.

Lemma generate_touches_three_paths_witness :
  fs_changed_only_at
    [["home"; "aoc"; "inputs"; "2023"]; ["home"; "aoc"; "inputs"; "2023"; "day5.txt"];
     ["out"; "sol.py"]]
    (loaded fresh_fs) (generate_challenge (demo_env 200) demo_generate_args (loaded fresh_fs)).2.
Proof.
  apply (generate_touches_three_paths (demo_env 200) demo_generate_args (loaded fresh_fs)
           demo_registry "/templates/sol.py.tpl" "inputs"); reflexivity.
Defined.

(** X13 (no connection).  When the request cannot reach the server, the
    exception of [requests.get] leaves [generate_challenge] uncaught: the
    process status is 1, nothing is written and no page is opened. *)
Theorem connection_failure_propagates (E : Env) (args : Namespace) (w : World)
    (d : gmap string string) (tpl cookie dir : string) :
  saved_templates w = PyDict d →
  d !! lower (language args) = Some tpl →
  config w !! "session_cookie" = Some cookie →
  config w !! "challenge_input_directory" = Some dir →
  remote E (request_url_of (day args) (year args)) cookie = Unreachable →
  generate_challenge E args w =
    (Raise (RequestsConnectionError (request_url_of (day args) (year args))),
     mkWorld (fs w) (config w) (saved_templates w)
       (trace w ++
        [Print Stdout ("Generating " +:+ language args +:+ " starter code for " +:+
                       str_of_int (year args) +:+ " day " +:+ str_of_int (day args) +:+
                       " challenge");
         Print Stdout "Creating input file...";
         Print Stdout "Downloading challenge input...";
         HttpGet (request_url_of (day args) (year args)) cookie])) ∧
  exit_status (generate_challenge E args w).1 = 1%Z.
Proof.
  intros Hdict Htpl Hcookie Hdir Hresp.
  match goal with |- ?run = ?res ∧ _ => assert (run = res) as Hrun end.
  { unfold generate_challenge. walk.
    rewrite bool_decide_eq_false_2 by (by rewrite Htpl). cbv iota.
    walk. unfold create_input_file. repeat walk.
    unfold get_challenge_input. repeat walk.
    unfold request_url_of in Hresp. rewrite Hresp. walk.
    unfold emit. simpl. by rewrite <-!app_assoc. }
  by rewrite Hrun.
Qed.

Lemma connection_failure_propagates_witness :
  exit_status (generate_challenge offline_env demo_generate_args (loaded fresh_fs)).1 = 1%Z.
Proof.
  apply (connection_failure_propagates offline_env demo_generate_args (loaded fresh_fs)
           demo_registry "/templates/sol.py.tpl" "s3cr3t" "inputs"); reflexivity.
Defined.

(** X14 (a first generate).  With the language registered, the
    configuration in place, the year directory there without an entry of
    the input file's name, a 200 answer, a readable template and a starter
    code path that can be written, [generate_challenge] returns after
    writing the answer to the input file and the rendered template to the
    starter code file, opening the challenge page and printing, in this
    order. *)
Theorem first_generate_succeeds (E : Env) (args : Namespace) (w : World)
    (d : gmap string string) (tpl cookie dir text content : string) (ky k : location) :
  saved_templates w = PyDict d →
  d !! lower (language args) = Some tpl →
  config w !! "session_cookie" = Some cookie →
  config w !! "challenge_input_directory" = Some dir →
  remote E (request_url_of (day args) (year args)) cookie = Response 200 text →
  resolve (cwd E) (fs w) (year_dir_of dir (year args)) = AtDir ky →
  fs w !! (ky ++ [input_file_name_of (day args)]) = None →
  open_read (cwd E) (fs w) tpl = inr content →
  open_write (cwd E) (fs w) (starter_code_path tpl (target_dir args)) = inr k →
  generate_challenge E args w =
    (Return tt,
     mkWorld
       (<[k := File (substitute (orchestrator_vars (day args) (year args))
                       (universal_newlines content))]>
          (<[ky ++ [input_file_name_of (day args)] := File text]> (fs w)))
       (config w) (saved_templates w)
       (trace w ++
        [Print Stdout ("Generating " +:+ language args +:+ " starter code for " +:+
                       str_of_int (year args) +:+ " day " +:+ str_of_int (day args) +:+
                       " challenge");
         Print Stdout "Creating input file...";
         Print Stdout "Downloading challenge input...";
         HttpGet (request_url_of (day args) (year args)) cookie;
         Print Stdout "Parsing template...";
         Print Stdout "Generating starter code...";
         Print Stdout "Done!";
         BrowserOpen (challenge_page_of (day args) (year args));
         Print Stdout ("Your starter code file is located at " +:+
                       starter_code_path tpl (target_dir args) +:+
                       ". The challenge page has been opened in your browser. Good luck!")])).
Proof.
  intros. by rewrite (generate_challenge_first_run E args w d tpl cookie dir text content ky k).
Qed.

Lemma first_generate_succeeds_witness :
  (generate_challenge (demo_env 200) demo_generate_args (loaded fresh_fs)).1 = Return tt ∧
  open_read demo_cwd (fs (generate_challenge (demo_env 200) demo_generate_args (loaded fresh_fs)).2)
    "/out/sol.py" = inr "# day 5 of 2023, [[UNUSED]]".
Proof.
  rewrite (first_generate_succeeds (demo_env 200) demo_generate_args (loaded fresh_fs)
             demo_registry "/templates/sol.py.tpl" "s3cr3t" "inputs" "puzzle input"
             demo_template ["home"; "aoc"; "inputs"; "2023"] ["out"; "sol.py"]);
    try reflexivity.
  by split.
Defined.

(** ** What add can touch *)

(** X12 (what add can touch).  However [add_template] ends, the only
    file it can have changed is the registry file, everything it has
    printed went to stdout (nothing to stderr, no request, no browser),
    and the configuration is as before. *)
Theorem add_touches_only_the_registry (E : Env) (args : Namespace) (w : World) :
  fs_changed_only_at [registry_file E] w (add_template E args w).2 ∧
  only_emits is_stdout_print w (add_template E args w).2 ∧
  requests (trace (add_template E args w).2) = requests (trace w) ∧
  error_messages (trace (add_template E args w).2) = error_messages (trace w) ∧
  config (add_template E args w).2 = config w.
Proof.
  set (R := λ w w', fs_changed_only_at [registry_file E] w w' ∧
                    only_emits is_stdout_print w w' ∧ config w' = config w).
  assert (R w (add_template E args w).2) as (Hfs & Hout & Hcfg).
  { assert (∀ w, R w w) as Hrefl.
    { intros. split; [apply fs_changed_only_at_refl|]. split; [apply only_emits_refl|done]. }
    assert (∀ w1 w2 w3, R w1 w2 → R w2 w3 → R w1 w3) as Htrans.
    { intros w1 w2 w3 (F1 & O1 & C1) (F2 & O2 & C2).
      split; [by eapply fs_changed_only_at_trans|].
      split; [by eapply only_emits_trans|congruence]. }
    assert (∀ text w, R w (emit (Print Stdout text) w)) as Hprint.
    { intros. split; [by intros p _|]. split; [by apply only_emits_emit|done]. }
    assert (∀ k n w, k ∈ [registry_file E] →
              R w (set_fs (<[k := n]> (fs w)) w)) as Hwrite.
    { intros k n w0 Hin. split; [by apply fs_changed_only_at_write|].
      split; [by apply only_emits_same_trace|done]. }
    assert (∀ o w, R w (set_saved_templates o w)) as Hset.
    { intros. split; [by intros p _|]. split; [by apply only_emits_same_trace|done]. }
    assert (respects R (add_template E args)) as Hm; [|apply Hm].
    unfold add_template. frames (λ k, k ∈ [registry_file E]).
    apply list_elem_of_here. }
  repeat split; try done.
  - apply (only_emits_filter is_stdout_print is_request); [|done]. by intros [[]| | |].
  - apply (only_emits_filter is_stdout_print is_error_message); [|done]. by intros [[]| | |].
Qed.

(** ** The starter code file *)

Lemma open_read_errors cwd f path e :
  open_read cwd f path = inl e →
  e = FileNotFoundError path ∨ e = IsADirectoryError path ∨ e = NotADirectoryError path.
Proof.
  unfold open_read. destruct (resolve cwd f path) as [k|k c [|]|k s| |];
    intros [= <-]; auto.
Qed.

Lemma open_write_errors cwd f path e :
  open_write cwd f path = inl e →
  e = FileNotFoundError path ∨ e = IsADirectoryError path ∨ e = NotADirectoryError path.
Proof.
  unfold open_write. destruct (resolve cwd f path) as [k|k c [|]|k [|]| |];
    intros [= <-]; auto.
Qed.

(** X15 (all or nothing).  [generate_starter_code] either returns, and
    then the template could be read, the returned path is the starter
    code path and the only change is the file it leads to now holding the
    rendered content; or it raises, and then the exception is the one
    [open] raised for the template or, the template having been read, for
    the starter code path, and the file system is as it was.  It never
    exits. *)
Theorem generate_starter_code_all_or_nothing (E : Env)
    (template_file_path target_dir : string) (template_vars : vars) (w : World) :
  match (generate_starter_code E template_file_path target_dir template_vars w).1 with
  | Return path =>
      path = starter_code_path template_file_path target_dir ∧
      ∃ content k,
        open_read (cwd E) (fs w) template_file_path = inr content ∧
        open_write (cwd E) (fs w) path = inr k ∧
        fs (generate_starter_code E template_file_path target_dir template_vars w).2 =
          <[k := File (substitute template_vars (universal_newlines content))]> (fs w)
  | Exit _ => False
  | Raise e =>
      fs (generate_starter_code E template_file_path target_dir template_vars w).2 = fs w ∧
      (open_read (cwd E) (fs w) template_file_path = inl e ∨
       (∃ content, open_read (cwd E) (fs w) template_file_path = inr content) ∧
       open_write (cwd E) (fs w) (starter_code_path template_file_path target_dir) = inl e)
  end.
Proof.
  destruct (open_read (cwd E) (fs w) template_file_path) as [e|content] eqn:Hread.
  - unfold generate_starter_code. rewrite bind_run, (read_text_fails _ _ e) by done.
    simpl. split; [done|]. by left.
  - destruct (open_write (cwd E) (fs w) (starter_code_path template_file_path target_dir))
      as [e|k] eqn:Hwrite.
    + unfold generate_starter_code. repeat walk.
      rewrite bind_run, (write_file_fails _ _ _ _ e) by done.
      simpl. split; [done|]. right; eauto.
    + rewrite (generate_starter_code_returns _ _ _ _ _ content k) by done.
      simpl. split; [done|]. by exists content, k.
Qed.

(** X16 (always regenerate).  Whatever file already sits at the starter
    code path, rendering ends with the same file system as if it had not
    been there: the path is overwritten without a look at it.  (The
    template itself must not be that file.) *)
Theorem starter_code_overwritten (E : Env) (template_file_path target_dir : string)
    (template_vars : vars) (w : World) (content old : string) (k : location) :
  open_read (cwd E) (fs w) template_file_path = inr content →
  open_write (cwd E) (fs w) (starter_code_path template_file_path target_dir) = inr k →
  abspath (cwd E) template_file_path ≠ k →
  fs (generate_starter_code E template_file_path target_dir template_vars
        (set_fs (<[k := File old]> (fs w)) w)).2 =
  fs (generate_starter_code E template_file_path target_dir template_vars w).2.
Proof.
  intros Hread Hwrite Hne.
  rewrite (generate_starter_code_returns _ _ _ _ w content k) by done.
  rewrite (generate_starter_code_returns _ _ _ _ _ content k).
  - simpl. apply insert_insert_eq.
  - simpl. apply open_read_after_file; [|done..]. by eapply open_write_not_dir.
  - simpl. by apply open_write_written.
Qed.

Lemma starter_code_overwritten_witness :
  fs (generate_starter_code (demo_env 200) "/templates/sol.py.tpl" "/out"
        (orchestrator_vars 5 2023)
        (set_fs (<[["out"; "sol.py"] := File "my solution"]> (fs (loaded demo_fs)))
           (loaded demo_fs))).2 =
  fs (generate_starter_code (demo_env 200) "/templates/sol.py.tpl" "/out"
        (orchestrator_vars 5 2023) (loaded demo_fs)).2.
Proof.
  apply (starter_code_overwritten (demo_env 200) "/templates/sol.py.tpl" "/out"
           (orchestrator_vars 5 2023) (loaded demo_fs) demo_template);
    [reflexivity|reflexivity|done].
Defined.

(** X26 (a template in its own target directory).  A readable template
    whose name does not end in ".tpl", rendered into the directory it
    lies in, is its own starter code path: the template file is
    overwritten with its rendering. *)
Theorem template_overwrites_itself (E : Env) (target_dir name : string)
    (template_vars : vars) (w : World) (content : string) :
  has_char "/" name = false →
  endswith (target_dir +:+ "/" +:+ name) ".tpl" = false →
  open_read (cwd E) (fs w) (target_dir +:+ "/" +:+ name) = inr content →
  (generate_starter_code E (target_dir +:+ "/" +:+ name) target_dir template_vars w).1 =
    Return (target_dir +:+ "/" +:+ name) ∧
  open_read (cwd E)
    (fs (generate_starter_code E (target_dir +:+ "/" +:+ name) target_dir template_vars w).2)
    (target_dir +:+ "/" +:+ name) =
    inr (substitute template_vars (universal_newlines content)).
Proof.
  intros Hname Hend Hread.
  assert (starter_code_path (target_dir +:+ "/" +:+ name) target_dir =
          target_dir +:+ "/" +:+ name) as Hpath.
  { unfold starter_code_path. by rewrite Hend, basename_join. }
  pose proof Hread as [k Hk]%open_read_inv.
  assert (open_write (cwd E) (fs w) (target_dir +:+ "/" +:+ name) = inr k) as Hwrite
    by (unfold open_write; by rewrite Hk).
  rewrite (generate_starter_code_returns _ _ _ _ _ content k); [|done|by rewrite Hpath].
  rewrite Hpath. split; [done|]. simpl. by apply open_read_written.
Qed.

Lemma template_overwrites_itself_witness :
  open_read demo_cwd
    (fs (generate_starter_code (demo_env 200) ("/templates" +:+ "/" +:+ "sol.py.tpl.bak")
           "/templates" (orchestrator_vars 5 2023)
           (loaded (<[["templates"; "sol.py.tpl.bak"] := File "day [[CHALLENGE_DAY]]"]> demo_fs))).2)
    ("/templates" +:+ "/" +:+ "sol.py.tpl.bak") =
  inr (substitute (orchestrator_vars 5 2023) (universal_newlines "day [[CHALLENGE_DAY]]")).
Proof.
  apply (template_overwrites_itself (demo_env 200) "/templates" "sol.py.tpl.bak"
           (orchestrator_vars 5 2023)
           (loaded (<[["templates"; "sol.py.tpl.bak"] := File "day [[CHALLENGE_DAY]]"]> demo_fs))
           "day [[CHALLENGE_DAY]]"); reflexivity.
Defined.

(** ** The registry across calls *)

Lemma add_template_fs E args w :
  fs (add_template E args w).2 = fs w ∨
  ∃ k bytes, open_write (cwd E) (fs w) SAVED_TEMPLATES_FILE_PATH = inr k ∧
             fs (add_template E args w).2 = <[k := File bytes]> (fs w).
Proof.
  unfold add_template. walk.
  destruct (has_entry (cwd E) (fs w) (template_file args)); cbn [negb]; cbv iota.
  - rewrite bind_run. unfold saved_templates_setitem.
    destruct (saved_templates w) as [d| | |]; try (by left).
    cbv beta iota. walk. rewrite bind_run. unfold write_file. cbn [fs set_saved_templates].
    destruct (open_write _ _ _) as [e|k] eqn:Hw; [by left|].
    cbv beta iota. rewrite print_run. right. by exists k, (pickle_dump E (PyDict
      (<[lower (language args) := template_file args]> d))).
  - walk. by left.
Qed.

Lemma add_template_keeps_entries E args w path :
  has_entry (cwd E) (fs w) path = true →
  has_entry (cwd E) (fs (add_template E args w).2) path = true.
Proof.
  intros H. destruct (add_template_fs E args w) as [-> | (k & bytes & Hw & ->)]; [done|].
  apply has_entry_after_file; [|done]. by eapply open_write_not_dir.
Qed.

(** X17 (add, then a new process).  After an [add_template] that found
    the template and could write the registry file, a load of the registry
    (as the next process does at start) returns the mapping with the new
    entry, provided the serializer reads back what it wrote for that
    mapping, in which the lower-cased language maps to the template
    path. *)
Theorem add_then_load (E : Env) (args : Namespace) (w : World)
    (d : gmap string string) (k : location) :
  saved_templates w = PyDict d →
  has_entry (cwd E) (fs w) (template_file args) = true →
  open_write (cwd E) (fs w) SAVED_TEMPLATES_FILE_PATH = inr k →
  unpickle E (pickle_dump E (PyDict (<[lower (language args) := template_file args]> d))) =
    inr (PyDict (<[lower (language args) := template_file args]> d)) →
  (add_template E args w).1 = Return tt ∧
  (load_saved_templates E (add_template E args w).2).1 =
    Return (PyDict (<[lower (language args) := template_file args]> d)) ∧
  <[lower (language args) := template_file args]> d !! lower (language args) =
    Some (template_file args).
Proof.
  intros Hdict Hthere Hwrite Hpickle.
  assert (add_template E args w =
    (Return tt,
     emit (Print Stdout "Template added successfully.")
       (set_fs (<[k := File (pickle_dump E (PyDict (<[lower (language args) :=
                                                        template_file args]> d)))]> (fs w))
          (set_saved_templates
             (PyDict (<[lower (language args) := template_file args]> d)) w))))
    as Hrun.
  { rewrite (add_template_accepts E args w d) by done. walk. by rewrite print_run. }
  rewrite Hrun. split; [done|]. split; [|apply lookup_insert_eq].
  match goal with |- (load_saved_templates E ?w').1 = _ =>
    destruct (load_saved_templates_cases E w') as (_ & _ & _ & Hloads) end.
  erewrite Hloads; [done| |exact Hpickle]. simpl. by apply open_read_written.
Qed.

Lemma add_then_load_witness :
  (load_saved_templates (demo_env 200)
     (add_template (demo_env 200) demo_add_args (started demo_fs)).2).1 =
  Return (PyDict (<[lower (language demo_add_args) := template_file demo_add_args]> ∅)).
Proof.
  apply (add_then_load (demo_env 200) demo_add_args (started demo_fs) ∅
           (registry_file (demo_env 200))); reflexivity.
Defined.

(** X18 (last write wins).  Two [add_template] calls in a row for
    languages that differ only in case leave one entry for it, holding the
    template of the second call; every other entry of the mapping is what
    it was.  In particular adding the same pair twice is adding it once. *)
Theorem add_twice_last_wins (E : Env) (first second : Namespace) (w : World)
    (d : gmap string string) :
  saved_templates w = PyDict d →
  has_entry (cwd E) (fs w) (template_file first) = true →
  has_entry (cwd E) (fs w) (template_file second) = true →
  lower (language first) = lower (language second) →
  saved_templates (add_template E second (add_template E first w).2).2 =
    PyDict (<[lower (language second) := template_file second]> d) ∧
  (∀ key, key ≠ lower (language second) →
     (saved_templates_item key (add_template E second (add_template E first w).2).2).1 =
       (saved_templates_item key w).1).
Proof.
  intros Hdict H1 H2 Hcase.
  assert (saved_templates (add_template E second (add_template E first w).2).2 =
          PyDict (<[lower (language second) := template_file second]> d)) as Hmap.
  { rewrite (add_template_mapping E second _
               (<[lower (language first) := template_file first]> d)).
    - rewrite Hcase. by rewrite insert_insert_eq.
    - by apply add_template_mapping.
    - by apply add_template_keeps_entries. }
  split; [done|]. intros key Hkey. unfold saved_templates_item.
  rewrite Hmap, Hdict. rewrite lookup_insert_ne by done. by destruct (d !! key).
Qed.

Lemma add_twice_last_wins_witness :
  saved_templates
    (add_template (demo_env 200) (mkNamespace 0 "PYTHON" "" 0 "/templates")
       (add_template (demo_env 200) demo_add_args (started demo_fs)).2).2 =
    PyDict (<[lower "PYTHON" := "/templates"]> ∅).
Proof.
  apply (add_twice_last_wins (demo_env 200) demo_add_args
           (mkNamespace 0 "PYTHON" "" 0 "/templates") (started demo_fs));
    reflexivity.
Defined.

(** X19 (registry file cannot be written).  When the template is there
    but the registry file cannot be opened for writing (no [data]
    directory, say), [add_template] raises what [open] raised; by then the
    entry is already in the mapping in memory, while the file system is
    unchanged and the success message is not printed. *)
Theorem add_unwritable_registry (E : Env) (args : Namespace) (w : World)
    (d : gmap string string) (e : exn) :
  saved_templates w = PyDict d →
  has_entry (cwd E) (fs w) (template_file args) = true →
  open_write (cwd E) (fs w) SAVED_TEMPLATES_FILE_PATH = inl e →
  (add_template E args w).1 = Raise e ∧
  (e = FileNotFoundError SAVED_TEMPLATES_FILE_PATH ∨
   e = IsADirectoryError SAVED_TEMPLATES_FILE_PATH ∨
   e = NotADirectoryError SAVED_TEMPLATES_FILE_PATH) ∧
  fs (add_template E args w).2 = fs w ∧
  trace (add_template E args w).2 = trace w ∧
  saved_templates (add_template E args w).2 =
    PyDict (<[lower (language args) := template_file args]> d).
Proof.
  intros Hdict Hthere Hwrite. rewrite (add_template_accepts E args w d) by done.
  rewrite bind_run, (write_file_fails _ _ _ _ e) by done.
  split; [done|]. split; [|done]. by eapply open_write_errors.
Qed.

Lemma add_unwritable_registry_witness :
  (add_template (demo_env 200) demo_add_args
     (started (delete (data_dir (demo_env 200)) demo_fs))).1 =
    Raise (FileNotFoundError SAVED_TEMPLATES_FILE_PATH) ∧
  fs (add_template (demo_env 200) demo_add_args
        (started (delete (data_dir (demo_env 200)) demo_fs))).2 =
    fs (started (delete (data_dir (demo_env 200)) demo_fs)) ∧
  saved_templates (add_template (demo_env 200) demo_add_args
                     (started (delete (data_dir (demo_env 200)) demo_fs))).2 =
    PyDict (<[lower (language demo_add_args) := template_file demo_add_args]> ∅).
Proof.
  pose proof (add_unwritable_registry (demo_env 200) demo_add_args
                (started (delete (data_dir (demo_env 200)) demo_fs)) ∅
                (FileNotFoundError SAVED_TEMPLATES_FILE_PATH) eq_refl eq_refl eq_refl)
    as (Hrun & _ & Hfs & _ & Hmap).
  by repeat split.
Defined.

(** ** Starting up and dispatching *)

(** X20 (no usable configuration).  Whatever the arguments, also for
    [add], which reads nothing from it: when the configuration file cannot
    be opened the run ends with status 1 and the report of what [open]
    raised, a [FileNotFoundError] when nothing is at its location; with a
    file that does not parse it ends with that of the decode error; and
    nothing else has happened. *)
Theorem unusable_config_stops_every_run (E : Env) (argv : list string) (w : World) :
  (fs w !! resources_dir E = None ∨
   fs w !! resources_dir E = Some Dir ∧ fs w !! config_file E = None →
     run E argv w = (1%Z, emit (Traceback (FileNotFoundError CONFIG_FILE_PATH)) w)) ∧
  (∀ e, open_read (cwd E) (fs w) CONFIG_FILE_PATH = inl e →
     run E argv w = (1%Z, emit (Traceback e) w)) ∧
  (∀ bytes e, open_read (cwd E) (fs w) CONFIG_FILE_PATH = inr bytes →
     toml_load E bytes = inl e →
     run E argv w = (1%Z, emit (Traceback e) w)).
Proof.
  assert (∀ e, open_read (cwd E) (fs w) CONFIG_FILE_PATH = inl e →
               run E argv w = (1%Z, emit (Traceback e) w)) as Hfail.
  { intros e He. unfold run, main, load_config.
    by rewrite !bind_run, (read_file_fails _ _ e). }
  split; [|split; [done|]].
  - intros H. apply Hfail. unfold open_read. rewrite resolve_config.
    unfold child, config_file in *. by destruct H as [-> | [-> ->]].
  - intros bytes e Hfile Hparse. unfold run, main, load_config. rewrite bind_run. walk.
    by rewrite Hparse.
Qed.

Lemma unusable_config_stops_every_run_witness :
  run (demo_env 200) ["bootstrapper.py"; "add"; "Python"; "/templates/sol.py.tpl"]
    (started (delete (config_file (demo_env 200)) demo_fs)) =
    (1%Z, emit (Traceback (FileNotFoundError CONFIG_FILE_PATH))
            (started (delete (config_file (demo_env 200)) demo_fs))) ∧
  run (demo_env 200) ["bootstrapper.py"; "add"; "Python"; "/templates/sol.py.tpl"]
    (started (<[config_file (demo_env 200) := File "= ="]> demo_fs)) =
    (1%Z, emit (Traceback TOMLDecodeError)
            (started (<[config_file (demo_env 200) := File "= ="]> demo_fs))).
Proof.
  split.
  - pose proof (unusable_config_stops_every_run (demo_env 200)
                  ["bootstrapper.py"; "add"; "Python"; "/templates/sol.py.tpl"]
                  (started (delete (config_file (demo_env 200)) demo_fs)))
      as (H & _ & _).
    apply H. right. by split.
  - pose proof (unusable_config_stops_every_run (demo_env 200)
                  ["bootstrapper.py"; "add"; "Python"; "/templates/sol.py.tpl"]
                  (started (<[config_file (demo_env 200) := File "= ="]> demo_fs)))
      as (_ & _ & H).
    apply (H "= ="); reflexivity.
Defined.

Lemma main_configured E argv w bytes cfg :
  open_read (cwd E) (fs w) CONFIG_FILE_PATH = inr bytes → toml_load E bytes = inr cfg →
  main E argv w =
  (prog_mode ← argv_item argv 1;
   o ← load_saved_templates E;
   _ ← bind_saved_templates o;
   if String.eqb prog_mode "generate"
   then
     args ← parse_args (parse_generate_args E (year_now E) (drop 2 argv));
     generate_challenge E args
   else if String.eqb prog_mode "add"
   then
     args ← parse_args (parse_add_args E (drop 2 argv));
     add_template E args
   else mret tt) (set_config cfg w).
Proof.
  intros Hfile Hparse. unfold main.
  rewrite bind_run, (load_config_run E w bytes cfg) by done. cbv beta iota.
  by rewrite bind_run.
Qed.

(** X21 (no mode, or a registry that does not load).  With a
    configuration that loads: a command line without a first argument ends
    with status 1 and the report of an [IndexError], the registry file not
    having been read; and with a first argument, whichever it is, a
    registry file that does not deserialize, or one that cannot be opened
    for another reason than its absence, ends the run with status 1 before
    any argument is parsed.  In all cases nothing was written. *)
Theorem startup_failures (E : Env) (argv : list string) (w : World)
    (bytes : string) (cfg : gmap string string) :
  open_read (cwd E) (fs w) CONFIG_FILE_PATH = inr bytes →
  toml_load E bytes = inr cfg →
  (argv !! 1%nat = None →
     run E argv w = (1%Z, emit (Traceback IndexError) (set_config cfg w))) ∧
  (∀ prog_mode pickled e,
     argv !! 1%nat = Some prog_mode →
     open_read (cwd E) (fs w) SAVED_TEMPLATES_FILE_PATH = inr pickled →
     unpickle E pickled = inl e → (∀ path, e ≠ FileNotFoundError path) →
     run E argv w = (1%Z, emit (Traceback e) (set_config cfg w))) ∧
  (∀ prog_mode e,
     argv !! 1%nat = Some prog_mode →
     open_read (cwd E) (fs w) SAVED_TEMPLATES_FILE_PATH = inl e →
     (∀ path, e ≠ FileNotFoundError path) →
     run E argv w = (1%Z, emit (Traceback e) (set_config cfg w))).
Proof.
  intros Hfile Hparse. split; [|split].
  - intros Hargv. unfold run. rewrite (main_configured E argv w bytes cfg) by done.
    rewrite bind_run. unfold argv_item. by rewrite Hargv.
  - intros prog_mode pickled e Hargv Hreg Hload He. unfold run.
    rewrite (main_configured E argv w bytes cfg) by done.
    rewrite bind_run. unfold argv_item. rewrite Hargv, ret_run. cbv beta iota.
    rewrite bind_run.
    destruct (load_saved_templates_cases E (set_config cfg w)) as (_ & _ & Hcorrupt & _).
    by rewrite (Hcorrupt pickled e Hreg Hload He).
  - intros prog_mode e Hargv Hreg He. unfold run.
    rewrite (main_configured E argv w bytes cfg) by done.
    rewrite bind_run. unfold argv_item. rewrite Hargv, ret_run. cbv beta iota.
    rewrite bind_run.
    destruct (load_saved_templates_cases E (set_config cfg w)) as (_ & Hblocked & _).
    by rewrite (Hblocked e Hreg He).
Qed.

Lemma startup_failures_witness :
  run (demo_env 200) ["bootstrapper.py"] (started demo_fs) =
    (1%Z, emit (Traceback IndexError) (set_config demo_config (started demo_fs))) ∧
  run (demo_env 200) ["bootstrapper.py"; "add"; "Python"; "/templates/sol.py.tpl"]
    (started (<[registry_file (demo_env 200) := File ""]> demo_fs)) =
    (1%Z, emit (Traceback EOFError)
            (set_config demo_config
               (started (<[registry_file (demo_env 200) := File ""]> demo_fs)))).
Proof.
  split.
  - apply (startup_failures (demo_env 200) ["bootstrapper.py"] (started demo_fs)
             "session_cookie = ..." demo_config); reflexivity.
  - pose proof (startup_failures (demo_env 200)
                  ["bootstrapper.py"; "add"; "Python"; "/templates/sol.py.tpl"]
                  (started (<[registry_file (demo_env 200) := File ""]> demo_fs))
                  "session_cookie = ..." demo_config eq_refl eq_refl) as (_ & H & _).
    apply (H "add" ""); done.
Defined.

(** X22 (dispatch).  With a configuration and a registry that load
    ([registry] being the empty mapping when there is no registry file),
    [main] for the mode "generate" is [generate_challenge], and for the
    mode "add" is [add_template], on the arguments the parser made of
    [argv[2:]] and in the world where [config] and [saved_templates] are
    bound to what was loaded; when the parser rejects the command line,
    its message is printed and its code is the exit status, and neither
    operation has run. *)
Theorem main_dispatches (E : Env) (argv : list string) (w : World)
    (bytes : string) (cfg : gmap string string) (registry : pyobj) :
  open_read (cwd E) (fs w) CONFIG_FILE_PATH = inr bytes →
  toml_load E bytes = inr cfg →
  load_saved_templates E (set_config cfg w) = (Return registry, set_config cfg w) →
  (∀ args, argv !! 1%nat = Some "generate" →
     parse_generate_args E (year_now E) (drop 2 argv) = Parsed args →
     main E argv w = generate_challenge E args (mkWorld (fs w) cfg registry (trace w))) ∧
  (∀ args, argv !! 1%nat = Some "add" →
     parse_add_args E (drop 2 argv) = Parsed args →
     main E argv w = add_template E args (mkWorld (fs w) cfg registry (trace w))) ∧
  (∀ to text code, argv !! 1%nat = Some "generate" →
     parse_generate_args E (year_now E) (drop 2 argv) = Usage to text code →
     run E argv w = (code, mkWorld (fs w) cfg registry (trace w ++ [Print to text]))) ∧
  (∀ to text code, argv !! 1%nat = Some "add" →
     parse_add_args E (drop 2 argv) = Usage to text code →
     run E argv w = (code, mkWorld (fs w) cfg registry (trace w ++ [Print to text]))).
Proof.
  intros Hfile Hparse Hload.
  assert (∀ prog_mode, argv !! 1%nat = Some prog_mode →
    main E argv w =
    (if String.eqb prog_mode "generate"
     then
       args ← parse_args (parse_generate_args E (year_now E) (drop 2 argv));
       generate_challenge E args
     else if String.eqb prog_mode "add"
     then
       args ← parse_args (parse_add_args E (drop 2 argv));
       add_template E args
     else mret tt) (mkWorld (fs w) cfg registry (trace w))) as Hmain.
  { intros prog_mode Hargv. rewrite (main_configured E argv w bytes cfg) by done.
    rewrite bind_run. unfold argv_item. rewrite Hargv, ret_run. cbv beta iota.
    rewrite bind_run, Hload. cbv beta iota. by rewrite bind_run. }
  repeat split.
  - intros args Hargv Hp. rewrite (Hmain _ Hargv). cbn [String.eqb Ascii.eqb Bool.eqb].
    cbv iota. rewrite Hp. unfold parse_args. by rewrite bind_run, ret_run.
  - intros args Hargv Hp. rewrite (Hmain _ Hargv). cbn [String.eqb Ascii.eqb Bool.eqb].
    cbv iota. rewrite Hp. unfold parse_args. by rewrite bind_run, ret_run.
  - intros to text code Hargv Hp. unfold run. rewrite (Hmain _ Hargv).
    cbn [String.eqb Ascii.eqb Bool.eqb]. cbv iota. rewrite Hp. unfold parse_args.
    by repeat walk.
  - intros to text code Hargv Hp. unfold run. rewrite (Hmain _ Hargv).
    cbn [String.eqb Ascii.eqb Bool.eqb]. cbv iota. rewrite Hp. unfold parse_args.
    by repeat walk.
Qed.

Lemma main_dispatches_witness :
  main (demo_env 200) ["bootstrapper.py"; "generate"; "5"; "Python"; "/out"]
    (started fresh_fs) =
    generate_challenge (demo_env 200) (mkNamespace 5 "Python" "/out" 2023 "")
      (mkWorld fresh_fs demo_config (PyDict demo_registry) []) ∧
  run strict_env ["bootstrapper.py"; "add"] (started fresh_fs) =
    (2%Z, mkWorld fresh_fs demo_config (PyDict demo_registry)
            [Print Stderr "usage: AOC Bootstrapper [-h] language template_file"]).
Proof.
  split.
  - apply (main_dispatches (demo_env 200) ["bootstrapper.py"; "generate"; "5"; "Python"; "/out"]
             (started fresh_fs) "session_cookie = ..." demo_config (PyDict demo_registry));
      reflexivity.
  - pose proof (main_dispatches strict_env ["bootstrapper.py"; "add"] (started fresh_fs)
                  "session_cookie = ..." demo_config (PyDict demo_registry)
                  eq_refl eq_refl eq_refl) as (_ & _ & _ & H).
    apply (H Stderr "usage: AOC Bootstrapper [-h] language template_file" 2%Z); reflexivity.
Defined.

(** ** A registry that is no mapping *)

(** X27 (a registry file that holds no dictionary).  When the object
    loaded from the registry file is a list, tuple, set, string or a value
    without items, [add_template] raises [TypeError] at the assignment of
    line 184, after the existence check and before any file is touched.
    [generate_challenge] raises [TypeError] at the check of line 39 for a
    value without items; for a list, tuple or set that holds the
    lower-cased language the check passes, the input file step runs, and
    the look-up of line 48 raises [TypeError] in the world that step
    left. *)
Theorem registry_not_a_mapping (E : Env) (args : Namespace) (w : World) :
  (∀ d, saved_templates w ≠ PyDict d) →
  (has_entry (cwd E) (fs w) (template_file args) = true →
     add_template E args w = (Raise TypeError, w)) ∧
  (saved_templates w = PyAtom → generate_challenge E args w = (Raise TypeError, w)) ∧
  (∀ items w1,
     saved_templates w = PySeq items →
     lower (language args) ∈ items →
     create_input_file E (day args) (year args)
       (emit (Print Stdout (generating_message args)) w) = (Return tt, w1) →
     generate_challenge E args w = (Raise TypeError, w1)).
Proof.
  intros Hnodict. split; [|split].
  - intros Hthere. unfold add_template. walk. rewrite Hthere. cbn [negb]. cbv iota.
    rewrite bind_run. unfold saved_templates_setitem.
    destruct (saved_templates w) as [d| | |]; try done. by destruct (Hnodict d).
  - intros Hatom. unfold generate_challenge. rewrite bind_run.
    unfold not_in_saved_templates. by rewrite Hatom.
  - intros items w1 Hseq Hin Hinput. unfold generate_challenge. rewrite bind_run.
    unfold not_in_saved_templates. rewrite Hseq. cbv beta iota.
    rewrite bool_decide_eq_false_2 by (by intros Hnot). cbv iota.
    walk. unfold generating_message in Hinput. rewrite bind_run, Hinput. cbv beta iota.
    rewrite bind_run. unfold saved_templates_item.
    assert (saved_templates w1 = PySeq items) as ->; [|done].
    rewrite <-Hseq.
    assert (respects same_saved_templates (create_input_file E (day args) (year args))) as Hm.
    { unfold same_saved_templates.
      assert (∀ w : World, saved_templates w = saved_templates w) as Hrefl by done.
      assert (∀ w1 w2 w3 : World, saved_templates w2 = saved_templates w1 →
                saved_templates w3 = saved_templates w2 →
                saved_templates w3 = saved_templates w1) as Htrans by congruence.
      assert (∀ text w, saved_templates (emit (Print Stdout text) w) = saved_templates w)
        as Hout by done.
      assert (∀ text w, saved_templates (emit (Print Stderr text) w) = saved_templates w)
        as Herr by done.
      assert (∀ url session w, saved_templates (emit (HttpGet url session) w) = saved_templates w)
        as Hget by done.
      assert (∀ k n w, True → saved_templates (set_fs (<[k := n]> (fs w)) w) = saved_templates w)
        as Hwrite by done.
      frames (λ _ : location, True); done. }
    specialize (Hm (emit (Print Stdout ("Generating " +:+ language args +:+
      " starter code for " +:+ str_of_int (year args) +:+ " day " +:+
      str_of_int (day args) +:+ " challenge")) w)).
    unfold same_saved_templates in Hm. by rewrite Hinput in Hm.
Qed.

Lemma registry_not_a_mapping_witness :
  add_template (demo_env 200) demo_add_args
    (mkWorld demo_fs demo_config (PySeq ["python"]) []) =
    (Raise TypeError, mkWorld demo_fs demo_config (PySeq ["python"]) []) ∧
  (generate_challenge (demo_env 200) demo_generate_args
     (mkWorld fresh_fs demo_config (PySeq ["python"]) [])).1 = Raise TypeError ∧
  open_read demo_cwd
    (fs (generate_challenge (demo_env 200) demo_generate_args
           (mkWorld fresh_fs demo_config (PySeq ["python"]) [])).2)
    "inputs/2023/day5.txt" = inr "puzzle input".
Proof.
  pose proof (registry_not_a_mapping (demo_env 200) demo_add_args
                (mkWorld demo_fs demo_config (PySeq ["python"]) []) ltac:(done)) as (Hadd & _).
  pose proof (registry_not_a_mapping (demo_env 200) demo_generate_args
                (mkWorld fresh_fs demo_config (PySeq ["python"]) []) ltac:(done))
    as (_ & _ & Hgen).
  split; [by apply Hadd|].
  specialize (Hgen ["python"]
    (create_input_file (demo_env 200) (day demo_generate_args) (year demo_generate_args)
       (emit (Print Stdout (generating_message demo_generate_args))
          (mkWorld fresh_fs demo_config (PySeq ["python"]) []))).2
    eq_refl (list_elem_of_here _ _)).
  rewrite Hgen; [split; vm_compute; reflexivity|vm_compute; reflexivity].
Defined.

(** ** Spellings of the target directory *)

Lemma walk_skip f cur before after :
  after ≠ [] → walk f cur (before ++ "" :: after) = walk f cur (before ++ after).
Proof.
  intros Hafter. revert cur. induction before as [|n before IH]; intros cur; [done|].
  simpl app. cbn [walk]. destruct (stays n); [apply IH|].
  destruct (String.eqb n ".."); [apply IH|].
  assert (only_slashes (before ++ "" :: after) = only_slashes (before ++ after)) as ->.
  { unfold only_slashes. by rewrite !forallb_app. }
  assert (no_more (before ++ "" :: after) = no_more (before ++ after)) as ->.
  { destruct before; [|done]. by destruct after. }
  destruct (f !! (cur ++ [n])) as [[c|]|]; [done|apply IH|done].
Qed.

Lemma names_trailing_slash path : names (path +:+ "/") = names path ++ [""].
Proof. by rewrite <-(str_app_nil_r (path +:+ "/")), str_app_assoc, names_app_sep. Qed.

(** A path below a directory written with a trailing slash leads where
    the path below the directory written without it leads. *)
Lemma resolve_trailing_slash cwd f dir rest :
  resolve cwd f ((dir +:+ "/") +:+ "/" +:+ rest) = resolve cwd f (dir +:+ "/" +:+ rest).
Proof.
  unfold resolve.
  assert (∀ x y, String.eqb (x +:+ "/" +:+ y) "" = false) as Hne.
  { intros x y. apply String.eqb_neq. by destruct x. }
  rewrite !Hne.
  assert (start cwd ((dir +:+ "/") +:+ "/" +:+ rest) = start cwd (dir +:+ "/" +:+ rest)) as ->.
  { destruct dir as [|c dir]; [|by rewrite str_app_assoc, !start_app].
    change ("" +:+ "/") with "/". change ("" +:+ "/" +:+ rest) with ("/" +:+ rest).
    by rewrite !start_app. }
  rewrite !names_app_sep, names_trailing_slash, <-app_assoc.
  apply walk_skip, names_nonempty.
Qed.

(** X28 (a trailing slash on the target directory).  A target directory
    given with a trailing slash leads the starter code to the same file
    as without it: the starter code path has one slash more, the file
    system after the call is the same, and the call ends the same way
    (the path it returns or reports apart). *)
Theorem target_dir_trailing_slash (E : Env) (template_file_path target_dir : string)
    (template_vars : vars) (w : World) :
  starter_code_path template_file_path (target_dir +:+ "/") =
    (target_dir +:+ "/") +:+ "/" +:+ derived_name_spec template_file_path ∧
  resolve (cwd E) (fs w) (starter_code_path template_file_path (target_dir +:+ "/")) =
    resolve (cwd E) (fs w) (starter_code_path template_file_path target_dir) ∧
  fs (generate_starter_code E template_file_path (target_dir +:+ "/") template_vars w).2 =
    fs (generate_starter_code E template_file_path target_dir template_vars w).2 ∧
  exit_status (generate_starter_code E template_file_path (target_dir +:+ "/") template_vars w).1 =
    exit_status (generate_starter_code E template_file_path target_dir template_vars w).1.
Proof.
  assert (resolve (cwd E) (fs w) (starter_code_path template_file_path (target_dir +:+ "/")) =
          resolve (cwd E) (fs w) (starter_code_path template_file_path target_dir)) as Hsame.
  { rewrite !starter_code_path_spec. apply resolve_trailing_slash. }
  split; [apply starter_code_path_spec|]. split; [done|].
  destruct (open_read (cwd E) (fs w) template_file_path) as [e|content] eqn:Hread.
  { unfold generate_starter_code. by rewrite !bind_run, !(read_text_fails _ _ e). }
  assert (∀ target,
    generate_starter_code E template_file_path target template_vars w =
    let w1 := emit (Print Stdout "Generating starter code...")
                (emit (Print Stdout "Parsing template...") w) in
    match open_write (cwd E) (fs w) (starter_code_path template_file_path target) with
    | inl e => (Raise e, w1)
    | inr k => (Return (starter_code_path template_file_path target),
                set_fs (<[k := File (substitute template_vars (universal_newlines content))]>
                          (fs w)) w1)
    end) as Hrun.
  { intros target. unfold generate_starter_code. do 3 walk. rewrite bind_run.
    unfold write_file. cbn [fs emit].
    by destruct (open_write (cwd E) (fs w) (starter_code_path template_file_path target)). }
  rewrite !Hrun. unfold open_write. rewrite Hsame.
  by destruct (resolve (cwd E) (fs w) (starter_code_path template_file_path target_dir))
    as [k|k c [|]|k [|]| |].
Qed.

(** ** The scenarios of the spec, run *)

(** [add Python /templates/sol.py.tpl] on a machine without a registry
    file: the entry is stored under "python" and the file is written. *)
Example scenario_add :
  let f := delete (registry_file (demo_env 200)) demo_fs in
  let end_ := run (demo_env 200) ["bootstrapper.py"; "add"; "Python"; "/templates/sol.py.tpl"]
                (started f) in
  end_.1 = 0%Z ∧
  saved_templates end_.2 = PyDict {[ "python" := "/templates/sol.py.tpl" ]} ∧
  open_read demo_cwd (fs end_.2) SAVED_TEMPLATES_FILE_PATH =
    inr "python=/templates/sol.py.tpl" ∧
  trace end_.2 = [Print Stdout "Template added successfully."].
Proof. repeat split; vm_compute; reflexivity. Qed.

(** [generate 5 Python /out] with the input not yet fetched: the request
    is sent once, the input and the starter code are written, the unknown
    token stays, and the browser is opened. *)
Example scenario_generate :
  let end_ := run (demo_env 200) ["bootstrapper.py"; "generate"; "5"; "Python"; "/out"]
                (started fresh_fs) in
  end_.1 = 0%Z ∧
  open_read demo_cwd (fs end_.2) "inputs/2023/day5.txt" = inr "puzzle input" ∧
  open_read demo_cwd (fs end_.2) "/out/sol.py" = inr "# day 5 of 2023, [[UNUSED]]" ∧
  requests (trace end_.2) =
    [HttpGet "https://www.adventofcode.com/2023/day/5/input" "s3cr3t"] ∧
  error_messages (trace end_.2) = [] ∧
  last (trace end_.2) =
    Some (Print Stdout "Your starter code file is located at /out/sol.py. The challenge page has been opened in your browser. Good luck!").
Proof. repeat split; vm_compute; reflexivity. Qed.

(** The same with a server that answers 404: status 2, one line on
    stderr, and the file system untouched. *)
Example scenario_generate_404 :
  let end_ := run (demo_env 404) ["bootstrapper.py"; "generate"; "5"; "Python"; "/out"]
                (started fresh_fs) in
  end_.1 = 2%Z ∧
  fs end_.2 = fresh_fs ∧
  error_messages (trace end_.2) =
    [Print Stderr "Error 404 while fetching https://www.adventofcode.com/2023/day/5/input. Maybe your day or year is invalid, or maybe your session cookie is incorrect or has expired."].
Proof. repeat split; vm_compute; reflexivity. Qed.

(** A language nobody registered: status 1 and nothing requested. *)
Example scenario_unknown_language :
  let end_ := generate_challenge (demo_env 200) (mkNamespace 5 "Rust" "/out" 2023 "")
                (loaded fresh_fs) in
  end_.1 = Exit (value TEMPLATE_NOT_FOUND) ∧
  requests (trace end_.2) = [] ∧
  fs end_.2 = fresh_fs.
Proof. repeat split; vm_compute; reflexivity. Qed.

(** A target directory that is a regular file: the input is fetched and
    written, and the starter code cannot be: [NotADirectoryError]. *)
Example scenario_target_is_a_file :
  let end_ := run (demo_env 200) ["bootstrapper.py"; "generate"; "5"; "Python"; "/out"]
                (started (<[["out"] := File "not a directory"]> fresh_fs)) in
  end_.1 = 1%Z ∧
  last (trace end_.2) = Some (Traceback (NotADirectoryError "/out/sol.py")) ∧
  open_read demo_cwd (fs end_.2) "inputs/2023/day5.txt" = inr "puzzle input".
Proof. repeat split; vm_compute; reflexivity. Qed.

(** How paths are resolved: a trailing slash asks for a directory, ".."
    goes up also out of the working directory, and a regular file on the
    way is not a missing entry. *)
Example resolution_examples :
  open_read demo_cwd demo_fs "./inputs//2023/day5.txt" = inr "cached input" ∧
  open_read demo_cwd demo_fs "../../templates/sol.py.tpl" = inr demo_template ∧
  open_read demo_cwd demo_fs "inputs/2023/day5.txt/" =
    inl (NotADirectoryError "inputs/2023/day5.txt/") ∧
  open_read demo_cwd demo_fs "inputs/2023/day5.txt/x" =
    inl (NotADirectoryError "inputs/2023/day5.txt/x") ∧
  open_read demo_cwd demo_fs "inputs/2024/day5.txt" =
    inl (FileNotFoundError "inputs/2024/day5.txt") ∧
  open_read demo_cwd demo_fs "" = inl (FileNotFoundError "") ∧
  open_write demo_cwd demo_fs "/out/" = inl (IsADirectoryError "/out/") ∧
  open_write demo_cwd demo_fs "/out/new/" = inl (IsADirectoryError "/out/new/") ∧
  open_write demo_cwd demo_fs "/nowhere/new/" = inl (FileNotFoundError "/nowhere/new/") ∧
  open_write demo_cwd demo_fs "/out/./new" = inr ["out"; "new"] ∧
  make_dir demo_cwd demo_fs "inputs/2024/" = inr ["home"; "aoc"; "inputs"; "2024"] ∧
  make_dir demo_cwd demo_fs "inputs/2023/day5.txt/" =
    inl (FileExistsError "inputs/2023/day5.txt/") ∧
  has_entry demo_cwd demo_fs "inputs/2023/day5.txt/" = false.
Proof. repeat split; vm_compute; reflexivity. Qed.

